(** * bialystok_temp: selection of the latest synoptic record and its
      fixed-width serial encoding

    A shallow embedding of [src/bialystok_temp_Version2_1.py] and of the
    functions written in [src/bialystok_temp.py].  The first part models
    the Python values and built-ins the code relies on; the second part is
    the code of the two files, function by function; the third part states
    and proves the properties of the specification. *)

From Stdlib Require Import ZArith String Ascii List Lia Bool.
From Stdlib Require Import Floats.PrimFloat Floats.SpecFloat Floats.FloatOps.
From Stdlib Require Import Floats.FloatAxioms.
From stdpp Require Import gmap strings sorting.

Set Warnings "-inexact-float,-register-all".
Local Open Scope string_scope.
Local Open Scope Z_scope.

(** ** Exceptions and results

    Every exception the modelled code can meet derives from Python's
    [Exception], so an [except Exception] clause handles all of them. *)

Inductive exn : Type :=
| ValueError | TypeError | OverflowError | AttributeError | KeyError
| IndexError | RequestException.

Inductive result (A : Type) : Type :=
| Ok (a : A)
| Raise (e : exn).
Arguments Ok {A} a.
Arguments Raise {A} e.

Definition bind {A B : Type} (m : result A) (k : A -> result B) : result B :=
  match m with
  | Ok a => k a
  | Raise e => Raise e
  end.

Notation "x <- m ;; k" := (bind m (fun x => k))
  (at level 100, m at next level, right associativity).

(** [mapM f l]: a [for] loop that appends [f x] for every [x], stopping at
    the first exception. *)
Fixpoint mapM {A B : Type} (f : A -> result B) (l : list A) : result (list B) :=
  match l with
  | [] => Ok []
  | x :: l' => y <- f x ;; ys <- mapM f l' ;; Ok (y :: ys)
  end.

(** ** Values of decoded JSON

    [json] decodes null, booleans, integers (unbounded), floats (binary64,
    with the infinities and NaN it accepts), strings, arrays and objects.
    A string is a sequence of code points below 256. *)

Inductive value : Type :=
| VNone
| VBool (b : bool)
| VInt (z : Z)
| VFloat (f : float)
| VStr (s : string)
| VList (l : list value)
| VDict (m : gmap string value).

(** [datetime.datetime]: naive when [tzoffset] is [None], aware otherwise
    (the UTC offset in microseconds). *)
Record datetime : Type := mkdatetime {
  year : Z; month : Z; day : Z;
  hour : Z; minute : Z; second : Z; microsecond : Z;
  tzoffset : option Z
}.

(** ** Characters and decimal numerals *)

Definition code (c : ascii) : Z := Z.of_N (N_of_ascii c).
Definition chr (n : Z) : ascii := ascii_of_N (Z.to_N n).

Definition is_digit (c : ascii) : bool := (48 <=? code c) && (code c <=? 57).
Definition digit_value (c : ascii) : Z := code c - 48.

(** The value of a run of decimal digits, most significant first. *)
Definition digits_value (ds : list ascii) : Z :=
  fold_left (fun acc c => 10 * acc + digit_value c) ds 0.

Fixpoint span_digits (s : list ascii) : list ascii * list ascii :=
  match s with
  | c :: s' =>
      if is_digit c then let '(ds, rest) := span_digits s' in (c :: ds, rest)
      else ([], s)
  | [] => ([], [])
  end.

Fixpoint decimal_digits (fuel : nat) (n : Z) (acc : string) : string :=
  match fuel with
  | O => acc
  | S fuel' =>
      let acc' := String (chr (48 + n mod 10)) acc in
      if n / 10 =? 0 then acc' else decimal_digits fuel' (n / 10) acc'
  end.

(** [str(n)] for an [int]. *)
Definition str_of_int (n : Z) : string :=
  let digits := decimal_digits (S (Z.to_nat (Z.log2 (Z.abs n)))) (Z.abs n) "" in
  if n <? 0 then "-" +:+ digits else digits.

Definition spaces (n : nat) : string := string_of_list_ascii (repeat " "%char n).

(** [s.rjust(w)] and [s.ljust(w)] with the space as fill character. *)
Definition rjust (w : nat) (s : string) : string :=
  spaces (w - String.length s)%nat +:+ s.
Definition ljust (w : nat) (s : string) : string :=
  s +:+ spaces (w - String.length s)%nat.

(** [format(n, "02d")]: at least two characters, zero-filled after the sign. *)
Definition format_02d (n : Z) : string :=
  let digits := str_of_int (Z.abs n) in
  let zeros (w : nat) := string_of_list_ascii (repeat "0"%char (w - String.length digits)%nat) in
  if n <? 0 then "-" +:+ zeros 1%nat +:+ digits else zeros 2%nat +:+ digits.

(** The limit of CPython 3.11 and later on the conversion of an [int] to
    a decimal text ([sys.int_max_str_digits], 4300 unless it is changed,
    and the scripts do not change it): for an integer with more digits, the
    sign aside, [str], [repr] and [format] raise [ValueError]. *)
Definition int_max_str_digits : Z := 4300.

Definition within_str_digits (n : Z) : bool :=
  Z.of_nat (String.length (str_of_int (Z.abs n))) <=? int_max_str_digits.

(** [str(n)] and [format(n, "02d")] for any [int]. *)
Definition py_str_of_int (n : Z) : result string :=
  if within_str_digits n then Ok (str_of_int n) else Raise ValueError.

Definition py_format_02d (n : Z) : result string :=
  if within_str_digits n then Ok (format_02d n) else Raise ValueError.

(** ** Floats

    A Python [float] is a binary64 number, here Rocq's primitive [float];
    conversions go through its exact value [m * 2^e] ([Prim2SF]). *)

(** The float nearest to [n / d], ties to even, negated when [neg]
    ([0 <= n], [0 < d]); an infinity when the quotient is out of range. *)
Definition nearest_float (neg : bool) (n d : Z) : float :=
  let '(q, e, l) := SFdiv_core_binary prec emax n 0 d 0 in
  SF2Prim (binary_round_aux prec emax neg q e l).

(** [float(n)] for an [int]. *)
Definition float_of_int (n : Z) : result float :=
  let f := nearest_float (n <? 0) (Z.abs n) 1 in
  if is_infinity f then Raise OverflowError else Ok f.

(** [int(f)] for a [float]: truncation towards zero. *)
Definition int_of_float (f : float) : result Z :=
  match Prim2SF f with
  | S754_nan => Raise ValueError
  | S754_infinity _ => Raise OverflowError
  | S754_zero _ => Ok 0
  | S754_finite s m e =>
      let a := Z.shiftl (Zpos m) e in Ok (if s then - a else a)
  end.

(** [n / d] rounded to an integer, ties to even ([0 <= n], [0 < d]). *)
Definition div_half_even (n d : Z) : Z :=
  let q := n / d in
  match (2 * (n mod d) ?= d) with
  | Lt => q
  | Eq => if Z.even q then q else q + 1
  | Gt => q + 1
  end.

(** [format(f, ".1f")]: the exact value rounded to one decimal place. *)
Definition format_1f (f : float) : string :=
  match Prim2SF f with
  | S754_nan => "nan"
  | S754_infinity s => if s then "-inf" else "inf"
  | S754_zero s => if s then "-0.0" else "0.0"
  | S754_finite s m e =>
      let tenths :=
        if 0 <=? e then Zpos m * 10 * 2 ^ e
        else div_half_even (Zpos m * 10) (2 ^ (- e)) in
      (if s then "-" else "") +:+ str_of_int (tenths / 10) +:+ "."
        +:+ str_of_int (tenths mod 10)
  end.

(** [format(f, "5.1f")]: one decimal place, right-aligned in five columns. *)
Definition format_5_1f (f : float) : string := rjust 5 (format_1f f).

(** *** [float(s)] for a [str] *)

(** The whitespace [float] strips: tab, LF, VT, FF, CR and space. *)
Definition is_space_ascii (c : ascii) : bool :=
  ((9 <=? code c) && (code c <=? 13)) || (code c =? 32).

(** Before parsing, a non-ASCII space (U+0085, U+00A0) becomes a space and
    any other character from 127 on ends the text with a question mark. *)
Fixpoint to_ascii_number (s : list ascii) : list ascii :=
  match s with
  | [] => []
  | c :: s' =>
      if code c <? 127 then c :: to_ascii_number s'
      else if (code c =? 133) || (code c =? 160) then " "%char :: to_ascii_number s'
      else ["?"%char]
  end.

(** Underscores are dropped, and allowed only between two digits. *)
Fixpoint strip_underscores (prev : ascii) (s : list ascii) : option (list ascii) :=
  match s with
  | [] => if Ascii.eqb prev "_" then None else Some []
  | c :: s' =>
      if Ascii.eqb c "_" then
        if is_digit prev then strip_underscores c s' else None
      else if Ascii.eqb prev "_" && negb (is_digit c) then None
      else option_map (cons c) (strip_underscores c s')
  end.

Definition lower (c : ascii) : ascii :=
  if (65 <=? code c) && (code c <=? 90) then chr (code c + 32) else c.

(** [s] without the prefix [p], letters compared without case. *)
Fixpoint strip_prefix_nocase (p s : list ascii) : option (list ascii) :=
  match p, s with
  | [], _ => Some s
  | a :: p', c :: s' =>
      if Ascii.eqb (lower a) (lower c) then strip_prefix_nocase p' s' else None
  | _ :: _, [] => None
  end.

Definition parse_sign (s : list ascii) : bool * list ascii :=
  match s with
  | c :: s' =>
      if Ascii.eqb c "-" then (true, s')
      else if Ascii.eqb c "+" then (false, s')
      else (false, s)
  | [] => (false, s)
  end.

(** [[+-](inf|infinity|nan)], any case. *)
Definition parse_inf_or_nan (s : list ascii) : option (float * list ascii) :=
  let '(neg, r) := parse_sign s in
  match strip_prefix_nocase (list_ascii_of_string "inf") r with
  | Some r1 =>
      let r2 := match strip_prefix_nocase (list_ascii_of_string "inity") r1 with
                | Some r2 => r2
                | None => r1
                end in
      Some (if neg then neg_infinity else infinity, r2)
  | None =>
      match strip_prefix_nocase (list_ascii_of_string "nan") r with
      | Some r1 => Some (nan, r1)
      | None => None
      end
  end.

(** The exponent part [[eE][+-]digits]; without a digit nothing is read. *)
Definition parse_exponent (s : list ascii) : Z * list ascii :=
  match s with
  | c :: s' =>
      if Ascii.eqb (lower c) "e" then
        let '(eneg, r) := parse_sign s' in
        let '(ds, r') := span_digits r in
        match ds with
        | [] => (0, s)
        | _ => (if eneg then - digits_value ds else digits_value ds, r')
        end
      else (0, s)
  | [] => (0, s)
  end.

(** [[+-](digits[.digits*]|.digits)[exponent]], correctly rounded. *)
Definition parse_decimal (s : list ascii) : option (float * list ascii) :=
  let '(neg, r) := parse_sign s in
  let '(ip, r1) := span_digits r in
  let '(fp, r2) := match r1 with
                   | c :: r' => if Ascii.eqb c "." then span_digits r' else ([], r1)
                   | [] => ([], r1)
                   end in
  match (ip ++ fp)%list with
  | [] => None
  | ds =>
      let '(ex, r3) := parse_exponent r2 in
      let e10 := ex - Z.of_nat (length fp) in
      let m := digits_value ds in
      Some (if 0 <=? e10 then nearest_float neg (m * 10 ^ e10) 1
            else nearest_float neg m (10 ^ (- e10)), r3)
  end.

Fixpoint drop_while (p : ascii -> bool) (s : list ascii) : list ascii :=
  match s with
  | c :: s' => if p c then drop_while p s' else s
  | [] => []
  end.

Definition strip_spaces (s : list ascii) : list ascii :=
  rev (drop_while is_space_ascii (rev (drop_while is_space_ascii s))).

Definition float_of_string (s : string) : result float :=
  match strip_underscores "000"%char (to_ascii_number (list_ascii_of_string s)) with
  | None => Raise ValueError
  | Some cs =>
      let body := strip_spaces cs in
      let parsed := match parse_decimal body with
                    | Some r => Some r
                    | None => parse_inf_or_nan body
                    end in
      match parsed with
      | Some (f, []) => Ok f
      | _ => Raise ValueError
      end
  end.

(** ** [datetime] *)

Definition is_leap (y : Z) : bool :=
  (y mod 4 =? 0) && (negb (y mod 100 =? 0) || (y mod 400 =? 0)).

Definition days_in_month (y m : Z) : Z :=
  if m =? 2 then (if is_leap y then 29 else 28)
  else if (m =? 4) || (m =? 6) || (m =? 9) || (m =? 11) then 30
  else 31.

(** [datetime(y, mo, d, h, mi, s)]: a naive datetime, [ValueError] when a
    field is out of range. *)
Definition datetime_new (y mo d h mi s : Z) : result datetime :=
  if (1 <=? y) && (y <=? 9999) && (1 <=? mo) && (mo <=? 12)
     && (1 <=? d) && (d <=? days_in_month y mo)
     && (0 <=? h) && (h <=? 23) && (0 <=? mi) && (mi <=? 59)
     && (0 <=? s) && (s <=? 59)
  then Ok (mkdatetime y mo d h mi s 0 None)
  else Raise ValueError.

(** *** [datetime.strptime]

    [strptime] turns the format into a regular expression, matched from
    the start of the text without case, and rejects a match that leaves
    text over.  A directive is a list of alternatives, tried in order,
    each a sequence of character classes. *)

Inductive directive : Type := dir_Y | dir_m | dir_d | dir_H | dir_M | dir_S.

Inductive char_class : Type :=
| Digit (lo hi : Z)      (* a digit between [lo] and [hi] *)
| Blank.                 (* the space character *)

Inductive pattern_item : Type :=
| Directive (d : directive)
| Literal (c : ascii)
| Whitespace.            (* [\s+] *)

Definition alternatives (d : directive) : list (list char_class) :=
  match d with
  | dir_Y => [[Digit 0 9; Digit 0 9; Digit 0 9; Digit 0 9]]
  | dir_m => [[Digit 1 1; Digit 0 2]; [Digit 0 0; Digit 1 9]; [Digit 1 9]]
  | dir_d => [[Digit 3 3; Digit 0 1]; [Digit 1 2; Digit 0 9]; [Digit 0 0; Digit 1 9];
              [Digit 1 9]; [Blank; Digit 1 9]]
  | dir_H => [[Digit 2 2; Digit 0 3]; [Digit 0 1; Digit 0 9]; [Digit 0 9]]
  | dir_M => [[Digit 0 5; Digit 0 9]; [Digit 0 9]]
  | dir_S => [[Digit 6 6; Digit 0 1]; [Digit 0 5; Digit 0 9]; [Digit 0 9]]
  end.

(** The whitespace of [\s]: what [str.isspace] accepts below 256. *)
Definition is_space_re (c : ascii) : bool :=
  ((9 <=? code c) && (code c <=? 13)) || ((28 <=? code c) && (code c <=? 32))
  || (code c =? 133) || (code c =? 160).

Definition directive_of (c : ascii) : option directive :=
  if Ascii.eqb c "Y" then Some dir_Y else if Ascii.eqb c "m" then Some dir_m
  else if Ascii.eqb c "d" then Some dir_d else if Ascii.eqb c "H" then Some dir_H
  else if Ascii.eqb c "M" then Some dir_M else if Ascii.eqb c "S" then Some dir_S
  else None.

(** The pattern of a format: [%x] is a directive, a run of whitespace is
    [\s+], any other character stands for itself. *)
Fixpoint compile_format (fmt : list ascii) (after_space : bool) : option (list pattern_item) :=
  match fmt with
  | [] => Some []
  | c :: fmt' =>
      if Ascii.eqb c "%" then
        match fmt' with
        | x :: fmt'' =>
            match directive_of x, compile_format fmt'' false with
            | Some d, Some p => Some (Directive d :: p)
            | _, _ => None
            end
        | [] => None
        end
      else if is_space_re c then
        match compile_format fmt' true with
        | Some p => Some (if after_space then p else Whitespace :: p)
        | None => None
        end
      else option_map (cons (Literal c)) (compile_format fmt' false)
  end.

(** The fields [strptime] collects, with its defaults. *)
Record fields : Type := mkfields { fY : Z; fm : Z; fd : Z; fH : Z; fM : Z; fS : Z }.

Definition default_fields : fields := mkfields 1900 1 1 0 0 0.

Definition set_field (d : directive) (v : Z) (f : fields) : fields :=
  match d with
  | dir_Y => mkfields v (fm f) (fd f) (fH f) (fM f) (fS f)
  | dir_m => mkfields (fY f) v (fd f) (fH f) (fM f) (fS f)
  | dir_d => mkfields (fY f) (fm f) v (fH f) (fM f) (fS f)
  | dir_H => mkfields (fY f) (fm f) (fd f) v (fM f) (fS f)
  | dir_M => mkfields (fY f) (fm f) (fd f) (fH f) v (fS f)
  | dir_S => mkfields (fY f) (fm f) (fd f) (fH f) (fM f) v
  end.

Definition in_class (k : char_class) (c : ascii) : bool :=
  match k with
  | Digit lo hi => is_digit c && (lo <=? digit_value c) && (digit_value c <=? hi)
  | Blank => Ascii.eqb c " "
  end.

(** One alternative against the start of [s]: the text it matched and the rest. *)
Fixpoint match_classes (ks : list char_class) (s : list ascii)
  : option (list ascii * list ascii) :=
  match ks with
  | [] => Some ([], s)
  | k :: ks' =>
      match s with
      | c :: s' =>
          if in_class k c then
            match match_classes ks' s' with
            | Some (txt, rest) => Some (c :: txt, rest)
            | None => None
            end
          else None
      | [] => None
      end
  end.

(** The first alternative that lets the continuation [k] succeed. *)
Fixpoint first_alternative {R : Type} (alts : list (list char_class)) (s : list ascii)
    (k : list ascii -> list ascii -> option R) : option R :=
  match alts with
  | [] => None
  | a :: alts' =>
      let next := first_alternative alts' s k in
      match match_classes a s with
      | Some (txt, rest) =>
          match k txt rest with
          | Some r => Some r
          | None => next
          end
      | None => next
      end
  end.

(** [\s*] then [k], the longest run first. *)
Fixpoint whitespace_star {R : Type} (s : list ascii) (k : list ascii -> option R) : option R :=
  match s with
  | c :: s' =>
      if is_space_re c then
        match whitespace_star s' k with
        | Some r => Some r
        | None => k s
        end
      else k s
  | [] => k s
  end.

Fixpoint regex_match (p : list pattern_item) (s : list ascii) (f : fields)
  : option (fields * list ascii) :=
  match p with
  | [] => Some (f, s)
  | Directive d :: p' =>
      first_alternative (alternatives d) s
        (fun txt rest => regex_match p' rest (set_field d (digits_value (filter is_digit txt)) f))
  | Literal c :: p' =>
      match s with
      | c' :: s' => if Ascii.eqb (lower c) (lower c') then regex_match p' s' f else None
      | [] => None
      end
  | Whitespace :: p' =>
      match s with
      | c :: s' =>
          if is_space_re c then whitespace_star s' (fun rest => regex_match p' rest f)
          else None
      | [] => None
      end
  end.

(** [datetime.strptime(date_string, format)] on two strings. *)
Definition strptime (date_string format : string) : result datetime :=
  match compile_format (list_ascii_of_string format) false with
  | None => Raise ValueError
  | Some p =>
      match regex_match p (list_ascii_of_string date_string) default_fields with
      | Some (f, []) => datetime_new (fY f) (fm f) (fd f) (fH f) (fM f) (fS f)
      | _ => Raise ValueError
      end
  end.

(** *** Comparison of datetimes

    Two naive datetimes compare field by field, two aware ones by their
    UTC instants; ordering a naive against an aware one raises
    [TypeError], while [==] between them is [False]. *)

Definition naive_fields (d : datetime) : list Z :=
  [year d; month d; day d; hour d; minute d; second d; microsecond d].

Fixpoint lex_lt (a b : list Z) : bool :=
  match a, b with
  | x :: a', y :: b' => (x <? y) || ((x =? y) && lex_lt a' b')
  | [], _ :: _ => true
  | _, [] => false
  end.

Fixpoint lex_eq (a b : list Z) : bool :=
  match a, b with
  | x :: a', y :: b' => (x =? y) && lex_eq a' b'
  | [], [] => true
  | _, _ => false
  end.

Definition days_before_year (y : Z) : Z :=
  (y - 1) * 365 + (y - 1) / 4 - (y - 1) / 100 + (y - 1) / 400.

Definition days_before_month (y m : Z) : Z :=
  fold_left (fun acc k => acc + days_in_month y (Z.of_nat k)) (seq 1 (Z.to_nat (m - 1))) 0.

Definition toordinal (d : datetime) : Z :=
  days_before_year (year d) + days_before_month (year d) (month d) + day d.

(** Microseconds since the start of year 1, in UTC, for the offset [off]. *)
Definition utc_microseconds (d : datetime) (off : Z) : Z :=
  (((toordinal d * 24 + hour d) * 60 + minute d) * 60 + second d) * 1000000
  + microsecond d - off.

Definition datetime_eq (a b : datetime) : bool :=
  match tzoffset a, tzoffset b with
  | None, None => lex_eq (naive_fields a) (naive_fields b)
  | Some oa, Some ob => utc_microseconds a oa =? utc_microseconds b ob
  | _, _ => false
  end.

Definition datetime_lt (a b : datetime) : result bool :=
  match tzoffset a, tzoffset b with
  | None, None => Ok (lex_lt (naive_fields a) (naive_fields b))
  | Some oa, Some ob => Ok (utc_microseconds a oa <? utc_microseconds b ob)
  | _, _ => Raise TypeError
  end.

(** [a < b] on the tuples [(d is None, d)] used as sort keys: the first
    position where the tuples differ (by [==]) decides. *)
Definition key_lt (a b : bool * option datetime) : result bool :=
  if negb (Bool.eqb (fst a) (fst b)) then Ok (negb (fst a) && fst b)
  else match snd a, snd b with
       | None, None => Ok false
       | Some x, Some y => if datetime_eq x y then Ok false else datetime_lt x y
       | _, _ => Raise TypeError
       end.

(** ** [list.sort(key=..., reverse=...)]

    The sort is stable and compares keys with [<] only; a comparison that
    raises ends it.  With [reverse=True] the list is reversed, sorted and
    reversed again, so equal keys keep their original order. *)

Section Sort.
Context {A K : Type} (key : A -> K) (lt : K -> K -> result bool).

(** [x] goes before the first element whose key is greater than its own. *)
Fixpoint insert_sorted (x : A) (l : list A) : result (list A) :=
  match l with
  | [] => Ok [x]
  | y :: l' =>
      b <- lt (key x) (key y) ;;
      if b then Ok (x :: l) else (r <- insert_sorted x l' ;; Ok (y :: r))
  end.

Fixpoint sort_from (sorted : list A) (l : list A) : result (list A) :=
  match l with
  | [] => Ok sorted
  | x :: l' => sorted' <- insert_sorted x sorted ;; sort_from sorted' l'
  end.

Definition list_sort (reverse : bool) (l : list A) : result (list A) :=
  if reverse then (r <- sort_from [] (rev l) ;; Ok (rev r))
  else sort_from [] l.
End Sort.

(** ** Operations on values *)

(** [bool(v)]. *)
Definition truthy (v : value) : bool :=
  match v with
  | VNone => false
  | VBool b => b
  | VInt z => negb (z =? 0)
  | VFloat f => negb (is_zero f)
  | VStr s => negb (String.eqb s "")
  | VList l => match l with [] => false | _ :: _ => true end
  | VDict m => negb (Nat.eqb (size m) 0)
  end.

Fixpoint is_prefix (p s : string) : bool :=
  match p, s with
  | EmptyString, _ => true
  | String a p', String c s' => Ascii.eqb a c && is_prefix p' s'
  | String _ _, EmptyString => false
  end.

Fixpoint is_substring (p s : string) : bool :=
  is_prefix p s
  || match s with
     | String _ s' => is_substring p s'
     | EmptyString => false
     end.

(** [k in v] for a string [k]: a key of a dict, a substring of a string, an
    element of a list; other values are not containers. *)
Definition py_in (k : string) (v : value) : result bool :=
  match v with
  | VDict m => Ok (match m !! k with Some _ => true | None => false end)
  | VStr s => Ok (is_substring k s)
  | VList l =>
      Ok (existsb (fun x => match x with VStr s => String.eqb s k | _ => false end) l)
  | VNone | VBool _ | VInt _ | VFloat _ => Raise TypeError
  end.

(** [v.get(k)]: only a dict has the method. *)
Definition py_get (v : value) (k : string) : result value :=
  match v with
  | VDict m => Ok (match m !! k with Some x => x | None => VNone end)
  | _ => Raise AttributeError
  end.

(** [v[k]] for a string [k]. *)
Definition py_getitem (v : value) (k : string) : result value :=
  match v with
  | VDict m => match m !! k with Some x => Ok x | None => Raise KeyError end
  | _ => Raise TypeError
  end.

(** [isinstance(v, (int, float))]; [bool] is a subclass of [int]. *)
Definition is_number (v : value) : bool :=
  match v with
  | VBool _ | VInt _ | VFloat _ => true
  | _ => false
  end.

(** [int(v)] for a number. *)
Definition py_int (v : value) : result Z :=
  match v with
  | VBool b => Ok (if b then 1 else 0)
  | VInt z => Ok z
  | VFloat f => int_of_float f
  | _ => Raise TypeError
  end.

(** [float(v)]. *)
Definition py_float (v : value) : result float :=
  match v with
  | VBool b => Ok (if b then 1%float else 0%float)
  | VInt z => float_of_int z
  | VFloat f => Ok f
  | VStr s => float_of_string s
  | VNone | VList _ | VDict _ => Raise TypeError
  end.

(** [v not in (None, '')]. *)
Definition not_none_or_empty (v : value) : bool :=
  match v with
  | VNone => false
  | VStr s => negb (String.eqb s "")
  | _ => true
  end.

(** [s.replace(a, b)] for two characters. *)
Fixpoint replace_char (a b : ascii) (s : string) : string :=
  match s with
  | EmptyString => EmptyString
  | String c s' => String (if Ascii.eqb c a then b else c) (replace_char a b s')
  end.

(** [template.format(arg)]: the first [{}] becomes [arg]. *)
Fixpoint format_braces (template arg : string) : string :=
  match template with
  | String "{" (String "}" rest) => arg +:+ rest
  | String c rest => String c (format_braces rest arg)
  | EmptyString => EmptyString
  end.

(** ** The libraries around the scripts

    What the scripts call and this development does not define: the ISO
    8601 parser of [datetime], whose accepted texts differ between Python
    versions, [repr] of floats, [repr] of containers, which raises where
    the [repr] of an element does, and the HTTP request ([requests.get],
    [raise_for_status] and [json] in one). *)

Record environment : Type := {
  fromisoformat : string -> result datetime;
  repr_float : float -> string;
  repr_list : list value -> result string;
  repr_dict : gmap string value -> result string;
  http_get_json : string -> result value
}.

(** [str(v)], also what an f-string writes for [{v}]. *)
Definition py_str (env : environment) (v : value) : result string :=
  match v with
  | VNone => Ok "None"
  | VBool b => Ok (if b then "True" else "False")
  | VInt z => py_str_of_int z
  | VFloat f => Ok (repr_float env f)
  | VStr s => Ok s
  | VList l => repr_list env l
  | VDict m => repr_dict env m
  end.

(** [datetime.strptime] and [datetime.fromisoformat] on any value: only a
    [str] is accepted. *)
Definition py_strptime (v : value) (format : string) : result datetime :=
  match v with
  | VStr s => strptime s format
  | _ => Raise TypeError
  end.

Definition py_fromisoformat (env : environment) (v : value) : result datetime :=
  match v with
  | VStr s => fromisoformat env s
  | _ => Raise TypeError
  end.

(** [try: body / except Exception: handler]. *)
Definition try_except {A : Type} (body : result A) (handler : exn -> result A) : result A :=
  match body with
  | Ok a => Ok a
  | Raise e => handler e
  end.

(** ** Console and serial port

    What a run prints and writes is recorded as a list of events.  A
    printed line is recorded by its template and the values it
    interpolates; the wording of each template is quoted beside it. *)

(** [s.encode('ascii', errors='replace')]: one byte per character, a
    question mark for a character that is not ASCII. *)
Definition encode_ascii_replace (s : string) : list Z :=
  map (fun c => if code c <? 128 then code c else 63) (list_ascii_of_string s).

(** An open [serial.Serial]: [write] and [close] may raise. *)
Record serial_port : Type := {
  ser_write : list Z -> result unit;
  ser_close : result unit
}.

(** The [serial] module: [None] when its import failed, otherwise
    [serial.Serial(port=..., baudrate=..., timeout=1.0)]. *)
Record device : Type := {
  pyserial : option (string -> Z -> result serial_port)
}.

(** The two [RuntimeError]s of [open_serial]. *)
Inductive runtime_error : Type :=
| NoPyserial                               (* "Brak modułu 'pyserial'. ..." *)
| CannotOpen (port : string) (e : exn).    (* "Nie można otworzyć portu szeregowego {port}: {e}" *)

Inductive message : Type :=
| PortOpened (port : string) (baud : Z)    (* "Otwarty port szeregowy: {port} @ {baud}" *)
| Warning (e : runtime_error)              (* "Uwaga: {e}" *)
| ApiError (e : exn)                       (* "Błąd połączenia z API: {e}" *)
| NoData (station : Z)                     (* "Brak danych dla stacji {station}." *)
| Station (name : value) (station : Z)     (* "Stacja: {station_name} (id={station})" *)
| LastTime (dt : datetime)                 (* "Nie znaleziono pola z temperaturą w ostatnich
                                              rekordach. Ostatni dostępny czas pomiaru: {dt}" *)
| NothingFound                             (* "Nie znaleziono danych pomiarowych
                                              zawierających czas ani temperaturę." *)
| Temperature (text : string)              (* "Temperatura: {temp:.1f} °C" *)
| MeasurementTime (dt : option datetime)   (* "Czas pomiaru: {time_str}", the ISO text of
                                              [dt] or "brak czasu pomiaru" *)
| Sending (port : string) (text : string)  (* "Wysyłam na {port}: {repr(serial_str)}" *)
| WriteError (e : exn).                    (* "Błąd zapisu do portu szeregowego: {e}" *)

Inductive event : Type :=
| Stdout (m : message)
| Stderr (m : message)
| SerialWrite (data : list Z)              (* a call of [ser.write] *)
| SerialClose.                             (* a call of [ser.close] *)

(** The command line of the two scripts. *)
Record arguments : Type := {
  station : Z;
  serial_port_name : string;
  baud : Z;
  interval : Z;
  once : bool
}.

(** * The two scripts *)

(** ** [src/bialystok_temp_Version2_1.py] *)

Module bialystok_temp_Version2_1.
Section Code.
Context (env : environment).

Definition API_BASE : string := "https://danepubliczne.imgw.pl/api/data/synop/id/{}".

Definition fmts : list string :=
  [ "%Y-%m-%dT%H:%M:%S";
    "%Y-%m-%d %H:%M:%S";
    "%Y-%m-%d %H:%M";
    "%Y-%m-%d %H";
    "%Y-%m-%d" ].

(** The loop over [fmts]: return at the first format that parses,
    [continue] on an exception; [after] is the code below the loop. *)
Fixpoint try_fmts (date_str : value) (fmts : list string)
    (after : result (option datetime)) : result (option datetime) :=
  match fmts with
  | [] => after
  | fmt :: fmts' =>
      try_except (d <- py_strptime date_str fmt ;; Ok (Some d))
                 (fun _ => try_fmts date_str fmts' after)
  end.

Definition try_parse_datetime (date_str : value) : result (option datetime) :=
  if negb (truthy date_str) then Ok None
  else
    try_fmts date_str fmts
      (try_except (d <- py_fromisoformat env date_str ;; Ok (Some d))
                  (fun _ => Ok None)).

(** The loop over the other possible fields of [record_datetime]. *)
Fixpoint other_fields (rec : value) (keys : list string) : result (option datetime) :=
  match keys with
  | [] => Ok None
  | key :: keys' =>
      present <- py_in key rec ;;
      nonempty <- (if present then (v <- py_get rec key ;; Ok (truthy v)) else Ok false) ;;
      if nonempty then
        v <- py_get rec key ;;
        text <- py_str env v ;;
        d <- try_parse_datetime (VStr text) ;;
        match d with
        | Some d => Ok (Some d)
        | None => other_fields rec keys'
        end
      else other_fields rec keys'
  end.

(** [rec.get('godzina_pomiaru') or rec.get('godzina') or rec.get('time')]. *)
Definition time_part_of (rec : value) : result value :=
  a <- py_get rec "godzina_pomiaru" ;;
  if truthy a then Ok a
  else
    b <- py_get rec "godzina" ;;
    if truthy b then Ok b else py_get rec "time".

Definition record_datetime (rec : value) : result (option datetime) :=
  present <- py_in "data_pomiaru" rec ;;
  found <-
    (if present then
       date_part <- py_get rec "data_pomiaru" ;;
       time_part <- time_part_of rec ;;
       time_part <-
         (if is_number time_part then
            h <- py_int time_part ;;
            text <- py_format_02d h ;;
            Ok (VStr (text +:+ ":00:00"))
          else Ok time_part) ;;
       d <-
         (if truthy date_part && truthy time_part then
            date_text <- py_str env date_part ;;
            time_text <- py_str env time_part ;;
            try_parse_datetime (VStr (date_text +:+ " " +:+ time_text))
          else Ok None) ;;
       match d with
       | Some d => Ok (Some d)
       | None =>
           date_text <- py_str env date_part ;;
           try_parse_datetime (VStr date_text)
       end
     else Ok None) ;;
  match found with
  | Some d => Ok (Some d)
  | None => other_fields rec ["timestamp"; "date"; "data"]
  end.

Definition candidates : list string := ["temperatura"; "temp"; "temperature"; "t"].

(** The body of the [try] in [extract_temp]: a comma in a string counts
    as the decimal point. *)
Definition coerce (v : value) : result float :=
  let v := match v with
           | VStr s => VStr (replace_char "," "." s)
           | _ => v
           end in
  py_float v.

(** The loop of [extract_temp] over the candidate keys. *)
Fixpoint extract_from (rec : value) (candidates : list string) : result (option float) :=
  match candidates with
  | [] => Ok None
  | k :: candidates' =>
      present <- py_in k rec ;;
      usable <- (if present then (v <- py_getitem rec k ;; Ok (not_none_or_empty v))
                 else Ok false) ;;
      if usable then
        v <- py_getitem rec k ;;
        try_except (f <- coerce v ;; Ok (Some f))
                   (fun _ => extract_from rec candidates')
      else extract_from rec candidates'
  end.

Definition extract_temp (rec : value) : result (option float) :=
  extract_from rec candidates.

(** The records of the decoded answer. *)
Definition records_of (data : value) : list value :=
  match data with
  | VList l => l
  | VDict _ => [data]
  | _ => []
  end.

(** [with_dt] after the sort. *)
Definition sorted_with_dt (records : list value)
  : result (list (option datetime * value)) :=
  with_dt <- mapM (fun rec => d <- record_datetime rec ;; Ok (d, rec)) records ;;
  list_sort (fun x => (match fst x with None => true | Some _ => false end, fst x))
            key_lt true with_dt.

(** The loop that takes the first record with a temperature. *)
Fixpoint first_with_temp (with_dt : list (option datetime * value))
  : result (option (float * option datetime * value)) :=
  match with_dt with
  | [] => Ok None
  | (d, rec) :: with_dt' =>
      temp <- extract_temp rec ;;
      match temp with
      | Some temp => Ok (Some (temp, d, rec))
      | None => first_with_temp with_dt'
      end
  end.

(** [fetch_latest_for_station] from the decoded answer on. *)
Definition latest_of (data : value)
  : result (option float * option datetime * option value) :=
  let records := records_of data in
  match records with
  | [] => Ok (None, None, None)
  | _ :: _ =>
      with_dt <- sorted_with_dt records ;;
      hit <- first_with_temp with_dt ;;
      match hit with
      | Some (temp, d, rec) => Ok (Some temp, d, Some rec)
      | None =>
          match with_dt with
          | (first_d, first_rec) :: _ => Ok (None, first_d, Some first_rec)
          | [] => Raise IndexError
          end
      end
  end.

(** [station_id] is made by [int] from a text of the command line, which
    refuses a text over the limit of digits; the text of the identifier in
    the address can then be written. *)
Definition fetch_latest_for_station (station_id : Z)
  : result (option float * option datetime * option value) :=
  let url := format_braces API_BASE (str_of_int station_id) in
  data <- http_get_json env url ;;
  latest_of data.

(** The text assembled by [format_serial_string], before its length is
    checked. *)
Definition serial_text (temp : option float) (dt : option datetime) : string :=
  let temp_field := match temp with
                    | None => spaces 5
                    | Some temp => format_5_1f temp
                    end in
  let hour_field := match dt with
                    | None => "00"
                    | Some dt => format_02d (hour dt)
                    end in
  temp_field +:+ "//" +:+ hour_field +:+ "::".

Definition format_serial_string (temp : option float) (dt : option datetime) : string :=
  let out := serial_text temp dt in
  if negb (Nat.eqb (String.length out) 11) then ljust 11 (substring 0 11 out)
  else out.


Context (dev : device).

Definition open_serial (port : string) (baudrate : Z) : runtime_error + serial_port :=
  match pyserial dev with
  | None => inl NoPyserial
  | Some Serial =>
      match Serial port baudrate with
      | Ok ser => inr ser
      | Raise e => inl (CannotOpen port e)
      end
  end.

(** [rec.get('stacja') or rec.get('station') or f"id={args.station}"]. *)
Definition station_name_of (rec : value) (station : Z) : result value :=
  a <- py_get rec "stacja" ;;
  if truthy a then Ok a
  else
    b <- py_get rec "station" ;;
    if truthy b then Ok b else Ok (VStr ("id=" +:+ str_of_int station)).

(** The lines both scripts print about a record. *)
Definition report (station_name : value) (station : Z)
    (temp : option float) (dt : option datetime) : list event :=
  match temp with
  | None =>
      [ Stdout (Station station_name station);
        match dt with
        | Some d => Stdout (LastTime d)
        | None => Stdout NothingFound
        end ]
  | Some temp =>
      [ Stdout (Station station_name station);
        Stdout (Temperature (format_1f temp));
        Stdout (MeasurementTime dt) ]
  end.

(** [do_cycle] of [main], for the port [ser] that [main] holds. *)
Definition do_cycle (args : arguments) (ser : option serial_port) : result (list event) :=
  match fetch_latest_for_station (station args) with
  | Raise RequestException => Ok [Stdout (ApiError RequestException)]
  | Raise e => Raise e
  | Ok (temp, dt, None) => Ok [Stdout (NoData (station args))]
  | Ok (temp, dt, Some rec) =>
      station_name <- station_name_of rec (station args) ;;
      let serial_str := format_serial_string temp dt in
      let written :=
        match ser with
        | None => []
        | Some ser =>
            let data := encode_ascii_replace serial_str in
            SerialWrite data ::
              match ser_write ser data with
              | Ok _ => []
              | Raise e => [Stderr (WriteError e)]
              end
        end in
      Ok (report station_name (station args) temp dt
          ++ Stdout (Sending (serial_port_name args) serial_str) :: written)%list
  end.

(** [main] with [--once]: the port is opened, one cycle runs, and the
    [finally] clause closes the port, ignoring what [close] raises; the
    second component is the exception that leaves [main], if any. *)
Definition main_once (args : arguments) : list event * option exn :=
  let '(ser, opening) :=
    match open_serial (serial_port_name args) (baud args) with
    | inr ser => (Some ser, [Stdout (PortOpened (serial_port_name args) (baud args))])
    | inl e => (None, [Stderr (Warning e)])
    end in
  let closing := match ser with Some _ => [SerialClose] | None => [] end in
  match do_cycle args ser with
  | Ok events => ((opening ++ events ++ closing)%list, None)
  | Raise e => ((opening ++ closing)%list, Some e)
  end.

End Code.
End bialystok_temp_Version2_1.

(** ** [src/bialystok_temp.py]

    The file begins with three quotation marks in front of [#!], closed on
    its second line; the lines of its description are then read as code,
    and the three quotation marks that end the description open a text
    that is never closed.  Python refuses the file with [SyntaxError], so
    nothing of it runs as it stands.  Below are the functions of its lines
    20 to 110 as they are written there, which is how they would run
    without the three quotation marks of the first line. *)

Module bialystok_temp.
Section Code.
Context (env : environment).

Definition fmts : list string :=
  [ "%Y-%m-%dT%H:%M:%S";
    "%Y-%m-%d %H:%M:%S";
    "%Y-%m-%d %H:%M";
    "%Y-%m-%d %H";
    "%Y-%m-%d" ].

(** The loop over [fmts]: return at the first format that parses,
    [continue] on an exception; [after] is the code below the loop. *)
Fixpoint try_fmts (date_str : value) (fmts : list string)
    (after : result (option datetime)) : result (option datetime) :=
  match fmts with
  | [] => after
  | fmt :: fmts' =>
      try_except (d <- py_strptime date_str fmt ;; Ok (Some d))
                 (fun _ => try_fmts date_str fmts' after)
  end.

Definition try_parse_datetime (date_str : value) : result (option datetime) :=
  if negb (truthy date_str) then Ok None
  else
    try_fmts date_str fmts
      (try_except (d <- py_fromisoformat env date_str ;; Ok (Some d))
                  (fun _ => Ok None)).

(** The loop over the other possible fields of [record_datetime]. *)
Fixpoint other_fields (rec : value) (keys : list string) : result (option datetime) :=
  match keys with
  | [] => Ok None
  | key :: keys' =>
      present <- py_in key rec ;;
      nonempty <- (if present then (v <- py_get rec key ;; Ok (truthy v)) else Ok false) ;;
      if nonempty then
        v <- py_get rec key ;;
        text <- py_str env v ;;
        d <- try_parse_datetime (VStr text) ;;
        match d with
        | Some d => Ok (Some d)
        | None => other_fields rec keys'
        end
      else other_fields rec keys'
  end.

(** [rec.get('godzina_pomiaru') or rec.get('godzina') or rec.get('time')]. *)
Definition time_part_of (rec : value) : result value :=
  a <- py_get rec "godzina_pomiaru" ;;
  if truthy a then Ok a
  else
    b <- py_get rec "godzina" ;;
    if truthy b then Ok b else py_get rec "time".

Definition record_datetime (rec : value) : result (option datetime) :=
  present <- py_in "data_pomiaru" rec ;;
  found <-
    (if present then
       date_part <- py_get rec "data_pomiaru" ;;
       time_part <- time_part_of rec ;;
       time_part <-
         (if is_number time_part then
            h <- py_int time_part ;;
            text <- py_format_02d h ;;
            Ok (VStr (text +:+ ":00:00"))
          else Ok time_part) ;;
       d <-
         (if truthy date_part && truthy time_part then
            date_text <- py_str env date_part ;;
            time_text <- py_str env time_part ;;
            try_parse_datetime (VStr (date_text +:+ " " +:+ time_text))
          else Ok None) ;;
       match d with
       | Some d => Ok (Some d)
       | None =>
           date_text <- py_str env date_part ;;
           try_parse_datetime (VStr date_text)
       end
     else Ok None) ;;
  match found with
  | Some d => Ok (Some d)
  | None => other_fields rec ["timestamp"; "date"; "data"]
  end.

Definition candidates : list string := ["temperatura"; "temp"; "temperature"; "t"].

(** The body of the [try] in [extract_temp]: a comma in a string counts
    as the decimal point. *)
Definition coerce (v : value) : result float :=
  let v := match v with
           | VStr s => VStr (replace_char "," "." s)
           | _ => v
           end in
  py_float v.

(** The loop of [extract_temp] over the candidate keys. *)
Fixpoint extract_from (rec : value) (candidates : list string) : result (option float) :=
  match candidates with
  | [] => Ok None
  | k :: candidates' =>
      present <- py_in k rec ;;
      usable <- (if present then (v <- py_getitem rec k ;; Ok (not_none_or_empty v))
                 else Ok false) ;;
      if usable then
        v <- py_getitem rec k ;;
        try_except (f <- coerce v ;; Ok (Some f))
                   (fun _ => extract_from rec candidates')
      else extract_from rec candidates'
  end.

Definition extract_temp (rec : value) : result (option float) :=
  extract_from rec candidates.

(** The records of the decoded answer. *)
Definition records_of (data : value) : list value :=
  match data with
  | VList l => l
  | VDict _ => [data]
  | _ => []
  end.

(** [with_dt] after the sort. *)
Definition sorted_with_dt (records : list value)
  : result (list (option datetime * value)) :=
  with_dt <- mapM (fun rec => d <- record_datetime rec ;; Ok (d, rec)) records ;;
  list_sort (fun x => (match fst x with None => true | Some _ => false end, fst x))
            key_lt true with_dt.

(** The loop that takes the first record with a temperature. *)
Fixpoint first_with_temp (with_dt : list (option datetime * value))
  : result (option (float * option datetime * value)) :=
  match with_dt with
  | [] => Ok None
  | (d, rec) :: with_dt' =>
      temp <- extract_temp rec ;;
      match temp with
      | Some temp => Ok (Some (temp, d, rec))
      | None => first_with_temp with_dt'
      end
  end.

(** [fetch_latest_for_station] from the decoded answer on. *)
Definition latest_of (data : value)
  : result (option float * option datetime * option value) :=
  let records := records_of data in
  match records with
  | [] => Ok (None, None, None)
  | _ :: _ =>
      with_dt <- sorted_with_dt records ;;
      hit <- first_with_temp with_dt ;;
      match hit with
      | Some (temp, d, rec) => Ok (Some temp, d, Some rec)
      | None =>
          match with_dt with
          | (first_d, first_rec) :: _ => Ok (None, first_d, Some first_rec)
          | [] => Raise IndexError
          end
      end
  end.

End Code.
End bialystok_temp.


(** * Vocabulary of the statements *)

Module V1 := bialystok_temp.
Module V2 := bialystok_temp_Version2_1.

(** A record given by its fields. *)
Definition record (fields : list (string * value)) : value :=
  VDict (list_to_map fields).

(** An environment for closed examples: every request is answered with
    [data], the ISO parser accepts no text, and [repr] writes a mark; no
    example reaches the last two. *)
Definition answering (data : value) : environment :=
  {| fromisoformat := fun _ => Raise ValueError;
     repr_float := fun _ => "<float>";
     repr_list := fun _ => Ok "<list>";
     repr_dict := fun _ => Ok "<dict>";
     http_get_json := fun _ => Ok data |}.

(** The field [k] of the record [m] gives no temperature: it is missing,
    [None] or the empty string, or its value is not a number. *)
Definition unusable (m : gmap string value) (k : string) : Prop :=
  match m !! k with
  | None => True
  | Some v => not_none_or_empty v = false \/ exists e, V2.coerce v = Raise e
  end.

(** The timestamp a text parses to, if any. *)
Definition parse_text (env : environment) (s : string) : option datetime :=
  match V2.try_parse_datetime env (VStr s) with
  | Ok r => r
  | Raise _ => None
  end.

(** The timestamp for a measurement date [date], written [date_text], and
    a numeric hour [h]: that of the date combined with the zero-padded hour
    and [:00:00]; failing that, that of the date alone; failing that, what
    the loop over the other fields of [rec] finds. *)
Definition from_date_and_hour (env : environment) (rec date : value)
    (date_text : string) (h : Z) : result (option datetime) :=
  let combined :=
    if truthy date then
      parse_text env (date_text +:+ " " +:+ format_02d h +:+ ":00:00")
    else None in
  match combined with
  | Some d => Ok (Some d)
  | None =>
      match parse_text env date_text with
      | Some d => Ok (Some d)
      | None => V2.other_fields env rec ["timestamp"; "date"; "data"]
      end
  end.

(** A value as [json] decodes a null, a boolean, a number or a text: no
    container, and no integer over the limit of digits, which the decoder
    itself refuses. *)
Definition scalar (v : value) : bool :=
  match v with
  | VNone | VBool _ | VFloat _ | VStr _ => true
  | VInt z => within_str_digits z
  | VList _ | VDict _ => false
  end.

(** [b] is not below [a]: where [a] stands before [b] in a list sorted in
    ascending order of the keys. *)
Definition not_below {A K : Type} (key : A -> K) (lt : K -> K -> result bool)
    (a b : A) : Prop :=
  lt (key b) (key a) = Ok false.

(** [x] has the key [k] as far as the sort can tell: neither is below the
    other. *)
Definition same_key {A K : Type} (key : A -> K) (lt : K -> K -> result bool)
    (k : K) (x : A) : bool :=
  match lt k (key x), lt (key x) k with
  | Ok false, Ok false => true
  | _, _ => false
  end.

(** A timestamp that is absent or naive. *)
Definition naive_or_none (d : option datetime) : Prop :=
  forall t, d = Some t -> tzoffset t = None.

(** The sort key of a pair of [with_dt]. *)
Definition sort_key (x : option datetime * value) : bool * option datetime :=
  (match fst x with None => true | Some _ => false end, fst x).

(** The characters [format_serial_string] can produce. *)
Definition serial_alphabet : string := " -./0123456789:afin".

(** Every character of [s] is one of [alphabet]. *)
Definition within (alphabet s : string) : bool :=
  forallb (fun c => existsb (Ascii.eqb c) (list_ascii_of_string alphabet))
          (list_ascii_of_string s).

(** The decimal text of [n] tenths, as ["-5.4"] for [-54]. *)
Definition tenths_text (n : Z) : string :=
  (if n <? 0 then "-" else "") +:+ str_of_int (Z.abs n / 10) +:+ "."
    +:+ str_of_int (Z.abs n mod 10).

(** [p] holds of the [count] integers from [z] on. *)
Fixpoint holds_from (count : nat) (z : Z) (p : Z -> bool) : bool :=
  match count with
  | O => true
  | S count' => p z && holds_from count' (z + 1) p
  end.

Definition is_write (e : event) : bool :=
  match e with SerialWrite _ => true | _ => false end.

Definition is_close (e : event) : bool :=
  match e with SerialClose => true | _ => false end.

(** The lines of the standard output that do not mention the serial port. *)
Definition plain_line (e : event) : bool :=
  match e with
  | Stdout (PortOpened _ _) | Stdout (Sending _ _) => false
  | Stdout _ => true
  | _ => false
  end.

(** The last decimal digit of [n], as a character. *)
Definition digit (n : Z) : ascii := chr (48 + n mod 10).

(** [-MM-DD], the month and the day in two digits each. *)
Definition date_tail (m d : Z) : string :=
  String "-" (String (digit (m / 10)) (String (digit m)
    (String "-" (String (digit (d / 10)) (String (digit d) ""))))).

(** [YYYY-MM-DD], the text of a date with the year in four digits. *)
Definition iso_date (y m d : Z) : string :=
  String (digit (y / 1000)) (String (digit (y / 100)) (String (digit (y / 10))
    (String (digit y) (date_tail m d)))).

(** The field [godzina_pomiaru] of [m] gives the hour [h]: as a text, with
    or without a leading zero, or as a number other than 0. *)
Definition hour_given (m : gmap string value) (h : Z) : Prop :=
  m !! "godzina_pomiaru" = Some (VStr (str_of_int h))
  \/ m !! "godzina_pomiaru" = Some (VStr (format_02d h))
  \/ (m !! "godzina_pomiaru" = Some (VInt h) /\ h <> 0).

(** * Properties of the scripts *)

(** ** Strings *)

Lemma length_append (s1 s2 : string) :
  String.length (s1 +:+ s2) = (String.length s1 + String.length s2)%nat.
Proof.
  induction s1 as [|c s1 IH]; [reflexivity |].
  change (String c s1 +:+ s2) with (String c (s1 +:+ s2)). simpl. now f_equal.
Qed.

Lemma append_empty_r (s : string) : s +:+ "" = s.
Proof.
  induction s as [|c s IH]; [reflexivity |].
  change (String c s +:+ "") with (String c (s +:+ "")). now f_equal.
Qed.

Lemma length_spaces (n : nat) : String.length (spaces n) = n.
Proof. unfold spaces. induction n as [|n IH]; simpl; [reflexivity | now f_equal]. Qed.

Lemma length_substring_0 (n : nat) (s : string) :
  String.length (substring 0 n s) = Nat.min n (String.length s).
Proof.
  revert s. induction n as [|n IH]; intros [|c s]; simpl; try reflexivity.
  f_equal. apply IH.
Qed.

Lemma substring_0_all (n : nat) (s : string) :
  (String.length s <= n)%nat -> substring 0 n s = s.
Proof.
  revert s. induction n as [|n IH]; intros [|c s]; simpl; intros H;
    try reflexivity; try lia.
  f_equal. apply IH. lia.
Qed.

Lemma length_ljust (w : nat) (s : string) :
  String.length (ljust w s) = Nat.max w (String.length s).
Proof. unfold ljust. rewrite length_append, length_spaces. lia. Qed.

Lemma holds_from_spec (count : nat) (z : Z) (p : Z -> bool) :
  holds_from count z p = true ->
  forall x, z <= x < z + Z.of_nat count -> p x = true.
Proof.
  revert z. induction count as [|count IH]; intros z H x Hx; [lia |].
  cbn [holds_from] in H. apply andb_prop in H as [Hz H].
  destruct (Z.eq_dec x z) as [-> | Hne]; [exact Hz |].
  apply (IH (z + 1) H). lia.
Qed.

(** ** The decimal text of an integer *)

Lemma length_decimal_digits_le (fuel : nat) :
  forall (n : Z) (acc : string) (k : Z),
    0 <= n < 10 ^ k -> 1 <= k ->
    Z.of_nat (String.length (decimal_digits fuel n acc))
    <= Z.of_nat (String.length acc) + k.
Proof.
  induction fuel as [|fuel IH]; intros n acc k Hn Hk; cbn [decimal_digits]; [lia |].
  destruct (n / 10 =? 0) eqn:E; [cbn [String.length]; lia |].
  apply Z.eqb_neq in E.
  assert (H10 : 10 <= n) by (Z.to_euclidean_division_equations; lia).
  assert (Hk2 : 2 <= k).
  { destruct (Z.eq_dec k 1) as [-> |]; [change (10 ^ 1) with 10 in Hn |]; lia. }
  assert (Hq : 0 <= n / 10 < 10 ^ (k - 1)).
  { split; [apply Z.div_pos; lia |]. apply Z.div_lt_upper_bound; [lia |].
    rewrite <- Z.pow_succ_r by lia. replace (Z.succ (k - 1)) with k by lia. lia. }
  specialize (IH (n / 10) (String (chr (48 + n mod 10)) acc) (k - 1) Hq ltac:(lia)).
  cbn [String.length] in IH. lia.
Qed.

Lemma length_decimal_digits_gt (fuel : nat) :
  forall (n : Z) (acc : string) (k : Z),
    0 <= n < 2 ^ Z.of_nat fuel -> 0 <= k -> 10 ^ k <= n ->
    Z.of_nat (String.length acc) + k
    < Z.of_nat (String.length (decimal_digits fuel n acc)).
Proof.
  induction fuel as [|fuel IH]; intros n acc k Hn Hk Hle.
  - pose proof (Z.pow_pos_nonneg 10 k ltac:(lia) Hk). change (2 ^ Z.of_nat 0) with 1 in Hn. lia.
  - cbn [decimal_digits]. destruct (n / 10 =? 0) eqn:E.
    + apply Z.eqb_eq in E. assert (n < 10) by (Z.to_euclidean_division_equations; lia).
      assert (k = 0).
      { destruct (Z.eq_dec k 0) as [-> |]; [reflexivity |].
        pose proof (Z.pow_le_mono_r 10 1 k ltac:(lia) ltac:(lia)) as P.
        change (10 ^ 1) with 10 in P. lia. }
      subst k. cbn [String.length]. lia.
    + apply Z.eqb_neq in E.
      assert (Hq : 0 <= n / 10 < 2 ^ Z.of_nat fuel).
      { split; [apply Z.div_pos; lia |].
        rewrite Nat2Z.inj_succ, Z.pow_succ_r in Hn by lia.
        apply Z.div_lt_upper_bound; lia. }
      destruct (Z.eq_dec k 0) as [-> | Hk0].
      * specialize (IH (n / 10) (String (chr (48 + n mod 10)) acc) 0 Hq ltac:(lia)).
        cbn [String.length] in IH. change (10 ^ 0) with 1 in IH.
        assert (1 <= n / 10) by (Z.to_euclidean_division_equations; lia). lia.
      * specialize (IH (n / 10) (String (chr (48 + n mod 10)) acc) (k - 1) Hq ltac:(lia)).
        cbn [String.length] in IH.
        assert (10 ^ (k - 1) <= n / 10).
        { apply Z.div_le_lower_bound; [lia |].
          rewrite <- Z.pow_succ_r by lia. replace (Z.succ (k - 1)) with k by lia. lia. }
        lia.
Qed.

Lemma str_of_int_abs (n : Z) :
  str_of_int (Z.abs n)
  = decimal_digits (S (Z.to_nat (Z.log2 (Z.abs n)))) (Z.abs n) "".
Proof.
  unfold str_of_int. rewrite Z.abs_idemp.
  destruct (Z.abs n <? 0) eqn:E; [apply Z.ltb_lt in E; lia | reflexivity].
Qed.

(** An integer below [10 ^ k] has at most [k] digits. *)
Lemma within_str_digits_below (n k : Z) :
  Z.abs n < 10 ^ k -> 1 <= k <= int_max_str_digits -> within_str_digits n = true.
Proof.
  intros Hn Hk. unfold within_str_digits. rewrite str_of_int_abs. apply Z.leb_le.
  pose proof (length_decimal_digits_le (S (Z.to_nat (Z.log2 (Z.abs n)))) (Z.abs n) "" k
                ltac:(lia) ltac:(lia)) as H.
  cbn [String.length] in H. lia.
Qed.

(** An integer from [10 ^ 4300] on has more digits than the limit. *)
Lemma within_str_digits_above (n : Z) :
  10 ^ int_max_str_digits <= Z.abs n -> within_str_digits n = false.
Proof.
  intros Hn. unfold within_str_digits. rewrite str_of_int_abs. apply Z.leb_gt.
  assert (Hpos : 0 < Z.abs n).
  { pose proof (Z.pow_pos_nonneg 10 int_max_str_digits ltac:(lia) ltac:(unfold int_max_str_digits; lia)). lia. }
  pose proof (Z.log2_spec (Z.abs n) Hpos) as [_ Hlog].
  pose proof (Z.log2_nonneg (Z.abs n)) as Hnn.
  pose proof (length_decimal_digits_gt (S (Z.to_nat (Z.log2 (Z.abs n)))) (Z.abs n) ""
                int_max_str_digits) as H.
  rewrite Nat2Z.inj_succ, Z2Nat.id in H by lia.
  specialize (H ltac:(lia) ltac:(unfold int_max_str_digits; lia) Hn).
  cbn [String.length] in H. lia.
Qed.

Lemma digits2_pos_bound (m : positive) : Zpos m < 2 ^ Zpos (digits2_pos m).
Proof.
  induction m as [m IH | m IH |]; cbn [digits2_pos]; [| | reflexivity];
    rewrite Pos2Z.inj_succ, Z.pow_succ_r by lia; lia.
Qed.

(** The integer of a float is below [2 ^ 1024]. *)
Lemma int_of_float_bound (f : float) (h : Z) :
  int_of_float f = Ok h -> Z.abs h < 2 ^ 1024.
Proof.
  unfold int_of_float. pose proof (Prim2SF_valid f) as Hv.
  destruct (Prim2SF f) as [s | s | | s m e]; try discriminate.
  - intros H. injection H as <-. reflexivity.
  - intros H. injection H as <-.
    cbn [valid_binary] in Hv. unfold bounded, canonical_mantissa in Hv.
    apply andb_prop in Hv as [Hc He]. apply Z.leb_le in He. apply Z.eqb_eq in Hc.
    unfold fexp in Hc.
    assert (Hd : Zpos (digits2_pos m) <= prec) by lia.
    pose proof (digits2_pos_bound m) as Hm.
    assert (Hm53 : Zpos m < 2 ^ 53).
    { eapply Z.lt_le_trans; [exact Hm |]. apply Z.pow_le_mono_r; [lia | exact Hd]. }
    assert (Ha : 0 <= Z.shiftl (Zpos m) e < 2 ^ 1024).
    { destruct (Z.le_gt_cases 0 e) as [Hpos | Hneg].
      - rewrite Z.shiftl_mul_pow2 by exact Hpos. split; [apply Z.mul_nonneg_nonneg; lia |].
        apply Z.lt_le_trans with (2 ^ 53 * 2 ^ e).
        + apply Z.mul_lt_mono_pos_r; [apply Z.pow_pos_nonneg; lia | exact Hm53].
        + rewrite <- Z.pow_add_r by lia. apply Z.pow_le_mono_r; [lia |].
          unfold emax, prec in He. lia.
      - rewrite Z.shiftl_div_pow2 by lia.
        pose proof (Z.pow_pos_nonneg 2 (- e) ltac:(lia) ltac:(lia)) as Hp.
        split; [apply Z.div_pos; lia |].
        apply Z.le_lt_trans with (Zpos m).
        + apply Z.div_le_upper_bound; [lia |]. nia.
        + eapply Z.lt_trans; [exact Hm53 |]. apply Z.pow_lt_mono_r; lia. }
    destruct s; lia.
Qed.

Lemma int_of_float_within (f : float) (h : Z) :
  int_of_float f = Ok h -> within_str_digits h = true.
Proof.
  intros H. apply int_of_float_bound in H.
  apply (within_str_digits_below h 309); [| unfold int_max_str_digits; lia].
  eapply Z.lt_le_trans; [exact H |]. apply Z.leb_le. vm_compute. reflexivity.
Qed.

(** ** Checks of the model of the built-ins *)

Example str_of_int_examples :
  str_of_int 0 = "0" /\ str_of_int 12295 = "12295" /\ str_of_int (-7) = "-7"
  /\ format_02d 7 = "07" /\ format_02d 0 = "00" /\ format_02d 12 = "12"
  /\ format_02d (-3) = "-3" /\ format_02d 123 = "123".
Proof. vm_compute. repeat split; reflexivity. Qed.

Example float_of_string_examples :
  float_of_string "12.3" = Ok 12.3%float
  /\ float_of_string " +1_0.5e1 " = Ok 105%float
  /\ float_of_string "1e23" = Ok 1e23%float
  /\ float_of_string "5e-324" = Ok 5e-324%float
  /\ float_of_string "2.4703282292062327e-324" = Ok 0%float
  /\ float_of_string "9007199254740993" = Ok 9007199254740992%float
  /\ float_of_string "1.7976931348623159e308" = Ok infinity
  /\ float_of_string "-inf" = Ok neg_infinity
  /\ float_of_string "nan" = Ok nan
  /\ float_of_string ".5" = Ok 0.5%float
  /\ float_of_string "5." = Ok 5%float
  /\ float_of_string "" = Raise ValueError
  /\ float_of_string "1e" = Raise ValueError
  /\ float_of_string "1__0" = Raise ValueError
  /\ float_of_string "0x10" = Raise ValueError
  /\ float_of_string "12,3" = Raise ValueError.
Proof. vm_compute. repeat split; reflexivity. Qed.

Example float_of_int_examples :
  float_of_int 3 = Ok 3%float
  /\ float_of_int (-9007199254740993) = Ok (-9007199254740992)%float
  /\ float_of_int (2 ^ 1024 - 2 ^ 970 - 1) = Ok 1.7976931348623157e308%float
  /\ float_of_int (2 ^ 1024 - 2 ^ 970) = Raise OverflowError
  /\ int_of_float 12.7%float = Ok 12
  /\ int_of_float (-12.7)%float = Ok (-12)
  /\ int_of_float nan = Raise ValueError
  /\ int_of_float infinity = Raise OverflowError.
Proof. vm_compute. repeat split; reflexivity. Qed.

Example format_5_1f_examples :
  format_5_1f 12.3%float = " 12.3"
  /\ format_5_1f (-5.4)%float = " -5.4"
  /\ format_5_1f 0.25%float = "  0.2"
  /\ format_5_1f 0.35%float = "  0.3"
  /\ format_5_1f 0.75%float = "  0.8"
  /\ format_5_1f 99.95%float = "100.0"
  /\ format_5_1f (-0.04)%float = " -0.0"
  /\ format_5_1f (-123.45)%float = "-123.5"
  /\ format_5_1f 1e10%float = "10000000000.0"
  /\ format_5_1f nan = "  nan"
  /\ format_5_1f neg_infinity = " -inf".
Proof. vm_compute. repeat split; reflexivity. Qed.

Example strptime_examples :
  strptime "2024-05-01 12:00:00" "%Y-%m-%d %H:%M:%S" = Ok (mkdatetime 2024 5 1 12 0 0 0 None)
  /\ strptime "2024-05-01t12:00:00" "%Y-%m-%dT%H:%M:%S" = Ok (mkdatetime 2024 5 1 12 0 0 0 None)
  /\ strptime "2024-5-1   7" "%Y-%m-%d %H" = Ok (mkdatetime 2024 5 1 7 0 0 0 None)
  /\ strptime "2024-05- 1 7" "%Y-%m-%d %H" = Ok (mkdatetime 2024 5 1 7 0 0 0 None)
  /\ strptime "2024-02-29" "%Y-%m-%d" = Ok (mkdatetime 2024 2 29 0 0 0 0 None)
  /\ strptime "2023-02-29" "%Y-%m-%d" = Raise ValueError
  /\ strptime "0000-01-01" "%Y-%m-%d" = Raise ValueError
  /\ strptime "2024-05-01 24" "%Y-%m-%d %H" = Raise ValueError
  /\ strptime "2024-05-01 12:00:60" "%Y-%m-%d %H:%M:%S" = Raise ValueError
  /\ strptime "2024-05-01 " "%Y-%m-%d" = Raise ValueError
  /\ strptime "2024-05-011" "%Y-%m-%d" = Raise ValueError
  /\ strptime "2024-05-01 -3:00:00" "%Y-%m-%d %H:%M:%S" = Raise ValueError.
Proof. vm_compute. repeat split; reflexivity. Qed.

Example records_that_are_no_mappings (env : environment) :
  V2.latest_of env (VList [VStr "abc"]) = Ok (None, None, Some (VStr "abc"))
  /\ V2.latest_of env (VList [VStr "xtx"]) = Raise TypeError
  /\ V2.latest_of env (VList [VInt 1]) = Raise TypeError
  /\ V2.latest_of env (VInt 1) = Ok (None, None, None).
Proof. vm_compute. repeat split; reflexivity. Qed.

(** ** The serial text *)

(** C7: whatever the temperature and the timestamp, [format_serial_string]
    returns exactly 11 characters: the first 11 characters of the assembled
    text, followed by the spaces missing up to 11. *)
Theorem format_serial_string_length (temp : option float) (dt : option datetime) :
  String.length (V2.format_serial_string temp dt) = 11%nat
  /\ V2.format_serial_string temp dt
     = ljust 11 (substring 0 11 (V2.serial_text temp dt)).
Proof.
  unfold V2.format_serial_string.
  destruct (Nat.eqb (String.length (V2.serial_text temp dt)) 11) eqn:E; simpl.
  - apply Nat.eqb_eq in E. split; [exact E |].
    rewrite substring_0_all by lia.
    unfold ljust. rewrite E. simpl. now rewrite append_empty_r.
  - split; [| reflexivity].
    rewrite length_ljust, length_substring_0. lia.
Qed.

(** C8: without a temperature and without a timestamp the text is five
    spaces, two slashes, [00] and two colons. *)
Theorem format_serial_string_absent :
  V2.format_serial_string None None = "     //00::"
  /\ String.length (V2.format_serial_string None None) = 11%nat.
Proof. split; reflexivity. Qed.

(** C3: for -5.4 measured at 7 o'clock the code writes the temperature
    right-aligned behind a space, [" -5.4//07::"]; the text ["-05.4//07::"]
    that the docstring gives for it is not produced. *)
Theorem format_serial_string_minus_5_4 :
  forall (y mo d mi s us : Z) (tz : option Z),
    let dt := mkdatetime y mo d 7 mi s us tz in
    V2.format_serial_string (Some (-5.4)%float) (Some dt) = " -5.4//07::"
    /\ V2.format_serial_string (Some (-5.4)%float) (Some dt) <> "-05.4//07::".
Proof.
  intros y mo d mi s us tz dt.
  assert (E : V2.format_serial_string (Some (-5.4)%float) (Some dt) = " -5.4//07::")
    by (vm_compute; reflexivity).
  split; [exact E | rewrite E; discriminate].
Qed.

(** ** Normalisation of the answer *)




(** ** Parsing a timestamp *)

Lemma try_fmts_hit (v : value) (l : list string) (after : result (option datetime))
    (i : nat) (fmt : string) (d : datetime) :
  l !! i = Some fmt -> py_strptime v fmt = Ok d ->
  (forall j fmt', (j < i)%nat -> l !! j = Some fmt' -> exists e, py_strptime v fmt' = Raise e) ->
  V2.try_fmts v l after = Ok (Some d).
Proof.
  revert i. induction l as [|a l IH]; intros i Hi Hd Hbefore; [discriminate |].
  destruct i as [|i]; simpl in *.
  - injection Hi as ->. now rewrite Hd.
  - destruct (Hbefore 0%nat a) as [e He]; [lia | reflexivity |].
    rewrite He. simpl. apply (IH i); auto.
    intros j fmt' Hj Hl. apply (Hbefore (S j)); [lia | exact Hl].
Qed.

Lemma try_fmts_miss (v : value) (l : list string) (after : result (option datetime)) :
  (forall fmt, In fmt l -> exists e, py_strptime v fmt = Raise e) ->
  V2.try_fmts v l after = after.
Proof.
  induction l as [|a l IH]; intros H; [reflexivity |]. simpl.
  destruct (H a) as [e He]; [now left |]. rewrite He. simpl.
  apply IH. intros fmt Hin. apply H. now right.
Qed.

Lemma try_fmts_ok (v : value) (l : list string) (after : result (option datetime)) :
  (exists r, after = Ok r) -> exists r, V2.try_fmts v l after = Ok r.
Proof.
  intros Hafter. induction l as [|a l IH]; [exact Hafter |]. simpl.
  destruct (py_strptime v a); simpl; [eauto | exact IH].
Qed.

Lemma try_parse_datetime_total (env : environment) (v : value) :
  exists r, V2.try_parse_datetime env v = Ok r.
Proof.
  unfold V2.try_parse_datetime.
  destruct (truthy v); cbn [negb]; [| eauto].
  apply try_fmts_ok. destruct (py_fromisoformat env v); simpl; eauto.
Qed.

Lemma try_parse_text (env : environment) (s : string) :
  V2.try_parse_datetime env (VStr s) = Ok (parse_text env s).
Proof.
  unfold parse_text.
  destruct (try_parse_datetime_total env (VStr s)) as [r Hr]. now rewrite Hr.
Qed.

(** C6: [try_parse_datetime] never raises; an empty or null input gives
    [None] whatever the parsers would say; otherwise the result is that of
    the first pattern of [fmts] that parses, in the order date and time
    with seconds (with [T], then with a space), date and time without
    seconds, date and hour, date only, and, when none does, that of the
    ISO 8601 parser. *)
Theorem try_parse_datetime_first_success (env : environment) :
  (forall v, exists r, V2.try_parse_datetime env v = Ok r)
  /\ (forall v, truthy v = false -> V2.try_parse_datetime env v = Ok None)
  /\ V2.try_parse_datetime env VNone = Ok None
  /\ V2.try_parse_datetime env (VStr "") = Ok None
  /\ V2.fmts = ["%Y-%m-%dT%H:%M:%S"; "%Y-%m-%d %H:%M:%S"; "%Y-%m-%d %H:%M";
                "%Y-%m-%d %H"; "%Y-%m-%d"]
  /\ (forall s i fmt d, s <> "" -> V2.fmts !! i = Some fmt -> strptime s fmt = Ok d ->
        (forall j fmt', (j < i)%nat -> V2.fmts !! j = Some fmt' ->
                        exists e, strptime s fmt' = Raise e) ->
        V2.try_parse_datetime env (VStr s) = Ok (Some d))
  /\ (forall s, s <> "" ->
        (forall fmt, In fmt V2.fmts -> exists e, strptime s fmt = Raise e) ->
        V2.try_parse_datetime env (VStr s)
        = Ok (match fromisoformat env s with Ok d => Some d | Raise _ => None end)).
Proof.
  assert (Hne : forall s, s <> "" -> truthy (VStr s) = true).
  { intros s Hs. simpl. destruct s; [congruence | reflexivity]. }
  split_and!; try reflexivity.
  - apply try_parse_datetime_total.
  - intros v Hv. unfold V2.try_parse_datetime. now rewrite Hv.
  - intros s i fmt d Hs Hi Hd Hbefore. unfold V2.try_parse_datetime.
    rewrite (Hne s Hs). simpl negb. cbv iota.
    now apply (try_fmts_hit _ _ _ i fmt d).
  - intros s Hs Hall. unfold V2.try_parse_datetime.
    rewrite (Hne s Hs). simpl negb. cbv iota.
    rewrite try_fmts_miss by exact Hall. simpl.
    now destruct (fromisoformat env s).
Qed.

Lemma try_parse_datetime_witness :
  V2.try_parse_datetime (answering VNone) (VStr "2024-05-01 12:00") =
  Ok (Some (mkdatetime 2024 5 1 12 0 0 0 None)).
Proof.
  apply (proj1 (proj2 (proj2 (proj2 (proj2 (proj2
           (try_parse_datetime_first_success (answering VNone)))))))
           "2024-05-01 12:00" 2%nat "%Y-%m-%d %H:%M").
  - discriminate.
  - reflexivity.
  - vm_compute. reflexivity.
  - intros j fmt' Hj Hl.
    destruct j as [|[|j]]; [| | lia]; injection Hl as <-;
      exists ValueError; vm_compute; reflexivity.
Defined.

(** ** The temperature of a record *)

Lemma coerce_ok_usable (v : value) (f : float) :
  V2.coerce v = Ok f -> not_none_or_empty v = true.
Proof.
  destruct v as [| | | |s| |]; try reflexivity; [discriminate |].
  destruct s; [discriminate | reflexivity].
Qed.

Lemma extract_from_skip (m : gmap string value) (k : string) (l : list string) :
  unusable m k -> V2.extract_from (VDict m) (k :: l) = V2.extract_from (VDict m) l.
Proof.
  unfold unusable. intros H. cbn [V2.extract_from py_in py_getitem bind].
  destruct (m !! k) as [v|]; [| reflexivity]. cbn [bind].
  destruct H as [H | [e H]].
  - now rewrite H.
  - destruct (not_none_or_empty v); [| reflexivity]. now rewrite H.
Qed.

Lemma extract_from_hit (m : gmap string value) (l : list string) (i : nat)
    (k : string) (v : value) (f : float) :
  l !! i = Some k -> m !! k = Some v -> not_none_or_empty v = true ->
  V2.coerce v = Ok f ->
  (forall j k', (j < i)%nat -> l !! j = Some k' -> unusable m k') ->
  V2.extract_from (VDict m) l = Ok (Some f).
Proof.
  revert i. induction l as [|a l IH]; intros i Hi Hv Hu Hf Hbefore; [discriminate |].
  destruct i as [|i].
  - injection Hi as ->. cbn [V2.extract_from py_in py_getitem bind].
    rewrite Hv. cbn [bind]. rewrite Hu, Hf. reflexivity.
  - rewrite extract_from_skip by (apply (Hbefore 0%nat); [lia | reflexivity]).
    apply (IH i); auto.
    intros j k' Hj Hl. apply (Hbefore (S j)); [lia | exact Hl].
Qed.

Lemma extract_from_miss (m : gmap string value) (l : list string) :
  (forall k, In k l -> unusable m k) -> V2.extract_from (VDict m) l = Ok None.
Proof.
  induction l as [|a l IH]; intros H; [reflexivity |].
  rewrite extract_from_skip by (apply H; now left).
  apply IH. intros k Hk. apply H. now right.
Qed.

(** C5: [extract_temp] returns the number of the first candidate field, in
    the order [temperatura], [temp], [temperature], [t], that is present,
    neither [None] nor empty, and coerces to a float, a comma counting as
    the decimal point; a field that fails to coerce is passed over; without
    such a field the result is [None].  ["12,3"] coerces to 12.3, ["abc"]
    does not, and the next candidate is then used. *)
Theorem extract_temp_first_usable :
  V2.candidates = ["temperatura"; "temp"; "temperature"; "t"]
  /\ (forall (m : gmap string value) i k v f,
        V2.candidates !! i = Some k -> m !! k = Some v ->
        not_none_or_empty v = true -> V2.coerce v = Ok f ->
        (forall j k', (j < i)%nat -> V2.candidates !! j = Some k' -> unusable m k') ->
        V2.extract_temp (VDict m) = Ok (Some f)
        /\ V1.extract_temp (VDict m) = Ok (Some f))
  /\ (forall m : gmap string value,
        (forall k, In k V2.candidates -> unusable m k) ->
        V2.extract_temp (VDict m) = Ok None /\ V1.extract_temp (VDict m) = Ok None)
  /\ V2.coerce (VStr "12,3") = Ok 12.3%float
  /\ V2.coerce (VStr "abc") = Raise ValueError
  /\ (forall v f, V2.coerce v = Ok f ->
        V2.extract_temp (record [("temperatura", VStr "abc"); ("temp", v)]) = Ok (Some f)).
Proof.
  split_and!.
  - reflexivity.
  - intros m i k v f Hi Hv Hu Hf Hbefore.
    split; [| change (V2.extract_temp (VDict m) = Ok (Some f))];
      now apply (extract_from_hit m _ i k v f).
  - intros m H.
    split; [| change (V2.extract_temp (VDict m) = Ok None)];
      now apply extract_from_miss.
  - vm_compute. reflexivity.
  - vm_compute. reflexivity.
  - intros v f Hf. unfold record.
    apply (extract_from_hit _ _ 1%nat "temp" v f).
    + reflexivity.
    + reflexivity.
    + now apply coerce_ok_usable with f.
    + exact Hf.
    + intros j k' Hj Hl. destruct j; [| lia]. injection Hl as <-.
      unfold unusable. right. exists ValueError. vm_compute. reflexivity.
Qed.

Lemma extract_temp_witness :
  V2.extract_temp (record [("temp", VStr ""); ("temperature", VInt 7)]) = Ok (Some 7%float)
  /\ V2.extract_temp (record [("temperatura", VStr "abc"); ("temp", VStr "12,3")])
     = Ok (Some 12.3%float).
Proof.
  split.
  - apply (proj1 (proj2 extract_temp_first_usable) _ 2%nat "temperature" (VInt 7)).
    + reflexivity.
    + reflexivity.
    + reflexivity.
    + vm_compute. reflexivity.
    + intros j k' Hj Hl.
      destruct j as [|[|j]]; [| | lia]; injection Hl as <-; vm_compute; auto.
  - apply (proj2 (proj2 (proj2 (proj2 (proj2 extract_temp_first_usable))))).
    vm_compute. reflexivity.
Defined.

(** ** The timestamp of a record *)

Lemma truthy_hour_text (text : string) : truthy (VStr (text +:+ ":00:00")) = true.
Proof. cbn [truthy]. destruct text; reflexivity. Qed.

Lemma time_part_first (m : gmap string value) (tv : value) :
  m !! "godzina_pomiaru" = Some tv -> truthy tv = true ->
  V2.time_part_of (VDict m) = Ok tv.
Proof.
  intros H Ht. unfold V2.time_part_of. cbn [py_get bind]. rewrite H. cbn [bind].
  now rewrite Ht.
Qed.

(** The hour the code selects is the value of one of the three fields, or
    [None]. *)
Lemma time_part_of_dict (m : gmap string value) :
  exists tv, V2.time_part_of (VDict m) = Ok tv
             /\ (tv = VNone
                 \/ exists k, In k ["godzina_pomiaru"; "godzina"; "time"]
                              /\ m !! k = Some tv).
Proof.
  unfold V2.time_part_of. cbn [py_get bind].
  destruct (m !! "godzina_pomiaru") as [a|] eqn:Ea.
  - destruct (truthy a); [exists a; split; [reflexivity |]; right; exists "godzina_pomiaru"; split; [now left | exact Ea] |].
    cbn [bind]. destruct (m !! "godzina") as [b|] eqn:Eb.
    + destruct (truthy b); [exists b; split; [reflexivity |]; right; exists "godzina"; split; [right; now left | exact Eb] |].
      destruct (m !! "time") as [c|] eqn:Ec; eexists; (split; [reflexivity |]); [right | now left].
      exists "time". split; [right; right; now left | exact Ec].
    + cbn [truthy].
      destruct (m !! "time") as [c|] eqn:Ec; eexists; (split; [reflexivity |]); [right | now left].
      exists "time". split; [right; right; now left | exact Ec].
  - cbn [truthy bind]. destruct (m !! "godzina") as [b|] eqn:Eb.
    + destruct (truthy b); [exists b; split; [reflexivity |]; right; exists "godzina"; split; [right; now left | exact Eb] |].
      destruct (m !! "time") as [c|] eqn:Ec; eexists; (split; [reflexivity |]); [right | now left].
      exists "time". split; [right; right; now left | exact Ec].
    + cbn [truthy].
      destruct (m !! "time") as [c|] eqn:Ec; eexists; (split; [reflexivity |]); [right | now left].
      exists "time". split; [right; right; now left | exact Ec].
Qed.

Lemma py_str_scalar (env : environment) (v : value) :
  scalar v = true -> exists s, py_str env v = Ok s.
Proof.
  destruct v; cbn [scalar py_str]; intros H; try discriminate; eauto.
  unfold py_str_of_int. rewrite H. eauto.
Qed.

(** The loop over the other fields raises only where the text of one of
    them cannot be written. *)
Lemma other_fields_raises (env : environment) (m : gmap string value)
    (keys : list string) (e : exn) :
  V2.other_fields env (VDict m) keys = Raise e ->
  exists k v, In k keys /\ m !! k = Some v /\ py_str env v = Raise e.
Proof.
  induction keys as [|k keys IH]; [discriminate |].
  cbn [V2.other_fields py_in py_get bind].
  assert (Hrest : V2.other_fields env (VDict m) keys = Raise e ->
                  exists k' v, In k' (k :: keys) /\ m !! k' = Some v
                               /\ py_str env v = Raise e).
  { intros H. destruct (IH H) as [k' [v [Hin Hv]]]. exists k', v. split; [now right | exact Hv]. }
  destruct (m !! k) as [v|] eqn:Ek; cbn [bind]; [| exact Hrest].
  destruct (truthy v); [| exact Hrest].
  destruct (py_str env v) as [text|e'] eqn:Es; cbn [bind].
  - rewrite try_parse_text. cbn [bind].
    destruct (parse_text env text); [discriminate | exact Hrest].
  - intros H. injection H as <-. exists k, v. split; [now left | now split].
Qed.

Lemma other_fields_absent (env : environment) (m : gmap string value)
    (keys : list string) :
  (forall k, In k keys -> m !! k = None) ->
  V2.other_fields env (VDict m) keys = Ok None.
Proof.
  induction keys as [|k keys IH]; intros H; [reflexivity |].
  cbn [V2.other_fields py_in py_get bind]. rewrite (H k) by now left. cbn [bind].
  apply IH. intros k' Hk'. apply H. now right.
Qed.

(** [record_datetime] on a mapping with the measurement date and a
    numeric hour. *)
Lemma record_datetime_numeric (env : environment) (m : gmap string value)
    (date tv : value) :
  m !! "data_pomiaru" = Some date ->
  V2.time_part_of (VDict m) = Ok tv ->
  is_number tv = true ->
  V2.record_datetime env (VDict m)
  = (h <- py_int tv ;;
     _ <- py_format_02d h ;;
     date_text <- py_str env date ;;
     from_date_and_hour env (VDict m) date date_text h).
Proof.
  intros Hdate Htp Hnum. unfold V2.record_datetime.
  cbn [py_in py_get bind]. rewrite Hdate. cbn [bind]. rewrite Htp. cbn [bind].
  rewrite Hnum. destruct (py_int tv) as [h|e]; cbn [bind]; [| reflexivity].
  unfold py_format_02d. destruct (within_str_digits h); cbn [bind]; [| reflexivity].
  rewrite truthy_hour_text. cbn [py_str]. unfold from_date_and_hour.
  destruct (py_str env date) as [date_text|e] eqn:Ed.
  - destruct (truthy date); cbn [andb bind].
    + rewrite try_parse_text. cbn [bind].
      destruct (parse_text env (date_text +:+ " " +:+ format_02d h +:+ ":00:00"));
        [reflexivity |].
      rewrite try_parse_text. cbn [bind].
      destruct (parse_text env date_text); reflexivity.
    + rewrite try_parse_text. cbn [bind].
      destruct (parse_text env date_text); reflexivity.
  - destruct (truthy date); reflexivity.
Qed.

(** [record_datetime] on a mapping with the measurement date and an hour
    that is no number. *)
Lemma record_datetime_text (env : environment) (m : gmap string value)
    (date tv : value) :
  m !! "data_pomiaru" = Some date ->
  V2.time_part_of (VDict m) = Ok tv ->
  is_number tv = false ->
  V2.record_datetime env (VDict m)
  = (d <- (if truthy date && truthy tv then
             date_text <- py_str env date ;;
             time_text <- py_str env tv ;;
             Ok (parse_text env (date_text +:+ " " +:+ time_text))
           else Ok None) ;;
     match d with
     | Some d => Ok (Some d)
     | None =>
         date_text <- py_str env date ;;
         match parse_text env date_text with
         | Some d => Ok (Some d)
         | None => V2.other_fields env (VDict m) ["timestamp"; "date"; "data"]
         end
     end).
Proof.
  intros Hdate Htp Hnum. unfold V2.record_datetime.
  cbn [py_in py_get bind]. rewrite Hdate. cbn [bind]. rewrite Htp. cbn [bind].
  rewrite Hnum. cbn [bind].
  destruct (py_str env date) as [date_text|e] eqn:Ed.
  - destruct (truthy date && truthy tv); cbn [bind].
    + destruct (py_str env tv) as [time_text|e]; cbn [bind]; [| reflexivity].
      rewrite try_parse_text. cbn [bind].
      destruct (parse_text env (date_text +:+ " " +:+ time_text)); [reflexivity |].
      rewrite try_parse_text. cbn [bind].
      destruct (parse_text env date_text); reflexivity.
    + rewrite try_parse_text. cbn [bind].
      destruct (parse_text env date_text); reflexivity.
  - destruct (truthy date && truthy tv); reflexivity.
Qed.

Lemma record_datetime_undated (env : environment) (m : gmap string value) :
  m !! "data_pomiaru" = None ->
  V2.record_datetime env (VDict m)
  = V2.other_fields env (VDict m) ["timestamp"; "date"; "data"].
Proof.
  intros H. unfold V2.record_datetime. cbn [py_in bind]. now rewrite H.
Qed.

(** C4: records with the measurement date and a numeric hour whose
    timestamp is not the date with the zero-padded hour.  The hour 0 in
    [godzina_pomiaru] is passed over by [or], so the hour of [godzina] is
    taken in its place; an infinite hour or a NaN raises in [int], outside
    any [try], where the specification falls back to the date alone.
    With the hour 12 the timestamp is the one of the specification. *)
Theorem record_datetime_numeric_hour_slips (env : environment) :
  V2.record_datetime env
    (record [("data_pomiaru", VStr "2024-05-01"); ("godzina_pomiaru", VInt 0);
             ("godzina", VInt 7)])
  = Ok (Some (mkdatetime 2024 5 1 7 0 0 0 None))
  /\ V2.record_datetime env
       (record [("data_pomiaru", VStr "2024-05-01");
                ("godzina_pomiaru", VFloat infinity)])
     = Raise OverflowError
  /\ V2.record_datetime env
       (record [("data_pomiaru", VStr "2024-05-01"); ("godzina_pomiaru", VFloat nan)])
     = Raise ValueError
  /\ V2.record_datetime env
       (record [("data_pomiaru", VStr "2024-05-01"); ("godzina_pomiaru", VInt 12)])
     = Ok (Some (mkdatetime 2024 5 1 12 0 0 0 None)).
Proof. split_and!; vm_compute; reflexivity. Qed.

Lemma two_digits_grid :
  holds_from 100 0
    (fun h => String.eqb (format_02d h)
                (String (digit (h / 10)) (String (digit h) ""))) = true.
Proof. vm_compute. reflexivity. Qed.

(** X19: for a mapping with the measurement date whose selected hour is a
    number that [int] converts to [h], the timestamp is that of the text
    of the date, a space, the zero-padded hour and [:00:00]; when that
    text does not parse (or the date is empty), that of the date alone;
    when that does not parse either, what the loop over [timestamp],
    [date], [data] finds.  For an hour 0..99 the zero-padded hour is its
    two decimal digits. *)
Theorem record_datetime_numeric_hour (env : environment) (m : gmap string value)
    (date tv : value) (date_text : string) (h : Z) :
  m !! "data_pomiaru" = Some date ->
  V2.time_part_of (VDict m) = Ok tv ->
  is_number tv = true ->
  py_int tv = Ok h ->
  within_str_digits h = true ->
  py_str env date = Ok date_text ->
  V2.record_datetime env (VDict m) = from_date_and_hour env (VDict m) date date_text h
  /\ (0 <= h < 100 ->
      format_02d h = String (digit (h / 10)) (String (digit h) "")).
Proof.
  intros Hdate Htp Hnum Hint Hlim Htext. split.
  - rewrite (record_datetime_numeric env m date tv Hdate Htp Hnum), Hint.
    cbn [bind]. unfold py_format_02d. rewrite Hlim. cbn [bind]. rewrite Htext.
    reflexivity.
  - intros Hh. apply String.eqb_eq.
    exact (holds_from_spec _ _ _ two_digits_grid h ltac:(lia)).
Qed.

Lemma record_datetime_numeric_hour_witness :
  V2.record_datetime (answering VNone)
    (record [("data_pomiaru", VStr "2024-05-01"); ("godzina_pomiaru", VFloat 7.5)])
  = from_date_and_hour (answering VNone)
      (record [("data_pomiaru", VStr "2024-05-01"); ("godzina_pomiaru", VFloat 7.5)])
      (VStr "2024-05-01") "2024-05-01" 7
  /\ format_02d 7 = "07".
Proof.
  pose (m := list_to_map [("data_pomiaru", VStr "2024-05-01");
                          ("godzina_pomiaru", VFloat 7.5)] : gmap string value).
  assert (Hdate : m !! "data_pomiaru" = Some (VStr "2024-05-01"))
    by (vm_compute; reflexivity).
  assert (Htv : V2.time_part_of (VDict m) = Ok (VFloat 7.5)) by (vm_compute; reflexivity).
  assert (Hint : py_int (VFloat 7.5) = Ok 7) by (vm_compute; reflexivity).
  assert (Hlim : within_str_digits 7 = true) by (vm_compute; reflexivity).
  destruct (record_datetime_numeric_hour (answering VNone) m (VStr "2024-05-01")
              (VFloat 7.5) "2024-05-01" 7 Hdate Htv eq_refl Hint Hlim eq_refl) as [E F].
  split; [exact E | apply F; lia].
Defined.

(** ** The order of timestamps *)

Lemma lex_eq_eq (a b : list Z) : lex_eq a b = true -> a = b.
Proof.
  revert b. induction a as [|x a IH]; intros [|y b]; simpl; try discriminate; auto.
  destruct (Z.eqb_spec x y); simpl; [| discriminate].
  intros H. subst. f_equal. now apply IH.
Qed.

Lemma lex_lt_irrefl (a : list Z) : lex_lt a a = false.
Proof.
  induction a as [|x a IH]; simpl; [reflexivity |].
  now rewrite Z.ltb_irrefl, Z.eqb_refl, IH.
Qed.

Lemma lex_lt_asym (a b : list Z) : lex_lt a b = true -> lex_lt b a = false.
Proof.
  revert b. induction a as [|x a IH]; intros [|y b]; simpl; try discriminate; auto.
  destruct (Z.ltb_spec x y), (Z.eqb_spec x y), (Z.ltb_spec y x), (Z.eqb_spec y x);
    simpl; try lia; try discriminate; auto.
Qed.

Lemma lex_lt_trans (a b c : list Z) :
  lex_lt a b = true -> lex_lt b c = true -> lex_lt a c = true.
Proof.
  revert b c. induction a as [|x a IH]; intros [|y b] [|z c]; simpl;
    try discriminate; auto.
  destruct (Z.ltb_spec x y), (Z.eqb_spec x y), (Z.ltb_spec y z), (Z.eqb_spec y z),
    (Z.ltb_spec x z), (Z.eqb_spec x z);
    simpl; try lia; try discriminate; eauto.
Qed.

Lemma Ok_inj {A : Type} (a b : A) : Ok a = Ok b -> a = b.
Proof. intros H. now injection H. Qed.

Lemma datetime_eq_not_lt (x y : datetime) :
  datetime_eq x y = true -> datetime_lt x y = Ok true -> False.
Proof.
  unfold datetime_eq, datetime_lt.
  destruct (tzoffset x), (tzoffset y); try discriminate.
  - intros He Hl. apply Ok_inj in Hl. lia.
  - intros He Hl. apply lex_eq_eq in He.
    rewrite He, lex_lt_irrefl in Hl. discriminate.
Qed.

Lemma datetime_lt_asym (x y : datetime) :
  datetime_lt x y = Ok true -> datetime_lt y x = Ok false.
Proof.
  unfold datetime_lt.
  destruct (tzoffset x), (tzoffset y); try discriminate;
    intros H; apply Ok_inj in H; f_equal.
  - lia.
  - now apply lex_lt_asym.
Qed.

Lemma datetime_lt_chain (x y z : datetime) :
  datetime_lt x y = Ok true ->
  datetime_eq z y = true \/ datetime_lt z y = Ok false ->
  datetime_lt z x = Ok false.
Proof.
  unfold datetime_eq, datetime_lt.
  destruct (tzoffset x), (tzoffset y), (tzoffset z); try discriminate;
    intros Hxy [Hzy | Hzy]; try discriminate; apply Ok_inj in Hxy; f_equal.
  - lia.
  - apply Ok_inj in Hzy. lia.
  - apply lex_eq_eq in Hzy. rewrite Hzy. now apply lex_lt_asym.
  - apply Ok_inj in Hzy.
    destruct (lex_lt (naive_fields z) (naive_fields x)) eqn:E; [| reflexivity].
    now rewrite (lex_lt_trans _ _ _ E Hxy) in Hzy.
Qed.

(** The comparison of two timestamps that are both present. *)
Lemma key_lt_some (a b : bool) (x y : datetime) :
  key_lt (a, Some x) (b, Some y)
  = if negb (Bool.eqb a b) then Ok (negb a && b)
    else if datetime_eq x y then Ok false else datetime_lt x y.
Proof. reflexivity. Qed.

Lemma key_lt_asym (a b : bool * option datetime) :
  key_lt a b = Ok true -> key_lt b a = Ok false.
Proof.
  destruct a as [[|] [x|]], b as [[|] [y|]]; unfold key_lt; simpl;
    try discriminate; try reflexivity.
  all: destruct (datetime_eq x y) eqn:E; try discriminate; intros H;
    destruct (datetime_eq y x); [reflexivity | now apply datetime_lt_asym].
Qed.

Lemma key_lt_chain (a b c : bool * option datetime) :
  key_lt a b = Ok true -> key_lt c b = Ok false -> key_lt c a = Ok false.
Proof.
  destruct a as [[|] [x|]], b as [[|] [y|]], c as [[|] [z|]]; unfold key_lt; simpl;
    try discriminate; try reflexivity.
  all: destruct (datetime_eq x y) eqn:Exy; try discriminate; intros Hxy Hzy;
    destruct (datetime_eq z x); [reflexivity |];
    apply (datetime_lt_chain x y z Hxy);
    destruct (datetime_eq z y); [now left | now right].
Qed.

Lemma key_lt_irrefl (a : bool * option datetime) : key_lt a a <> Ok true.
Proof.
  intros H. pose proof (key_lt_asym a a H) as H'. congruence.
Qed.

(** ** The sort *)

Section SortFacts.
Context {A K : Type} (key : A -> K) (lt : K -> K -> result bool).
Hypothesis lt_asym : forall a b, lt a b = Ok true -> lt b a = Ok false.
Hypothesis lt_chain :
  forall a b c, lt a b = Ok true -> lt c b = Ok false -> lt c a = Ok false.

Lemma insert_sorted_perm (x : A) (l l' : list A) :
  insert_sorted key lt x l = Ok l' -> Permutation (x :: l) l'.
Proof.
  revert l'. induction l as [|y l IH]; intros l'; simpl.
  - intros H. injection H as <-. reflexivity.
  - destruct (lt (key x) (key y)) as [[|]|e]; simpl; try discriminate.
    + intros H. injection H as <-. reflexivity.
    + destruct (insert_sorted key lt x l) as [r|e]; simpl; try discriminate.
      intros H. injection H as <-.
      rewrite perm_swap. constructor. now apply IH.
Qed.

Lemma insert_sorted_sorted (x : A) (l l' : list A) :
  StronglySorted (not_below key lt) l ->
  insert_sorted key lt x l = Ok l' ->
  StronglySorted (not_below key lt) l'.
Proof.
  revert l'. induction l as [|y l IH]; intros l' Hs; simpl.
  - intros H. injection H as <-. repeat constructor.
  - apply StronglySorted_inv in Hs as [Hs Hy].
    destruct (lt (key x) (key y)) as [[|]|e] eqn:E; simpl; try discriminate.
    + intros H. injection H as <-.
      constructor; [now constructor |].
      constructor; [now apply lt_asym |].
      rewrite Forall_forall in *. intros z Hz.
      apply (lt_chain _ _ _ E). now apply Hy.
    + destruct (insert_sorted key lt x l) as [r|e] eqn:Er; simpl; try discriminate.
      intros H. injection H as <-.
      constructor; [now apply IH |].
      apply insert_sorted_perm in Er.
      rewrite <- Er. constructor; [exact E | exact Hy].
Qed.

Lemma sort_from_spec (acc l r : list A) :
  StronglySorted (not_below key lt) acc ->
  sort_from key lt acc l = Ok r ->
  Permutation (acc ++ l) r /\ StronglySorted (not_below key lt) r.
Proof.
  revert acc. induction l as [|x l IH]; intros acc Hs; simpl.
  - intros H. injection H as <-. now rewrite app_nil_r.
  - destruct (insert_sorted key lt x acc) as [acc'|e] eqn:E; simpl; try discriminate.
    intros H. destruct (IH acc' (insert_sorted_sorted _ _ _ Hs E) H) as [Hp Hr].
    split; [| exact Hr].
    rewrite <- Hp. apply insert_sorted_perm in E. rewrite <- E.
    now rewrite <- Permutation_middle.
Qed.

(** With [reverse=True] the result is a permutation in descending order:
    an element is never below one that stands behind it. *)
Lemma list_sort_reverse_spec (l r : list A) :
  list_sort key lt true l = Ok r ->
  Permutation l r /\ StronglySorted (fun a b => lt (key a) (key b) = Ok false) r.
Proof.
  unfold list_sort.
  destruct (sort_from key lt [] (rev l)) as [r'|e] eqn:E; simpl; try discriminate.
  intros H. injection H as <-.
  destruct (sort_from_spec [] (rev l) r' (SSorted_nil _) E) as [Hp Hs].
  split.
  - rewrite <- Permutation_rev. simpl in Hp. rewrite <- Hp. apply Permutation_rev.
  - clear E Hp. induction Hs as [|a r' Hs IH Ha]; simpl; [constructor |].
    apply StronglySorted_app_2; [| exact IH | repeat constructor].
    intros x1 x2 H1 H2. apply list_elem_of_singleton in H2 as ->.
    rewrite Forall_forall in Ha. apply Ha.
    apply list_elem_of_In. apply list_elem_of_In in H1. now apply in_rev.
Qed.
End SortFacts.

(** ** The selection of the record *)

Lemma mapM_In_r {A B : Type} (f : A -> result B) (l : list A) (ys : list B) :
  mapM f l = Ok ys -> forall y, In y ys -> exists x, In x l /\ f x = Ok y.
Proof.
  revert ys. induction l as [|a l IH]; intros ys; simpl.
  - intros H. apply Ok_inj in H. subst. intros y [].
  - destruct (f a) as [b|e] eqn:E; simpl; try discriminate.
    destruct (mapM f l) as [bs|e]; simpl; try discriminate.
    intros H. apply Ok_inj in H. subst. intros y [<- | Hy].
    + exists a. split; [now left | exact E].
    + destruct (IH bs eq_refl y Hy) as [x [Hx Hfx]]. exists x. split; [now right | exact Hfx].
Qed.

Lemma mapM_In_l {A B : Type} (f : A -> result B) (l : list A) (ys : list B) :
  mapM f l = Ok ys -> forall x, In x l -> exists y, In y ys /\ f x = Ok y.
Proof.
  revert ys. induction l as [|a l IH]; intros ys; simpl.
  - intros _ x [].
  - destruct (f a) as [b|e] eqn:E; simpl; try discriminate.
    destruct (mapM f l) as [bs|e]; simpl; try discriminate.
    intros H. apply Ok_inj in H. subst. intros x [<- | Hx].
    + exists b. split; [now left | exact E].
    + destruct (IH bs eq_refl x Hx) as [y [Hy Hfx]]. exists y. split; [now right | exact Hfx].
Qed.

(** What the sorted [with_dt] is when the sort does not raise: the records
    with their timestamps, none below a pair that stands behind it. *)
Lemma sorted_with_dt_spec (env : environment) (records : list value)
    (sorted : list (option datetime * value)) :
  V2.sorted_with_dt env records = Ok sorted ->
  (forall d r, In (d, r) sorted -> In r records /\ V2.record_datetime env r = Ok d)
  /\ (forall r, In r records ->
        exists d, V2.record_datetime env r = Ok d /\ In (d, r) sorted)
  /\ StronglySorted (fun a b => key_lt (sort_key a) (sort_key b) = Ok false) sorted
  /\ length sorted = length records.
Proof.
  unfold V2.sorted_with_dt.
  destruct (mapM _ records) as [with_dt|e] eqn:E; simpl; try discriminate.
  intros H.
  destruct (list_sort_reverse_spec _ key_lt key_lt_asym key_lt_chain with_dt sorted H)
    as [Hp Hs].
  split_and!.
  - intros d r Hin.
    apply (Permutation_in _ (Permutation_sym Hp)) in Hin.
    destruct (mapM_In_r _ _ _ E _ Hin) as [x [Hx Hfx]].
    destruct (V2.record_datetime env x) as [d'|e] eqn:Ed; simpl in Hfx; try discriminate.
    apply Ok_inj in Hfx. injection Hfx as -> ->. now split.
  - intros r Hin.
    destruct (mapM_In_l _ _ _ E _ Hin) as [y [Hy Hfy]].
    destruct (V2.record_datetime env r) as [d|e] eqn:Ed; simpl in Hfy; try discriminate.
    apply Ok_inj in Hfy. subst y. exists d. split; [reflexivity |].
    now apply (Permutation_in _ Hp).
  - exact Hs.
  - rewrite <- (Permutation_length Hp).
    clear H Hp Hs. revert with_dt E. induction records as [|a l IH]; intros w; simpl.
    + intros H. apply Ok_inj in H. now subst.
    + destruct (V2.record_datetime env a); simpl; try discriminate.
      destruct (mapM _ l) as [bs|e]; simpl; try discriminate.
      intros H. apply Ok_inj in H. subst. simpl. f_equal. now apply IH.
Qed.

Lemma first_with_temp_skip (pre l : list (option datetime * value)) :
  (forall x, In x pre -> V2.extract_temp (snd x) = Ok None) ->
  V2.first_with_temp (pre ++ l) = V2.first_with_temp l.
Proof.
  induction pre as [|[d r] pre IH]; intros H; [reflexivity |].
  pose proof (H (d, r) (or_introl eq_refl)) as Hd. simpl in Hd.
  simpl. rewrite Hd. simpl.
  apply IH. intros x Hx. apply H. now right.
Qed.

(** The scan over a list in descending order stops at a record with a
    temperature when every other record has none or is strictly below. *)
Lemma first_with_temp_latest (l : list (option datetime * value))
    (d2 : option datetime) (r2 : value) (t : float) :
  StronglySorted (fun a b => key_lt (sort_key a) (sort_key b) = Ok false) l ->
  In (d2, r2) l ->
  V2.extract_temp r2 = Ok (Some t) ->
  (forall x, In x l ->
     x = (d2, r2) \/ V2.extract_temp (snd x) = Ok None
     \/ key_lt (sort_key x) (sort_key (d2, r2)) = Ok true) ->
  V2.first_with_temp l = Ok (Some (t, d2, r2)).
Proof.
  intros Hs. induction Hs as [|[d r] l Hs IH Ha]; intros Hin Ht Hall; [destruct Hin |].
  assert (Hrest : In (d2, r2) l -> V2.extract_temp r = Ok None ->
                  V2.first_with_temp ((d, r) :: l) = Ok (Some (t, d2, r2))).
  { intros Hin' Hnone. simpl. rewrite Hnone. simpl.
    apply IH; auto. intros x Hx. apply Hall. now right. }
  destruct (Hall (d, r)) as [E | [E | E]]; [now left | | |].
  - injection E as -> ->. simpl. now rewrite Ht.
  - destruct Hin as [E' | Hin]; [| now apply Hrest].
    injection E' as -> ->. simpl in E. congruence.
  - destruct Hin as [E' | Hin].
    + rewrite E' in E. now apply key_lt_irrefl in E.
    + rewrite Forall_forall in Ha. apply list_elem_of_In in Hin.
      specialize (Ha _ Hin). congruence.
Qed.

Lemma latest_of_sorted (env : environment) (data : value)
    (sorted : list (option datetime * value)) :
  V2.sorted_with_dt env (V2.records_of data) = Ok sorted ->
  sorted <> [] ->
  V2.latest_of env data
  = (hit <- V2.first_with_temp sorted ;;
     match hit with
     | Some (temp, d, rec) => Ok (Some temp, d, Some rec)
     | None =>
         match sorted with
         | (first_d, first_rec) :: _ => Ok (None, first_d, Some first_rec)
         | [] => Raise IndexError
         end
     end).
Proof.
  intros H Hne. unfold V2.latest_of.
  destruct (V2.records_of data) as [|r rs] eqn:E.
  - change (Ok [] = Ok sorted) in H. apply Ok_inj in H. congruence.
  - now rewrite H.
Qed.

Lemma key_lt_earlier (t1 t2 : datetime) (r1 r2 : value) :
  datetime_lt t1 t2 = Ok true ->
  key_lt (sort_key (Some t1, r1)) (sort_key (Some t2, r2)) = Ok true.
Proof.
  intros H. unfold sort_key. cbn [fst]. rewrite key_lt_some. cbn [Bool.eqb negb].
  destruct (datetime_eq t1 t2) eqn:E; [| exact H].
  destruct (datetime_eq_not_lt t1 t2 E H).
Qed.

Lemma latest_of_latest_record (env : environment) (records : list value)
    (sorted : list (option datetime * value)) (r2 : value) (t2 : datetime) (t : float) :
  V2.sorted_with_dt env records = Ok sorted ->
  In r2 records ->
  V2.record_datetime env r2 = Ok (Some t2) ->
  V2.extract_temp r2 = Ok (Some t) ->
  (forall r, In r records ->
     r = r2 \/ V2.extract_temp r = Ok None
     \/ exists t1, V2.record_datetime env r = Ok (Some t1)
                   /\ datetime_lt t1 t2 = Ok true) ->
  V2.latest_of env (VList records) = Ok (Some t, Some t2, Some r2).
Proof.
  intros Hsort Hin Hd Ht Hall.
  destruct (sorted_with_dt_spec env records sorted Hsort) as (Hback & Hforth & Hs & _).
  assert (Hin2 : In (Some t2, r2) sorted).
  { destruct (Hforth r2 Hin) as [d [Hd' Hin']]. congruence. }
  rewrite (latest_of_sorted env (VList records) sorted Hsort)
    by (intros ->; destruct Hin2).
  rewrite (first_with_temp_latest sorted (Some t2) r2 t Hs Hin2 Ht); [reflexivity |].
  intros [d r] Hx. destruct (Hback d r Hx) as [Hr Hdr].
  destruct (Hall r Hr) as [-> | [Hnone | [t1 [Hd1 Hlt]]]].
  - left. congruence.
  - right. left. exact Hnone.
  - right. right. assert (d = Some t1) as -> by congruence.
    now apply key_lt_earlier.
Qed.

(** X20: in the order in which the sort leaves [with_dt], whatever that
    order is, the result is the temperature, the timestamp and the record
    of the first pair whose record yields a temperature; when no record
    yields one, it is [None] with the timestamp and the record of the
    first pair.  When one record has a timestamp and a temperature and
    every other record has no temperature or a strictly earlier timestamp,
    that record is returned, wherever it stands in the input; so for the
    middle one of three records. *)
Theorem latest_of_first_with_temperature (env : environment) :
  (forall data pre d r post t,
      V2.sorted_with_dt env (V2.records_of data) = Ok (pre ++ (d, r) :: post)%list ->
      (forall x, In x pre -> V2.extract_temp (snd x) = Ok None) ->
      V2.extract_temp r = Ok (Some t) ->
      V2.latest_of env data = Ok (Some t, d, Some r))
  /\ (forall data d r rest,
        V2.sorted_with_dt env (V2.records_of data) = Ok ((d, r) :: rest) ->
        (forall x, In x ((d, r) :: rest) -> V2.extract_temp (snd x) = Ok None) ->
        V2.latest_of env data = Ok (None, d, Some r))
  /\ (forall records sorted r2 t2 t,
        V2.sorted_with_dt env records = Ok sorted ->
        In r2 records ->
        V2.record_datetime env r2 = Ok (Some t2) ->
        V2.extract_temp r2 = Ok (Some t) ->
        (forall r, In r records ->
           r = r2 \/ V2.extract_temp r = Ok None
           \/ exists t1, V2.record_datetime env r = Ok (Some t1)
                         /\ datetime_lt t1 t2 = Ok true) ->
        V2.latest_of env (VList records) = Ok (Some t, Some t2, Some r2))
  /\ (forall r1 r2 r3 sorted t2 t,
        V2.sorted_with_dt env [r1; r2; r3] = Ok sorted ->
        V2.record_datetime env r2 = Ok (Some t2) ->
        V2.extract_temp r2 = Ok (Some t) ->
        (V2.extract_temp r1 = Ok None
         \/ exists t1, V2.record_datetime env r1 = Ok (Some t1)
                       /\ datetime_lt t1 t2 = Ok true) ->
        (V2.extract_temp r3 = Ok None
         \/ exists t3, V2.record_datetime env r3 = Ok (Some t3)
                       /\ datetime_lt t3 t2 = Ok true) ->
        V2.latest_of env (VList [r1; r2; r3]) = Ok (Some t, Some t2, Some r2)).
Proof.
  split_and!.
  - intros data pre d r post t Hsort Hpre Ht.
    rewrite (latest_of_sorted env data _ Hsort) by (now destruct pre).
    rewrite first_with_temp_skip by exact Hpre.
    simpl. now rewrite Ht.
  - intros data d r rest Hsort Hall.
    rewrite (latest_of_sorted env data _ Hsort) by discriminate.
    rewrite <- (app_nil_r ((d, r) :: rest)) at 1.
    rewrite first_with_temp_skip by exact Hall. reflexivity.
  - apply latest_of_latest_record.
  - intros r1 r2 r3 sorted t2 t Hsort Hd Ht H1 H3.
    apply (latest_of_latest_record env _ sorted r2 t2 t Hsort); auto.
    + right. now left.
    + intros r [<- | [<- | [<- | []]]]; auto.
Qed.

Lemma latest_of_witness :
  V2.latest_of (answering VNone)
    (VList [ record [("data_pomiaru", VStr "2024-05-01"); ("godzina_pomiaru", VInt 18);
                     ("temperatura", VStr "9,5")];
             record [("data_pomiaru", VStr "2024-05-02"); ("godzina_pomiaru", VInt 6);
                     ("temperatura", VStr "4,0")];
             record [("data_pomiaru", VStr "2024-05-01"); ("godzina_pomiaru", VInt 12)] ])
  = Ok (Some 4%float, Some (mkdatetime 2024 5 2 6 0 0 0 None),
        Some (record [("data_pomiaru", VStr "2024-05-02"); ("godzina_pomiaru", VInt 6);
                      ("temperatura", VStr "4,0")])).
Proof.
  eapply (proj2 (proj2 (proj2 (latest_of_first_with_temperature (answering VNone))))).
  - vm_compute. reflexivity.
  - vm_compute. reflexivity.
  - vm_compute. reflexivity.
  - right. eexists. split; vm_compute; reflexivity.
  - left. vm_compute. reflexivity.
Defined.

(** ** Where the records without a timestamp go *)

(** C1: the sort puts a record without a timestamp before a record with
    one, so that its temperature is the one returned; the specification
    places it behind every record with a timestamp. *)
Theorem undated_record_sorts_first (env : environment) :
  let dated := record [("data_pomiaru", VStr "2024-05-01"); ("godzina_pomiaru", VInt 12);
                       ("temperatura", VStr "10,5")] in
  let undated := record [("temperatura", VStr "99")] in
  V2.sorted_with_dt env [dated; undated]
  = Ok [(None, undated); (Some (mkdatetime 2024 5 1 12 0 0 0 None), dated)]
  /\ V1.sorted_with_dt env [dated; undated]
     = Ok [(None, undated); (Some (mkdatetime 2024 5 1 12 0 0 0 None), dated)]
  /\ V2.latest_of env (VList [dated; undated]) = Ok (Some 99%float, None, Some undated).
Proof. intros dated undated. split_and!; vm_compute; reflexivity. Qed.

(** C2: three records of which the middle one has the latest timestamp and
    a temperature, in front of them a record with a temperature and no
    timestamp: the sort leaves that record in front, and its temperature
    is returned in place of that of the middle record, the first with a
    temperature in the order from the most recent on.  Likewise with no
    temperature at all: the record without a timestamp is returned, and
    not the one with the most recent timestamp. *)
Theorem latest_of_undated_before_latest (env : environment) :
  let undated := record [("temperatura", VStr "99")] in
  let middle := record [("data_pomiaru", VStr "2024-05-02"); ("godzina_pomiaru", VInt 6);
                        ("temperatura", VStr "10,5")] in
  let old := record [("data_pomiaru", VStr "2024-05-01"); ("godzina_pomiaru", VInt 12);
                     ("temperatura", VStr "3")] in
  let silent := record [("data_pomiaru", VStr "2024-05-02"); ("godzina_pomiaru", VInt 6)] in
  let blank := record [("stacja", VStr "Bialystok")] in
  V2.record_datetime env undated = Ok None
  /\ V2.record_datetime env middle = Ok (Some (mkdatetime 2024 5 2 6 0 0 0 None))
  /\ V2.record_datetime env old = Ok (Some (mkdatetime 2024 5 1 12 0 0 0 None))
  /\ V2.extract_temp middle = Ok (Some 10.5%float)
  /\ V2.sorted_with_dt env [undated; middle; old]
     = Ok [(None, undated); (Some (mkdatetime 2024 5 2 6 0 0 0 None), middle);
           (Some (mkdatetime 2024 5 1 12 0 0 0 None), old)]
  /\ V2.latest_of env (VList [undated; middle; old]) = Ok (Some 99%float, None, Some undated)
  /\ V2.latest_of env (VList [silent; blank]) = Ok (None, None, Some blank).
Proof. intros undated middle old silent blank. split_and!; vm_compute; reflexivity. Qed.

(** ** Order and stability of the sort *)

Lemma lex_eq_refl (a : list Z) : lex_eq a a = true.
Proof. induction a as [|x a IH]; simpl; [reflexivity |]. now rewrite Z.eqb_refl. Qed.

Lemma lex_total (a b : list Z) :
  lex_lt a b = false -> lex_lt b a = false -> lex_eq a b = true.
Proof.
  revert b. induction a as [|x a IH]; intros [|y b]; simpl; try discriminate; auto.
  destruct (Z.ltb_spec x y), (Z.eqb_spec x y), (Z.ltb_spec y x), (Z.eqb_spec y x);
    simpl; try lia; try discriminate; auto.
Qed.

Lemma datetime_eq_lt_false (x y : datetime) :
  datetime_eq x y = true -> datetime_lt x y = Ok false.
Proof.
  unfold datetime_eq, datetime_lt.
  destruct (tzoffset x), (tzoffset y); try discriminate; intros H; f_equal.
  - lia.
  - apply lex_eq_eq in H. rewrite H. apply lex_lt_irrefl.
Qed.

Lemma datetime_lt_above (x y z : datetime) :
  datetime_lt x y = Ok true ->
  datetime_eq z y = true \/ datetime_lt z y = Ok false ->
  datetime_eq x z = false /\ datetime_lt x z = Ok true.
Proof.
  unfold datetime_eq, datetime_lt.
  destruct (tzoffset x), (tzoffset y), (tzoffset z); try discriminate;
    intros Hxy [Hzy | Hzy]; try discriminate; apply Ok_inj in Hxy.
  - split; [| f_equal]; lia.
  - apply Ok_inj in Hzy. split; [| f_equal]; lia.
  - apply lex_eq_eq in Hzy. rewrite Hzy. split; [| now f_equal].
    destruct (lex_eq (naive_fields x) (naive_fields y)) eqn:E; [| reflexivity].
    apply lex_eq_eq in E. rewrite E, lex_lt_irrefl in Hxy. discriminate.
  - apply Ok_inj in Hzy.
    assert (Hxz : lex_lt (naive_fields x) (naive_fields z) = true).
    { destruct (lex_lt (naive_fields x) (naive_fields z)) eqn:E1; [reflexivity |].
      destruct (lex_lt (naive_fields z) (naive_fields x)) eqn:E2.
      - now rewrite (lex_lt_trans _ _ _ E2 Hxy) in Hzy.
      - pose proof (lex_eq_eq _ _ (lex_total _ _ E1 E2)) as E.
        rewrite <- E in Hzy. congruence. }
    split; [| now f_equal].
    destruct (lex_eq (naive_fields x) (naive_fields z)) eqn:E; [| reflexivity].
    apply lex_eq_eq in E. rewrite E, lex_lt_irrefl in Hxz. discriminate.
Qed.

Lemma key_lt_above (a b c : bool * option datetime) :
  key_lt a b = Ok true -> key_lt c b = Ok false -> key_lt a c = Ok true.
Proof.
  destruct a as [[|] [x|]], b as [[|] [y|]], c as [[|] [z|]]; unfold key_lt; simpl;
    try discriminate; try reflexivity.
  all: destruct (datetime_eq x y) eqn:Exy; try discriminate; intros Hxy Hzy;
    assert (H : datetime_eq x z = false /\ datetime_lt x z = Ok true)
      by (apply (datetime_lt_above x y z Hxy);
          destruct (datetime_eq z y); [now left | now right]);
    destruct H as [-> ->]; reflexivity.
Qed.

Lemma filter_none {A : Type} (f : A -> bool) (l : list A) :
  (forall z, In z l -> f z = false) -> List.filter f l = [].
Proof.
  induction l as [|a l IH]; intros H; [reflexivity |]. simpl.
  rewrite (H a) by now left. apply IH. intros z Hz. apply H. now right.
Qed.

Section SortStable.
Context {A K : Type} (key : A -> K) (lt : K -> K -> result bool).
Hypothesis lt_above :
  forall a b c, lt a b = Ok true -> lt c b = Ok false -> lt a c = Ok true.

Lemma insert_sorted_same_key (k : K) (x : A) (l l' : list A) :
  StronglySorted (not_below key lt) l ->
  insert_sorted key lt x l = Ok l' ->
  List.filter (same_key key lt k) l'
  = (List.filter (same_key key lt k) l
     ++ if same_key key lt k x then [x] else [])%list.
Proof.
  revert l'. induction l as [|y l IH]; intros l' Hs; simpl insert_sorted.
  - intros H. apply Ok_inj in H. subst. simpl. now destruct (same_key key lt k x).
  - apply StronglySorted_inv in Hs as [Hs Hy].
    destruct (lt (key x) (key y)) as [[|]|e] eqn:E; simpl bind; try discriminate.
    + intros H. apply Ok_inj in H. subst.
      change (List.filter (same_key key lt k) (x :: y :: l))
        with (if same_key key lt k x
              then x :: List.filter (same_key key lt k) (y :: l)
              else List.filter (same_key key lt k) (y :: l)).
      destruct (same_key key lt k x) eqn:Ex; [| now rewrite app_nil_r].
      rewrite filter_none; [reflexivity |].
      intros z Hz.
      assert (Hxz : lt (key x) (key z) = Ok true).
      { destruct Hz as [<- | Hz]; [exact E |].
        rewrite Forall_forall in Hy. apply list_elem_of_In in Hz.
        apply (lt_above _ _ _ E). now apply Hy. }
      unfold same_key in *.
      destruct (lt k (key x)) as [[|]|]; try discriminate.
      destruct (lt (key x) k) as [[|]|] eqn:Exk; try discriminate.
      destruct (lt k (key z)) as [[|]|] eqn:Ekz; try reflexivity.
      rewrite (lt_above _ _ _ Hxz Ekz) in Exk. discriminate.
    + destruct (insert_sorted key lt x l) as [r|e] eqn:Er; simpl bind; try discriminate.
      intros H. apply Ok_inj in H. subst.
      simpl List.filter. rewrite (IH r Hs eq_refl).
      now destruct (same_key key lt k y).
Qed.

Hypothesis lt_asym : forall a b, lt a b = Ok true -> lt b a = Ok false.
Hypothesis lt_chain :
  forall a b c, lt a b = Ok true -> lt c b = Ok false -> lt c a = Ok false.

Lemma sort_from_same_key (k : K) (acc l r : list A) :
  StronglySorted (not_below key lt) acc ->
  sort_from key lt acc l = Ok r ->
  List.filter (same_key key lt k) r
  = (List.filter (same_key key lt k) acc ++ List.filter (same_key key lt k) l)%list.
Proof.
  revert acc. induction l as [|x l IH]; intros acc Hs; simpl sort_from.
  - intros H. apply Ok_inj in H. subst. simpl. now rewrite app_nil_r.
  - destruct (insert_sorted key lt x acc) as [acc'|e] eqn:E; simpl bind; try discriminate.
    intros H.
    rewrite (IH acc' (insert_sorted_sorted key lt lt_asym lt_chain _ _ _ Hs E) H).
    rewrite (insert_sorted_same_key k x acc acc' Hs E).
    rewrite <- app_assoc. f_equal. simpl.
    now destruct (same_key key lt k x).
Qed.

(** With [reverse=True] too, the elements of one key keep their order. *)
Lemma list_sort_reverse_stable (k : K) (l r : list A) :
  list_sort key lt true l = Ok r ->
  List.filter (same_key key lt k) r = List.filter (same_key key lt k) l.
Proof.
  unfold list_sort.
  destruct (sort_from key lt [] (rev l)) as [r'|e] eqn:E; simpl; try discriminate.
  intros H. apply Ok_inj in H. subst.
  rewrite filter_rev, (sort_from_same_key k [] (rev l) r' (SSorted_nil _) E).
  simpl. now rewrite filter_rev, rev_involutive.
Qed.
End SortStable.

Lemma mapM_pairs_snd (env : environment) (records : list value)
    (with_dt : list (option datetime * value)) :
  mapM (fun rec => d <- V2.record_datetime env rec ;; Ok (d, rec)) records = Ok with_dt ->
  map snd with_dt = records.
Proof.
  revert with_dt. induction records as [|a l IH]; intros w; simpl.
  - intros H. apply Ok_inj in H. now subst.
  - destruct (V2.record_datetime env a); simpl; try discriminate.
    destruct (mapM _ l) as [bs|e]; simpl; try discriminate.
    intros H. apply Ok_inj in H. subst. simpl. f_equal. now apply IH.
Qed.

(** X1: the order the sort gives to [with_dt]: a record without a timestamp is
    never behind a record with one, and of two records with timestamps the
    one in front is not the earlier one. *)
Theorem sorted_with_dt_order (env : environment) (records : list value)
    (sorted pre mid post : list (option datetime * value))
    (x y : option datetime * value) :
  V2.sorted_with_dt env records = Ok sorted ->
  sorted = (pre ++ x :: mid ++ y :: post)%list ->
  (fst y = None -> fst x = None)
  /\ (forall tx ty, fst x = Some tx -> fst y = Some ty -> datetime_lt tx ty = Ok false).
Proof.
  intros Hsort ->.
  destruct (sorted_with_dt_spec env records _ Hsort) as (_ & _ & Hs & _).
  apply StronglySorted_app_1_r in Hs.
  apply StronglySorted_inv in Hs as [_ Hx].
  rewrite Forall_forall in Hx.
  assert (H : key_lt (sort_key x) (sort_key y) = Ok false).
  { apply Hx. apply list_elem_of_In, in_or_app. right. now left. }
  destruct x as [[tx|] rx], y as [[ty|] ry]; unfold sort_key, key_lt in H; simpl in H;
    try discriminate; split; simpl; try congruence.
  intros tx' ty' Ex Ey. apply Some_inj in Ex, Ey. subst.
  destruct (datetime_eq tx' ty') eqn:E; [now apply datetime_eq_lt_false | exact H].
Qed.

Lemma sorted_with_dt_order_witness :
  let dated := record [("data_pomiaru", VStr "2024-05-01"); ("godzina_pomiaru", VInt 12)] in
  let later := record [("data_pomiaru", VStr "2024-05-01"); ("godzina_pomiaru", VInt 18)] in
  let undated := record [("temperatura", VStr "99")] in
  let x : option datetime * value := (None, undated) in
  let y : option datetime * value := (Some (mkdatetime 2024 5 1 18 0 0 0 None), later) in
  (fst y = None -> fst x = None)
  /\ (forall tx ty, fst x = Some tx -> fst y = Some ty -> datetime_lt tx ty = Ok false).
Proof.
  intros dated later undated x y.
  apply (sorted_with_dt_order (answering VNone) [dated; undated; later]
           [x; y; (Some (mkdatetime 2024 5 1 12 0 0 0 None), dated)]
           [] [] [(Some (mkdatetime 2024 5 1 12 0 0 0 None), dated)]).
  - vm_compute. reflexivity.
  - reflexivity.
Defined.

(** X2: the sort is stable: the pairs of one key stand in the sorted [with_dt]
    in the order of their records in the input. *)
Theorem sorted_with_dt_stable (env : environment) (records : list value)
    (sorted : list (option datetime * value)) :
  V2.sorted_with_dt env records = Ok sorted ->
  exists with_dt,
    mapM (fun rec => d <- V2.record_datetime env rec ;; Ok (d, rec)) records = Ok with_dt
    /\ map snd with_dt = records
    /\ Permutation with_dt sorted
    /\ forall k, List.filter (same_key sort_key key_lt k) sorted
                 = List.filter (same_key sort_key key_lt k) with_dt.
Proof.
  unfold V2.sorted_with_dt.
  destruct (mapM _ records) as [with_dt|e] eqn:E; simpl; try discriminate.
  intros H. exists with_dt. split_and!.
  - reflexivity.
  - now apply (mapM_pairs_snd env).
  - exact (proj1 (list_sort_reverse_spec sort_key key_lt key_lt_asym key_lt_chain
                    with_dt sorted H)).
  - intros k.
    exact (list_sort_reverse_stable sort_key key_lt key_lt_above key_lt_asym key_lt_chain
             k with_dt sorted H).
Qed.

Lemma sorted_with_dt_stable_witness :
  exists with_dt,
    mapM (fun rec => d <- V2.record_datetime (answering VNone) rec ;; Ok (d, rec))
      [record [("temperatura", VInt 1)]; record [("data", VStr "2024-05-01")];
       record [("temperatura", VInt 2)]] = Ok with_dt
    /\ map snd with_dt
       = [record [("temperatura", VInt 1)]; record [("data", VStr "2024-05-01")];
          record [("temperatura", VInt 2)]]
    /\ Permutation with_dt
         [(None, record [("temperatura", VInt 1)]); (None, record [("temperatura", VInt 2)]);
          (Some (mkdatetime 2024 5 1 0 0 0 0 None), record [("data", VStr "2024-05-01")])]
    /\ forall k,
         List.filter (same_key sort_key key_lt k)
           [(None, record [("temperatura", VInt 1)]); (None, record [("temperatura", VInt 2)]);
            (Some (mkdatetime 2024 5 1 0 0 0 0 None), record [("data", VStr "2024-05-01")])]
         = List.filter (same_key sort_key key_lt k) with_dt.
Proof.
  apply (sorted_with_dt_stable (answering VNone)).
  vm_compute. reflexivity.
Defined.

(** ** When the selection returns *)

Section SortTotal.
Context {A K : Type} (key : A -> K) (lt : K -> K -> result bool).

Lemma insert_sorted_total (x : A) (l : list A) :
  (forall y, In y l -> exists b, lt (key x) (key y) = Ok b) ->
  exists l', insert_sorted key lt x l = Ok l'.
Proof.
  induction l as [|y l IH]; intros H; simpl; [eauto |].
  destruct (H y) as [b Hb]; [now left |]. rewrite Hb. simpl.
  destruct b; [eauto |].
  destruct IH as [r Hr]; [intros z Hz; apply H; now right |].
  rewrite Hr. simpl. eauto.
Qed.

Lemma insert_sorted_In (x : A) (l l' : list A) :
  insert_sorted key lt x l = Ok l' -> forall z, In z l' -> z = x \/ In z l.
Proof.
  revert l'. induction l as [|y l IH]; intros l'; simpl.
  - intros H. apply Ok_inj in H. subst. intros z [<- | []]. now left.
  - destruct (lt (key x) (key y)) as [[|]|e]; simpl; try discriminate.
    + intros H. apply Ok_inj in H. subst. intros z [<- | Hz]; [now left | now right].
    + destruct (insert_sorted key lt x l) as [r|e]; simpl; try discriminate.
      intros H. apply Ok_inj in H. subst. intros z [<- | Hz].
      * right. now left.
      * destruct (IH r eq_refl z Hz) as [-> | Hz']; [now left | right; now right].
Qed.

Lemma sort_from_total (acc l : list A) :
  (forall x y, In x (acc ++ l)%list -> In y (acc ++ l)%list ->
               exists b, lt (key x) (key y) = Ok b) ->
  exists r, sort_from key lt acc l = Ok r.
Proof.
  revert acc. induction l as [|x l IH]; intros acc H; simpl; [eauto |].
  destruct (insert_sorted_total x acc) as [acc' Hacc].
  { intros y Hy. apply H; apply in_or_app; [right; now left | now left]. }
  rewrite Hacc. simpl. apply IH.
  assert (Hsub : forall z, In z (acc' ++ l)%list -> In z (acc ++ x :: l)%list).
  { intros z Hz. apply in_app_or in Hz as [Hz | Hz]; apply in_or_app.
    - destruct (insert_sorted_In x acc acc' Hacc z Hz) as [-> | Hz'];
        [right; now left | now left].
    - right. now right. }
  intros a b Ha Hb. apply H; now apply Hsub.
Qed.

Lemma list_sort_reverse_total (l : list A) :
  (forall x y, In x l -> In y l -> exists b, lt (key x) (key y) = Ok b) ->
  exists r, list_sort key lt true l = Ok r.
Proof.
  intros H. unfold list_sort.
  destruct (sort_from_total [] (rev l)) as [r Hr].
  { simpl. intros x y Hx Hy. apply H; now apply in_rev. }
  rewrite Hr. simpl. eauto.
Qed.
End SortTotal.



Lemma extract_from_dict_total (m : gmap string value) (l : list string) :
  exists r, V2.extract_from (VDict m) l = Ok r.
Proof.
  induction l as [|k l IH]; [simpl; eauto |].
  cbn [V2.extract_from py_in py_getitem bind].
  destruct (m !! k) as [v|]; cbn [bind]; [| exact IH].
  destruct (not_none_or_empty v); [| exact IH].
  destruct (V2.coerce v); simpl; [eauto | exact IH].
Qed.




(** ** What the selection returns *)

Lemma first_with_temp_some_inv (l : list (option datetime * value))
    (t : float) (d : option datetime) (r : value) :
  V2.first_with_temp l = Ok (Some (t, d, r)) ->
  exists pre post,
    l = (pre ++ (d, r) :: post)%list
    /\ (forall x, In x pre -> V2.extract_temp (snd x) = Ok None)
    /\ V2.extract_temp r = Ok (Some t).
Proof.
  induction l as [|[d0 r0] l IH]; simpl; [discriminate |].
  destruct (V2.extract_temp r0) as [[t0|]|e] eqn:E; simpl; try discriminate.
  - intros H. apply Ok_inj in H. injection H as -> -> ->.
    exists [], l. split_and!; [reflexivity | intros x [] | exact E].
  - intros H. destruct (IH H) as (pre & post & -> & Hpre & Hr).
    exists ((d0, r0) :: pre), post. split_and!; [reflexivity | | exact Hr].
    intros x [<- | Hx]; [exact E | now apply Hpre].
Qed.

Lemma first_with_temp_none_inv (l : list (option datetime * value)) :
  V2.first_with_temp l = Ok None ->
  forall x, In x l -> V2.extract_temp (snd x) = Ok None.
Proof.
  induction l as [|[d0 r0] l IH]; simpl; [intros _ x [] |].
  destruct (V2.extract_temp r0) as [[t0|]|e] eqn:E; simpl; try discriminate.
  intros H x [<- | Hx]; [exact E | now apply IH].
Qed.

Lemma latest_of_inv (env : environment) (data : value)
    (t : option float) (d : option datetime) (r : option value) :
  V2.latest_of env data = Ok (t, d, r) ->
  (V2.records_of data = [] /\ t = None /\ d = None /\ r = None)
  \/ exists sorted,
       V2.sorted_with_dt env (V2.records_of data) = Ok sorted
       /\ ((exists temp rec pre post,
              t = Some temp /\ r = Some rec
              /\ sorted = (pre ++ (d, rec) :: post)%list
              /\ (forall x, In x pre -> V2.extract_temp (snd x) = Ok None)
              /\ V2.extract_temp rec = Ok (Some temp))
           \/ (exists rec rest,
                 t = None /\ r = Some rec /\ sorted = (d, rec) :: rest
                 /\ forall x, In x sorted -> V2.extract_temp (snd x) = Ok None)).
Proof.
  unfold V2.latest_of.
  destruct (V2.records_of data) as [|r0 rs] eqn:Erec.
  - intros H. apply Ok_inj in H. injection H as <- <- <-. now left.
  - destruct (V2.sorted_with_dt env (r0 :: rs)) as [sorted|e] eqn:Es;
      cbn [bind]; try discriminate.
    destruct (V2.first_with_temp sorted) as [[[[temp d'] rec]|]|e] eqn:Ef;
      cbn [bind]; try discriminate.
    + intros H. apply Ok_inj in H. injection H as <- <- <-.
      right. exists sorted. split; [reflexivity |]. left.
      destruct (first_with_temp_some_inv _ _ _ _ Ef) as (pre & post & -> & Hpre & Hr).
      exists temp, rec, pre, post. now split_and!.
    + destruct sorted as [|[fd fr] rest]; try discriminate.
      intros H. apply Ok_inj in H. injection H as <- <- <-.
      right. exists ((fd, fr) :: rest). split; [reflexivity |]. right.
      exists fr, rest. split_and!; try reflexivity.
      now apply first_with_temp_none_inv.
Qed.

(** X4: the three parts of the result belong together.  Without a record
    the payload had no records and everything is [None]; otherwise the
    record is one of the payload, the timestamp is the one derived from
    it, and the temperature is the one extracted from it, or [None] when
    no record of the payload yields a temperature. *)
Theorem latest_of_coherent (env : environment) (data : value)
    (t : option float) (d : option datetime) (r : option value) :
  V2.latest_of env data = Ok (t, d, r) ->
  match r with
  | None => V2.records_of data = [] /\ t = None /\ d = None
  | Some rec =>
      In rec (V2.records_of data)
      /\ V2.record_datetime env rec = Ok d
      /\ match t with
         | Some temp => V2.extract_temp rec = Ok (Some temp)
         | None => forall r', In r' (V2.records_of data) -> V2.extract_temp r' = Ok None
         end
  end.
Proof.
  intros H. destruct (latest_of_inv env data t d r H)
    as [(Hrec & -> & -> & ->) | (sorted & Hs & Hcase)]; [now split_and! |].
  destruct (sorted_with_dt_spec env _ _ Hs) as (Hback & Hforth & _ & _).
  destruct Hcase as [(temp & rec & pre & post & -> & -> & -> & Hpre & Hr)
                    | (rec & rest & -> & -> & -> & Hall)].
  - destruct (Hback d rec) as [Hin Hd]; [apply in_or_app; right; now left |].
    now split_and!.
  - destruct (Hback d rec) as [Hin Hd]; [now left |].
    split_and!; try assumption.
    intros r' Hr'. destruct (Hforth r' Hr') as [d' [_ Hin']].
    exact (Hall (d', r') Hin').
Qed.

Lemma latest_of_coherent_witness :
  In (record [("temperatura", VStr "7,5")])
     (V2.records_of (VList [record [("data", VStr "2024-05-01")];
                            record [("temperatura", VStr "7,5")]]))
  /\ V2.record_datetime (answering VNone) (record [("temperatura", VStr "7,5")]) = Ok None
  /\ V2.extract_temp (record [("temperatura", VStr "7,5")]) = Ok (Some 7.5%float).
Proof.
  apply (latest_of_coherent (answering VNone)
           (VList [record [("data", VStr "2024-05-01")];
                   record [("temperatura", VStr "7,5")]])
           (Some 7.5%float) None (Some (record [("temperatura", VStr "7,5")]))).
  vm_compute. reflexivity.
Defined.

Lemma datetime_lt_irrefl (x : datetime) : datetime_lt x x = Ok false.
Proof.
  apply datetime_eq_lt_false. unfold datetime_eq.
  destruct (tzoffset x); [apply Z.eqb_refl | apply lex_eq_refl].
Qed.

Lemma sorted_before_not_earlier (pre post : list (option datetime * value))
    (x y : option datetime * value) :
  StronglySorted (fun a b => key_lt (sort_key a) (sort_key b) = Ok false)
    (pre ++ x :: post) ->
  In y post -> key_lt (sort_key x) (sort_key y) = Ok false.
Proof.
  intros Hs Hy. apply StronglySorted_app_1_r in Hs.
  apply StronglySorted_inv in Hs as [_ Hx].
  rewrite Forall_forall in Hx. apply Hx. now apply list_elem_of_In.
Qed.

(** X5: a result with a timestamp is the latest one: no record of the
    payload that yields a temperature has a later timestamp. *)
Theorem latest_of_is_latest (env : environment) (data : value)
    (t : float) (tr : datetime) (r : value) :
  V2.latest_of env data = Ok (Some t, Some tr, Some r) ->
  forall r' t' tr',
    In r' (V2.records_of data) ->
    V2.extract_temp r' = Ok (Some t') ->
    V2.record_datetime env r' = Ok (Some tr') ->
    datetime_lt tr tr' = Ok false.
Proof.
  intros H r' t' tr' Hin Ht' Hd'.
  destruct (latest_of_inv env data _ _ _ H)
    as [(_ & Hnone & _) | (sorted & Hs & Hcase)]; [discriminate |].
  destruct (sorted_with_dt_spec env _ _ Hs) as (_ & Hforth & Hsorted & _).
  destruct Hcase as [(temp & rec & pre & post & _ & Hrec & -> & Hpre & _)
                    | (rec & rest & Hnone & _)]; [| discriminate].
  destruct (Hforth r' Hin) as [d' [Hd'' Hin']].
  assert (d' = Some tr') as -> by congruence.
  apply in_app_or in Hin' as [Hin' | [E | Hin']].
  - specialize (Hpre _ Hin'). simpl in Hpre. congruence.
  - injection E as ->. intros. apply datetime_lt_irrefl.
  - pose proof (sorted_before_not_earlier pre post _ _ Hsorted Hin') as Hk.
    unfold sort_key in Hk. cbn [fst] in Hk. rewrite key_lt_some in Hk.
    cbn [Bool.eqb negb] in Hk.
    destruct (datetime_eq tr tr') eqn:E; [now apply datetime_eq_lt_false | exact Hk].
Qed.

Lemma latest_of_is_latest_witness :
  datetime_lt (mkdatetime 2024 5 2 6 0 0 0 None) (mkdatetime 2024 5 1 18 0 0 0 None)
  = Ok false.
Proof.
  apply (latest_of_is_latest (answering VNone)
           (VList [ record [("data_pomiaru", VStr "2024-05-01"); ("godzina_pomiaru", VInt 18);
                            ("temperatura", VStr "9,5")];
                    record [("data_pomiaru", VStr "2024-05-02"); ("godzina_pomiaru", VInt 6);
                            ("temperatura", VStr "4,0")] ])
           4%float (mkdatetime 2024 5 2 6 0 0 0 None)
           (record [("data_pomiaru", VStr "2024-05-02"); ("godzina_pomiaru", VInt 6);
                    ("temperatura", VStr "4,0")])
           ltac:(vm_compute; reflexivity)
           (record [("data_pomiaru", VStr "2024-05-01"); ("godzina_pomiaru", VInt 18);
                    ("temperatura", VStr "9,5")])
           9.5%float (mkdatetime 2024 5 1 18 0 0 0 None)).
  - now left.
  - vm_compute. reflexivity.
  - vm_compute. reflexivity.
Defined.

(** X6: a record that yields a temperature but no timestamp takes
    precedence over every record with a timestamp: the result then has a
    temperature and no timestamp. *)
Theorem latest_of_undated_wins (env : environment) (data : value)
    (t : option float) (d : option datetime) (r : option value) (r' : value) (t' : float) :
  V2.latest_of env data = Ok (t, d, r) ->
  In r' (V2.records_of data) ->
  V2.extract_temp r' = Ok (Some t') ->
  V2.record_datetime env r' = Ok None ->
  d = None /\ exists temp rec, t = Some temp /\ r = Some rec
                               /\ V2.record_datetime env rec = Ok None.
Proof.
  intros H Hin Ht' Hd'.
  destruct (latest_of_inv env data _ _ _ H)
    as [(Hrec & _) | (sorted & Hs & Hcase)]; [rewrite Hrec in Hin; destruct Hin |].
  destruct (sorted_with_dt_spec env _ _ Hs) as (Hback & Hforth & Hsorted & _).
  destruct (Hforth r' Hin) as [d' [Hd'' Hin']].
  assert (d' = None) as -> by congruence.
  destruct Hcase as [(temp & rec & pre & post & -> & -> & -> & Hpre & _)
                    | (rec & rest & _ & _ & _ & Hall)].
  - assert (d = None) as ->.
    { apply in_app_or in Hin' as [Hin' | [E | Hin']].
      - specialize (Hpre _ Hin'). simpl in Hpre. congruence.
      - now injection E.
      - pose proof (sorted_before_not_earlier pre post _ _ Hsorted Hin') as Hk.
        destruct d as [td|]; [| reflexivity]. discriminate. }
    split; [reflexivity |]. exists temp, rec. split_and!; try reflexivity.
    apply (Hback None rec). apply in_or_app. right. now left.
  - specialize (Hall _ Hin'). simpl in Hall. congruence.
Qed.

Lemma latest_of_undated_wins_witness :
  (None : option datetime) = None
  /\ exists temp rec,
       Some 99%float = Some temp /\ Some (record [("temperatura", VStr "99")]) = Some rec
       /\ V2.record_datetime (answering VNone) rec = Ok None.
Proof.
  apply (latest_of_undated_wins (answering VNone)
           (VList [ record [("data_pomiaru", VStr "2024-05-01"); ("godzina_pomiaru", VInt 12);
                            ("temperatura", VStr "10,5")];
                    record [("temperatura", VStr "99")] ])
           (Some 99%float) None (Some (record [("temperatura", VStr "99")]))
           (record [("temperatura", VStr "99")]) 99%float).
  - vm_compute. reflexivity.
  - right. now left.
  - vm_compute. reflexivity.
  - vm_compute. reflexivity.
Defined.

(** ** Payloads without timestamps, and of one record *)

Lemma mapM_undated (env : environment) (records : list value) :
  (forall r, In r records -> V2.record_datetime env r = Ok None) ->
  mapM (fun rec => d <- V2.record_datetime env rec ;; Ok (d, rec)) records
  = Ok (map (fun r => (None, r)) records).
Proof.
  induction records as [|a l IH]; intros H; [reflexivity |].
  simpl. rewrite (H a) by now left. simpl.
  rewrite IH by (intros r Hr; apply H; now right). reflexivity.
Qed.

Lemma filter_all {A : Type} (f : A -> bool) (l : list A) :
  (forall z, In z l -> f z = true) -> List.filter f l = l.
Proof.
  induction l as [|a l IH]; intros H; [reflexivity |]. simpl.
  rewrite (H a) by now left. f_equal. apply IH. intros z Hz. apply H. now right.
Qed.

(** Without any timestamp the sort leaves the records in their order. *)
Lemma sorted_with_dt_undated (env : environment) (records : list value) :
  (forall r, In r records -> V2.record_datetime env r = Ok None) ->
  V2.sorted_with_dt env records = Ok (map (fun r => (None, r)) records).
Proof.
  intros H.
  assert (Hn : forall r, In r records ->
                 exists d, V2.record_datetime env r = Ok d /\ naive_or_none d).
  { intros r Hr. exists None. split; [now apply H | discriminate]. }
  destruct (list_sort_reverse_total sort_key key_lt (map (fun r => (None, r)) records))
    as [sorted Hs].
  { intros [d1 r1] [d2 r2] H1 H2.
    apply in_map_iff in H1 as [x1 [E1 _]]. apply in_map_iff in H2 as [x2 [E2 _]].
    injection E1 as <- <-. injection E2 as <- <-. now exists false. }
  unfold V2.sorted_with_dt. rewrite (mapM_undated env records H). cbn [bind].
  change (list_sort sort_key key_lt true (map (fun r => (None, r)) records)
          = Ok (map (fun r => (None, r)) records)).
  rewrite Hs. f_equal.
  pose proof (list_sort_reverse_stable sort_key key_lt key_lt_above key_lt_asym
                key_lt_chain (true, None) _ _ Hs) as Hst.
  destruct (list_sort_reverse_spec sort_key key_lt key_lt_asym key_lt_chain _ _ Hs)
    as [Hp _].
  assert (Hall : forall l : list (option datetime * value),
             (forall x, In x l -> fst x = None) ->
             List.filter (same_key sort_key key_lt (true, None)) l = l).
  { intros l Hl. apply filter_all. intros [d r] Hx.
    specialize (Hl _ Hx). simpl in Hl. now subst. }
  rewrite !Hall in Hst; [exact Hst | |].
  - intros x Hx. apply in_map_iff in Hx as [r [<- _]]. reflexivity.
  - intros x Hx. apply (Permutation_in _ (Permutation_sym Hp)) in Hx.
    apply in_map_iff in Hx as [r [<- _]]. reflexivity.
Qed.

(** X7: when no record of the payload has a timestamp, the first record
    of the payload, in its own order, that yields a temperature is returned. *)
Theorem latest_of_undated_payload (env : environment) (data : value)
    (pre post : list value) (r : value) (t : float) :
  (forall x, In x (V2.records_of data) -> V2.record_datetime env x = Ok None) ->
  V2.records_of data = (pre ++ r :: post)%list ->
  (forall x, In x pre -> V2.extract_temp x = Ok None) ->
  V2.extract_temp r = Ok (Some t) ->
  V2.latest_of env data = Ok (Some t, None, Some r).
Proof.
  intros Hd Hrec Hpre Ht.
  pose proof (sorted_with_dt_undated env _ Hd) as Hs.
  rewrite (latest_of_sorted env data _ Hs)
    by (rewrite Hrec; destruct pre; discriminate).
  rewrite Hrec, map_app. cbn [map].
  rewrite first_with_temp_skip.
  - simpl. now rewrite Ht.
  - intros x Hx. apply in_map_iff in Hx as [y [<- Hy]]. simpl. now apply Hpre.
Qed.

Lemma latest_of_undated_payload_witness :
  V2.latest_of (answering VNone)
    (VList [record [("stacja", VStr "Bialystok")]; record [("temp", VInt 3)];
            record [("temp", VInt 8)]])
  = Ok (Some 3%float, None, Some (record [("temp", VInt 3)])).
Proof.
  apply (latest_of_undated_payload (answering VNone) _
           [record [("stacja", VStr "Bialystok")]] [record [("temp", VInt 8)]]).
  - intros x [<- | [<- | [<- | []]]]; vm_compute; reflexivity.
  - reflexivity.
  - intros x [<- | []]. vm_compute. reflexivity.
  - vm_compute. reflexivity.
Defined.

(** X8: for a payload of one record, a lone mapping or a one-element
    sequence, the result is the temperature of the record, its timestamp
    and the record itself; an exception of either derivation is the
    exception of the selection. *)
Theorem latest_of_single_record (env : environment) :
  (forall r : value,
      V2.latest_of env (VList [r])
      = (d <- V2.record_datetime env r ;; t <- V2.extract_temp r ;; Ok (t, d, Some r)))
  /\ (forall m : gmap string value,
        V2.latest_of env (VDict m)
        = (d <- V2.record_datetime env (VDict m) ;;
           t <- V2.extract_temp (VDict m) ;; Ok (t, d, Some (VDict m)))).
Proof.
  assert (H : forall r : value,
             V2.latest_of env (VList [r])
             = (d <- V2.record_datetime env r ;;
                t <- V2.extract_temp r ;; Ok (t, d, Some r))).
  { intros r. unfold V2.latest_of, V2.sorted_with_dt. cbn [V2.records_of mapM].
    destruct (V2.record_datetime env r) as [d|e]; cbn [bind]; [| reflexivity].
    cbn [list_sort rev app sort_from insert_sorted bind V2.first_with_temp].
    destruct (V2.extract_temp r) as [[t|]|e]; reflexivity. }
  split; [exact H |]. intros m. exact (H (VDict m)).
Qed.

(** ** More on the temperature and the timestamp of a record *)

Lemma extract_from_frame (m : gmap string value) (k : string) (v : value)
    (l : list string) :
  ~ In k l ->
  V2.extract_from (VDict (<[k:=v]> m)) l = V2.extract_from (VDict m) l.
Proof.
  induction l as [|a l IH]; intros H; [reflexivity |].
  cbn [V2.extract_from py_in py_getitem bind].
  rewrite lookup_insert_ne by (intros ->; apply H; now left).
  rewrite IH by (intros Hin; apply H; now right).
  reflexivity.
Qed.

(** X9: [extract_temp] never raises on a mapping, whatever its fields
    hold; a field that is no candidate has no influence on the result; on
    a record that is [None] or a number it raises [TypeError]. *)
Theorem extract_temp_on_mappings :
  (forall m : gmap string value, exists r, V2.extract_temp (VDict m) = Ok r)
  /\ (forall (m : gmap string value) k v,
        ~ In k V2.candidates ->
        V2.extract_temp (VDict (<[k:=v]> m)) = V2.extract_temp (VDict m))
  /\ (forall r : value,
        match r with
        | VNone | VBool _ | VInt _ | VFloat _ => V2.extract_temp r = Raise TypeError
        | _ => True
        end).
Proof.
  split_and!.
  - intros m. apply extract_from_dict_total.
  - intros m k v H. now apply extract_from_frame.
  - intros r. destruct r; try exact I; reflexivity.
Qed.

Lemma extract_temp_on_mappings_witness :
  V2.extract_temp (VDict (<["stacja" := VStr "Bialystok"]> {["temp" := VStr "3,5"]}))
  = V2.extract_temp (VDict {["temp" := VStr "3,5"]}).
Proof.
  apply (proj1 (proj2 extract_temp_on_mappings)).
  intros [E | [E | [E | [E | []]]]]; discriminate.
Defined.

(** X10: on a mapping [record_datetime] raises only where a conversion it
    makes outside a [try] raises: [int] of the hour, the zero-padded text
    of an hour over the limit of digits, or the text of one of the seven
    fields it reads; the first two always leave the function.  On a
    mapping of scalars it raises exactly when the mapping has the
    measurement date and the selected hour is an infinite or NaN float.
    A mapping with none of [data_pomiaru], [timestamp], [date], [data] has
    no timestamp. *)
Theorem record_datetime_raises (env : environment) (m : gmap string value) :
  (forall e,
      V2.record_datetime env (VDict m) = Raise e ->
      (exists date tv,
          m !! "data_pomiaru" = Some date /\ V2.time_part_of (VDict m) = Ok tv
          /\ is_number tv = true /\ (h <- py_int tv ;; py_format_02d h) = Raise e)
      \/ exists k v,
           In k ["data_pomiaru"; "godzina_pomiaru"; "godzina"; "time";
                 "timestamp"; "date"; "data"]
           /\ m !! k = Some v /\ py_str env v = Raise e)
  /\ (forall date tv e,
        m !! "data_pomiaru" = Some date -> V2.time_part_of (VDict m) = Ok tv ->
        is_number tv = true -> (h <- py_int tv ;; py_format_02d h) = Raise e ->
        V2.record_datetime env (VDict m) = Raise e)
  /\ (forall date z,
        m !! "data_pomiaru" = Some date -> V2.time_part_of (VDict m) = Ok (VInt z) ->
        10 ^ 4300 <= Z.abs z ->
        V2.record_datetime env (VDict m) = Raise ValueError)
  /\ (map_Forall (fun _ v => scalar v = true) m ->
      forall e,
        V2.record_datetime env (VDict m) = Raise e
        <-> (exists date, m !! "data_pomiaru" = Some date)
            /\ exists f, V2.time_part_of (VDict m) = Ok (VFloat f)
                         /\ int_of_float f = Raise e)
  /\ (m !! "data_pomiaru" = None -> m !! "timestamp" = None ->
      m !! "date" = None -> m !! "data" = None ->
      V2.record_datetime env (VDict m) = Ok None).
Proof.
  assert (Hgeneric : forall e,
             V2.other_fields env (VDict m) ["timestamp"; "date"; "data"] = Raise e ->
             exists k v,
               In k ["data_pomiaru"; "godzina_pomiaru"; "godzina"; "time";
                     "timestamp"; "date"; "data"]
               /\ m !! k = Some v /\ py_str env v = Raise e).
  { intros e H. destruct (other_fields_raises env m _ e H) as [k [v [Hin Hv]]].
    exists k, v. split; [do 4 right; exact Hin | exact Hv]. }
  assert (Hnum : forall date tv e,
             m !! "data_pomiaru" = Some date -> V2.time_part_of (VDict m) = Ok tv ->
             is_number tv = true -> (h <- py_int tv ;; py_format_02d h) = Raise e ->
             V2.record_datetime env (VDict m) = Raise e).
  { intros date tv e Hdate Htv Hn H.
    rewrite (record_datetime_numeric env m date tv Hdate Htv Hn).
    destruct (py_int tv) as [h|e']; cbn [bind] in *;
      [rewrite H | injection H as <-]; reflexivity. }
  assert (Hsound : forall e,
             V2.record_datetime env (VDict m) = Raise e ->
             (exists date tv,
                 m !! "data_pomiaru" = Some date /\ V2.time_part_of (VDict m) = Ok tv
                 /\ is_number tv = true /\ (h <- py_int tv ;; py_format_02d h) = Raise e)
             \/ exists k v,
                  In k ["data_pomiaru"; "godzina_pomiaru"; "godzina"; "time";
                        "timestamp"; "date"; "data"]
                  /\ m !! k = Some v /\ py_str env v = Raise e).
  { intros e H. destruct (m !! "data_pomiaru") as [date|] eqn:Hdate.
    2: { rewrite record_datetime_undated in H by exact Hdate. right. now apply Hgeneric. }
    assert (Hdate_text : forall e', py_str env date = Raise e' ->
               exists k v,
                 In k ["data_pomiaru"; "godzina_pomiaru"; "godzina"; "time";
                       "timestamp"; "date"; "data"]
                 /\ m !! k = Some v /\ py_str env v = Raise e').
    { intros e' He'. exists "data_pomiaru", date. split; [now left | now split]. }
    destruct (time_part_of_dict m) as [tv [Htv Hsrc]].
    destruct (is_number tv) eqn:Hn.
    - rewrite (record_datetime_numeric env m date tv Hdate Htv Hn) in H.
      destruct (py_int tv) as [h|e'] eqn:Hint; cbn [bind] in H.
      + destruct (py_format_02d h) as [text|e'] eqn:Hf; cbn [bind] in H.
        * destruct (py_str env date) as [date_text|e'] eqn:Hd; cbn [bind] in H.
          -- right. apply Hgeneric. unfold from_date_and_hour in H.
             destruct (if truthy date then _ else _); [discriminate |].
             destruct (parse_text env date_text); [discriminate | exact H].
          -- injection H as <-. right. now apply Hdate_text.
        * injection H as <-. left. exists date, tv. split_and!; try reflexivity; try assumption.
          rewrite Hint. cbn [bind]. exact Hf.
      + injection H as <-. left. exists date, tv. split_and!; try reflexivity; try assumption.
        now rewrite Hint.
    - rewrite (record_datetime_text env m date tv Hdate Htv Hn) in H. right.
      assert (Htail : (date_text <- py_str env date ;;
                       match parse_text env date_text with
                       | Some d => Ok (Some d)
                       | None => V2.other_fields env (VDict m) ["timestamp"; "date"; "data"]
                       end) = Raise e ->
                      exists k v,
                        In k ["data_pomiaru"; "godzina_pomiaru"; "godzina"; "time";
                              "timestamp"; "date"; "data"]
                        /\ m !! k = Some v /\ py_str env v = Raise e).
      { intros H'. destruct (py_str env date) as [date_text|e'] eqn:Hd; cbn [bind] in H'.
        - destruct (parse_text env date_text); [discriminate | now apply Hgeneric].
        - injection H' as <-. now apply Hdate_text. }
      destruct (truthy date && truthy tv); cbn [bind] in H; [| exact (Htail H)].
      destruct (py_str env date) as [date_text|e'] eqn:Hd; cbn [bind] in H.
      + destruct (py_str env tv) as [time_text|e'] eqn:Ht; cbn [bind] in H.
        * destruct (parse_text env (date_text +:+ " " +:+ time_text)); [discriminate |].
          cbn [bind] in Htail. exact (Htail H).
        * injection H as <-.
          destruct Hsrc as [-> | [k [Hin Hk]]]; [discriminate Ht |].
          exists k, tv. split; [| now split].
          destruct Hin as [<- | [<- | [<- | []]]];
            [right; now left | right; right; now left | do 3 right; now left].
      + injection H as <-. now apply Hdate_text. }
  split_and!.
  - exact Hsound.
  - exact Hnum.
  - intros date z Hdate Htv Hz. apply (Hnum date (VInt z)); try assumption; [reflexivity |].
    cbn [py_int bind]. unfold py_format_02d.
    now rewrite (within_str_digits_above z Hz).
  - intros Hsc e. split.
    + intros H. destruct (Hsound e H) as [[date [tv [Hdate [Htv [Hn Hraise]]]]] | [k [v [_ [Hk Hv]]]]].
      * split; [eauto |]. destruct tv as [| b | z | f | s | l | m']; try discriminate Hn.
        -- destruct b; vm_compute in Hraise; discriminate Hraise.
        -- cbn [py_int bind] in Hraise. unfold py_format_02d in Hraise.
           destruct (time_part_of_dict m) as [tv' [Htv' Hsrc]].
           assert (tv' = VInt z) as -> by congruence.
           destruct Hsrc as [E | [k [_ Hk]]]; [discriminate E |].
           pose proof (Hsc k (VInt z) Hk) as Hz. cbn [scalar] in Hz.
           rewrite Hz in Hraise. discriminate Hraise.
        -- exists f. split; [exact Htv |]. cbn [py_int] in Hraise.
           destruct (int_of_float f) as [h|e'] eqn:Hf; cbn [bind] in Hraise;
             [| now injection Hraise as <-].
           unfold py_format_02d in Hraise.
           rewrite (int_of_float_within f h Hf) in Hraise. discriminate Hraise.
      * destruct (py_str_scalar env v (Hsc k v Hk)) as [s Hs]. congruence.
    + intros [[date Hdate] [f [Htv Hf]]].
      apply (Hnum date (VFloat f)); try assumption; [reflexivity |].
      cbn [py_int]. now rewrite Hf.
  - intros H1 H2 H3 H4. rewrite record_datetime_undated by exact H1.
    apply other_fields_absent. intros k [<- | [<- | [<- | []]]]; assumption.
Qed.

Lemma record_datetime_raises_witness :
  V2.record_datetime (answering VNone)
    (VDict (<["data_pomiaru" := VStr "2024-05-01"]>
              {["godzina_pomiaru" := VFloat infinity]}))
  = Raise OverflowError.
Proof.
  apply (proj1 (proj2 (proj2 (proj2 (record_datetime_raises (answering VNone) _))))).
  - apply map_Forall_insert_2; [reflexivity |].
    apply map_Forall_singleton. reflexivity.
  - split; [eexists; reflexivity |].
    exists infinity. split; vm_compute; reflexivity.
Defined.

(** ** The characters and the layout of the serial text *)

Lemma within_append (a s1 s2 : string) :
  within a (s1 +:+ s2) = within a s1 && within a s2.
Proof.
  induction s1 as [|c s1 IH]; [reflexivity |].
  change (String c s1 +:+ s2) with (String c (s1 +:+ s2)).
  unfold within in *. cbn [list_ascii_of_string forallb].
  rewrite IH. now rewrite andb_assoc.
Qed.

Lemma within_repeat (a : string) (c : ascii) (n : nat) :
  within a (String c "") = true ->
  within a (string_of_list_ascii (repeat c n)) = true.
Proof.
  intros H. induction n as [|n IH]; [reflexivity |].
  unfold within in *. cbn [repeat string_of_list_ascii list_ascii_of_string forallb] in *.
  rewrite IH. now rewrite andb_true_r in *.
Qed.

Lemma within_substring_0 (a : string) (n : nat) (s : string) :
  within a s = true -> within a (substring 0 n s) = true.
Proof.
  revert s. induction n as [|n IH]; intros [|c s] H; try reflexivity.
  unfold within in *. cbn [substring list_ascii_of_string forallb] in *.
  apply andb_prop in H as [H1 H2]. rewrite H1. now apply IH.
Qed.

Lemma within_mono (a b s : string) :
  within b a = true -> within a s = true -> within b s = true.
Proof.
  unfold within. rewrite !forallb_forall. intros Hab Hs c Hc.
  specialize (Hs c Hc). apply existsb_exists in Hs as [x [Hx E]].
  apply Ascii.eqb_eq in E. subst x. now apply Hab.
Qed.

Lemma within_digit (d : Z) :
  0 <= d < 10 -> within "0123456789" (String (chr (48 + d)) "") = true.
Proof.
  intros H.
  assert (d = 0 \/ d = 1 \/ d = 2 \/ d = 3 \/ d = 4 \/ d = 5 \/ d = 6 \/ d = 7
          \/ d = 8 \/ d = 9) as E by lia.
  repeat (destruct E as [-> | E]; [reflexivity |]). now subst.
Qed.

Lemma within_decimal_digits (fuel : nat) (n : Z) (acc : string) :
  within "0123456789" acc = true ->
  within "0123456789" (decimal_digits fuel n acc) = true.
Proof.
  revert n acc. induction fuel as [|fuel IH]; intros n acc H; [exact H |].
  cbn [decimal_digits].
  assert (H' : within "0123456789" (String (chr (48 + n mod 10)) acc) = true).
  { change (String ?c acc) with (String c "" +:+ acc).
    rewrite within_append, H, within_digit; [reflexivity |].
    apply Z.mod_pos_bound. lia. }
  destruct (n / 10 =? 0); [exact H' | now apply IH].
Qed.

Lemma within_str_of_int (n : Z) : within "-0123456789" (str_of_int n) = true.
Proof.
  assert (H : forall f m, within "-0123456789" (decimal_digits f m "") = true).
  { intros f m. apply (within_mono "0123456789"); [reflexivity |].
    now apply within_decimal_digits. }
  unfold str_of_int. destruct (n <? 0); [| apply H].
  rewrite within_append, H. reflexivity.
Qed.

Lemma within_format_02d (n : Z) : within "-0123456789" (format_02d n) = true.
Proof.
  unfold format_02d. destruct (n <? 0);
    rewrite ?within_append, within_str_of_int, within_repeat; reflexivity.
Qed.

Lemma within_format_1f (f : float) : within "-.0123456789afin" (format_1f f) = true.
Proof.
  assert (H : forall n, within "-.0123456789afin" (str_of_int n) = true).
  { intros n. apply (within_mono "-0123456789"); [reflexivity |].
    apply within_str_of_int. }
  unfold format_1f. destruct (Prim2SF f) as [[|] | [|] | | s m e]; try reflexivity.
  rewrite !within_append, !H. now destruct s.
Qed.

Lemma within_serial_text (temp : option float) (dt : option datetime) :
  within serial_alphabet (V2.serial_text temp dt) = true.
Proof.
  unfold V2.serial_text. rewrite !within_append.
  assert (within serial_alphabet
            match temp with Some t => format_5_1f t | None => spaces 5 end = true) as ->.
  { destruct temp as [t|]; [| reflexivity].
    unfold format_5_1f, rjust. rewrite within_append.
    rewrite (within_mono "-.0123456789afin" serial_alphabet (format_1f t))
      by (reflexivity || apply within_format_1f).
    unfold spaces. now rewrite within_repeat. }
  destruct dt as [d|]; [| reflexivity].
  rewrite (within_mono "-0123456789" serial_alphabet (format_02d (hour d)))
    by (reflexivity || apply within_format_02d).
  reflexivity.
Qed.

Lemma format_serial_string_eq (temp : option float) (dt : option datetime) :
  V2.format_serial_string temp dt
  = ljust 11 (substring 0 11 (V2.serial_text temp dt)).
Proof.
  unfold V2.format_serial_string.
  destruct (Nat.eqb (String.length (V2.serial_text temp dt)) 11) eqn:E; simpl;
    [| reflexivity].
  apply Nat.eqb_eq in E. rewrite substring_0_all by lia.
  unfold ljust. rewrite E. simpl. now rewrite append_empty_r.
Qed.

Lemma within_format_serial_string (temp : option float) (dt : option datetime) :
  within serial_alphabet (V2.format_serial_string temp dt) = true.
Proof.
  rewrite format_serial_string_eq. unfold ljust.
  rewrite within_append, within_substring_0 by apply within_serial_text.
  unfold spaces. now rewrite within_repeat.
Qed.

Lemma encode_within (s : string) :
  within serial_alphabet s = true ->
  encode_ascii_replace s = map code (list_ascii_of_string s).
Proof.
  unfold within, encode_ascii_replace. intros H. apply map_ext_in. intros c Hc.
  rewrite forallb_forall in H. specialize (H c Hc).
  apply existsb_exists in H as [x [Hx E]]. apply Ascii.eqb_eq in E. subst x.
  cbn in Hx. repeat (destruct Hx as [<- | Hx]; [reflexivity |]). destruct Hx.
Qed.

Lemma length_list_ascii_of_string (s : string) :
  length (list_ascii_of_string s) = String.length s.
Proof. induction s as [|c s IH]; simpl; [reflexivity | now f_equal]. Qed.

Lemma format_serial_string_11 (temp : option float) (dt : option datetime) :
  String.length (V2.format_serial_string temp dt) = 11%nat.
Proof.
  rewrite format_serial_string_eq, length_ljust, length_substring_0. lia.
Qed.

(** X11: the serial text is made of the digits, the space, the signs
    [-], [.], [/], [:] and the letters of [nan] and [inf] only; encoding
    it replaces no character, and gives 11 bytes below 128. *)
Theorem format_serial_string_ascii (temp : option float) (dt : option datetime) :
  let out := V2.format_serial_string temp dt in
  within serial_alphabet out = true
  /\ encode_ascii_replace out = map code (list_ascii_of_string out)
  /\ length (encode_ascii_replace out) = 11%nat
  /\ Forall (fun b => 0 <= b < 128) (encode_ascii_replace out).
Proof.
  intros out. pose proof (within_format_serial_string temp dt) as H.
  fold out in H. split_and!.
  - exact H.
  - now apply encode_within.
  - unfold encode_ascii_replace. rewrite length_map, length_list_ascii_of_string.
    apply format_serial_string_11.
  - unfold encode_ascii_replace. apply Forall_forall. intros b Hb.
    apply list_elem_of_In in Hb. apply in_map_iff in Hb as [c [<- _]].
    assert (0 <= code c) by (unfold code; lia).
    destruct (code c <? 128) eqn:E; [apply Z.ltb_lt in E |]; lia.
Qed.

Lemma hour_two_digits (h : Z) :
  0 <= h < 24 ->
  exists a b, format_02d h = String a (String b "")
              /\ digits_value [a; b] = h.
Proof.
  intros H.
  assert (E : forallb (fun i =>
                match format_02d (Z.of_nat i) with
                | String a (String b "") => digits_value [a; b] =? Z.of_nat i
                | _ => false
                end) (seq 0 24) = true) by (vm_compute; reflexivity).
  rewrite forallb_forall in E. specialize (E (Z.to_nat h)).
  rewrite Z2Nat.id in E by lia.
  destruct (format_02d h) as [|a [|b [|c s]]]; try (discriminate E; apply in_seq; lia).
  exists a, b. split; [reflexivity |]. apply Z.eqb_eq, E, in_seq. lia.
Qed.

Lemma length_5_inv (s : string) :
  String.length s = 5%nat ->
  exists a b c d e, s = String a (String b (String c (String d (String e "")))).
Proof.
  destruct s as [|a [|b [|c [|d [|e [|f s]]]]]]; try discriminate. intros _.
  now exists a, b, c, d, e.
Qed.

Lemma length_format_5_1f (t : float) :
  String.length (format_5_1f t) = Nat.max 5 (String.length (format_1f t)).
Proof. unfold format_5_1f, rjust. rewrite length_append, length_spaces. lia. Qed.

Lemma format_5_1f_wide (t : float) :
  (5 <= String.length (format_1f t))%nat -> format_5_1f t = format_1f t.
Proof.
  intros H. unfold format_5_1f, rjust.
  replace (5 - String.length (format_1f t))%nat with 0%nat by lia. reflexivity.
Qed.

Lemma within_head (a : string) (c : ascii) (s : string) :
  within a (String c s) = true -> In c (list_ascii_of_string a).
Proof.
  unfold within. cbn [list_ascii_of_string forallb]. intros H.
  apply andb_prop in H as [H _]. apply existsb_exists in H as [x [Hx E]].
  apply Ascii.eqb_eq in E. now subst x.
Qed.

Lemma format_serial_string_fits (t : float) (dt : datetime) :
  0 <= hour dt < 24 ->
  (String.length (format_1f t) <= 5)%nat ->
  V2.format_serial_string (Some t) (Some dt)
  = format_5_1f t +:+ "//" +:+ format_02d (hour dt) +:+ "::".
Proof.
  intros Hh Hlen. destruct (hour_two_digits _ Hh) as [x [y [E2 _]]].
  assert (H5 : String.length (format_5_1f t) = 5%nat)
    by (rewrite length_format_5_1f; lia).
  destruct (length_5_inv _ H5) as [a [b [c [d [e E5]]]]].
  unfold V2.format_serial_string, V2.serial_text. rewrite E5, E2. reflexivity.
Qed.

(** X12: the layout of the serial text for a temperature [t] and a
    timestamp whose hour is one of 0..23.  When the temperature with one
    decimal place has at most five characters, the text is that
    temperature right-aligned in five columns, [//], the hour in two
    digits and [::], and the digits in columns 7 and 8 read back as the
    hour.  When it has more, the text is the first 11 characters of the
    temperature, [//], the hour and [::]: the temperature is not cut to
    five columns, and columns 5 and 6 do not hold the two slashes. *)
Theorem format_serial_string_layout (t : float) (dt : datetime) :
  0 <= hour dt < 24 ->
  let out := V2.format_serial_string (Some t) (Some dt) in
  ((String.length (format_1f t) <= 5)%nat ->
   out = format_5_1f t +:+ "//" +:+ format_02d (hour dt) +:+ "::"
   /\ String.length (format_5_1f t) = 5%nat
   /\ substring 0 5 out = format_5_1f t
   /\ substring 5 2 out = "//"
   /\ digits_value (list_ascii_of_string (substring 7 2 out)) = hour dt
   /\ substring 9 2 out = "::")
  /\ ((5 < String.length (format_1f t))%nat ->
      out = substring 0 11 (format_1f t +:+ "//" +:+ format_02d (hour dt) +:+ "::")
      /\ substring 5 2 out <> "//").
Proof.
  intros Hh out. destruct (hour_two_digits _ Hh) as [x [y [E2 Hxy]]].
  split; intros Hlen.
  - assert (H5 : String.length (format_5_1f t) = 5%nat)
      by (rewrite length_format_5_1f; lia).
    destruct (length_5_inv _ H5) as [a [b [c [d [e E5]]]]].
    assert (Eout : out = format_5_1f t +:+ "//" +:+ format_02d (hour dt) +:+ "::")
      by now apply format_serial_string_fits.
    rewrite Eout, E5, E2. split_and!; try reflexivity. exact Hxy.
  - assert (Eout : out = substring 0 11
                          (format_1f t +:+ "//" +:+ format_02d (hour dt) +:+ "::")).
    { unfold out. rewrite format_serial_string_eq. unfold V2.serial_text.
      rewrite format_5_1f_wide by lia. unfold ljust.
      rewrite length_substring_0, !length_append.
      replace (11 - _)%nat with 0%nat by (rewrite E2; cbn [String.length]; lia).
      apply append_empty_r. }
    split; [exact Eout |]. rewrite Eout.
    pose proof (within_format_1f t) as Hw.
    destruct (format_1f t) as [|c0 [|c1 [|c2 [|c3 [|c4 [|c5 s]]]]]];
      try (simpl in Hlen; lia).
    change (String c0 (String c1 (String c2 (String c3 (String c4 (String c5 s)))))
            +:+ ?r)
      with (String c0 (String c1 (String c2 (String c3 (String c4 (String c5 (s +:+ r))))))).
    cbn [substring]. intros E. injection E as E _.
    assert (Hc : within "-.0123456789afin" (String c5 s) = true).
    { unfold within in *. cbn [list_ascii_of_string forallb] in Hw.
      do 5 (apply andb_prop in Hw as [_ Hw]). exact Hw. }
    apply within_head in Hc. subst c5. cbn in Hc.
    repeat (destruct Hc as [Hc | Hc]; [discriminate Hc |]). destruct Hc.
Qed.

Lemma format_serial_string_layout_witness :
  V2.format_serial_string (Some 1000%float) (Some (mkdatetime 2024 5 1 7 0 0 0 None))
  = substring 0 11 (format_1f 1000%float +:+ "//" +:+ format_02d 7 +:+ "::")
  /\ substring 5 2 (V2.format_serial_string (Some 1000%float)
                      (Some (mkdatetime 2024 5 1 7 0 0 0 None))) <> "//".
Proof.
  apply (proj2 (format_serial_string_layout 1000%float
                  (mkdatetime 2024 5 1 7 0 0 0 None) ltac:(simpl; lia))).
  vm_compute. lia.
Defined.

(** ** Decimal temperatures *)

Lemma replace_char_back (s : string) :
  replace_char "," "." (replace_char "." "," s) = replace_char "," "." s.
Proof.
  induction s as [|c s IH]; [reflexivity |]. cbn [replace_char]. rewrite IH. f_equal.
  destruct (Ascii.eqb c ".") eqn:E1; [| reflexivity].
  apply Ascii.eqb_eq in E1. subst c. reflexivity.
Qed.

(** A text with commas for points is coerced like the text itself. *)
Lemma coerce_comma (s : string) :
  V2.coerce (VStr (replace_char "." "," s)) = V2.coerce (VStr s).
Proof. unfold V2.coerce. now rewrite replace_char_back. Qed.

Lemma tenths_grid :
  holds_from (Z.to_nat 10999) (-999)
    (fun n =>
       let text := tenths_text n in
       match V2.coerce (VStr text) with
       | Ok f =>
           String.eqb (format_1f f) text
           && Nat.leb (String.length text) 5
           && negb (String.eqb text "")
       | Raise _ => false
       end) = true.
Proof. vm_compute. reflexivity. Qed.

Lemma extract_from_first (m : gmap string value) (k : string) (l : list string)
    (v : value) (f : float) :
  m !! k = Some v -> not_none_or_empty v = true -> V2.coerce v = Ok f ->
  V2.extract_from (VDict m) (k :: l) = Ok (Some f).
Proof.
  intros Hk Hv Hf. cbn [V2.extract_from py_in py_getitem bind].
  rewrite Hk. cbn [bind]. rewrite Hv, Hf. reflexivity.
Qed.

(** X13: a temperature between -99.9 and 999.9 that the record gives in
    its field [temperatura] as a decimal text with one decimal place,
    with a point or with a comma, is sent with the same digits: the text
    right-aligned in five columns, [//], the hour and [::]. *)
Theorem decimal_temperature_sent (n : Z) (m : gmap string value) (dt : datetime) :
  -999 <= n <= 9999 ->
  0 <= hour dt < 24 ->
  m !! "temperatura" = Some (VStr (tenths_text n))
  \/ m !! "temperatura" = Some (VStr (replace_char "." "," (tenths_text n))) ->
  exists f,
    V2.extract_temp (VDict m) = Ok (Some f)
    /\ format_1f f = tenths_text n
    /\ V2.format_serial_string (Some f) (Some dt)
       = rjust 5 (tenths_text n) +:+ "//" +:+ format_02d (hour dt) +:+ "::".
Proof.
  intros Hn Hh Hm.
  pose proof (holds_from_spec _ _ _ tenths_grid n ltac:(lia)) as G. cbv beta zeta in G.
  destruct (V2.coerce (VStr (tenths_text n))) as [f|] eqn:Ef; [| discriminate].
  apply andb_prop in G as [G Hne]. apply andb_prop in G as [Hf H5].
  apply String.eqb_eq in Hf. apply Nat.leb_le in H5.
  assert (Hne' : forall s, negb (String.eqb s "") = true -> not_none_or_empty (VStr s) = true)
    by (intros s Hs; exact Hs).
  assert (Hcomma : negb (String.eqb (replace_char "." "," (tenths_text n)) "") = true).
  { destruct (tenths_text n); [discriminate Hne | reflexivity]. }
  exists f. split_and!.
  - destruct Hm as [Hm | Hm].
    + exact (extract_from_first m _ _ _ f Hm (Hne' _ Hne) Ef).
    + rewrite <- coerce_comma in Ef.
      exact (extract_from_first m _ _ _ f Hm (Hne' _ Hcomma) Ef).
  - exact Hf.
  - rewrite format_serial_string_fits by (rewrite ?Hf; assumption).
    unfold format_5_1f. now rewrite Hf.
Qed.

Lemma decimal_temperature_sent_witness :
  exists f,
    V2.extract_temp (record [("stacja", VStr "Bialystok"); ("temperatura", VStr "12,3")])
    = Ok (Some f)
    /\ format_1f f = tenths_text 123
    /\ V2.format_serial_string (Some f) (Some (mkdatetime 2024 5 1 7 0 0 0 None))
       = rjust 5 (tenths_text 123) +:+ "//" +:+ format_02d 7 +:+ "::".
Proof.
  apply (decimal_temperature_sent 123
           (list_to_map [("stacja", VStr "Bialystok"); ("temperatura", VStr "12,3")])
           (mkdatetime 2024 5 1 7 0 0 0 None)).
  - lia.
  - simpl. lia.
  - right. vm_compute. reflexivity.
Defined.

(** ** One run of the script with the serial port *)

Lemma station_name_of_mapping (m : gmap string value) (st : Z) :
  exists name, V2.station_name_of (VDict m) st = Ok name.
Proof.
  unfold V2.station_name_of. cbn [py_get bind].
  destruct (truthy _); [eauto |]. cbn [bind]. destruct (truthy _); eauto.
Qed.

Lemma report_plain (name : value) (st : Z) (temp : option float)
    (dt : option datetime) :
  Forall (fun e => exists m, e = Stdout m /\ plain_line e = true)
         (V2.report name st temp dt).
Proof.
  destruct temp as [t|]; [| destruct dt]; repeat constructor; eauto.
Qed.

(** What [do_cycle] does, by the answer of the request. *)
Lemma do_cycle_cases (env : environment) (args : arguments) (ser : option serial_port) :
  match V2.fetch_latest_for_station env (station args) with
  | Raise RequestException =>
      V2.do_cycle env args ser = Ok [Stdout (ApiError RequestException)]
  | Raise e => V2.do_cycle env args ser = Raise e
  | Ok (_, _, None) => V2.do_cycle env args ser = Ok [Stdout (NoData (station args))]
  | Ok (temp, dt, Some (VDict m)) =>
      exists name,
        V2.station_name_of (VDict m) (station args) = Ok name
        /\ V2.do_cycle env args ser
           = Ok (V2.report name (station args) temp dt
                 ++ Stdout (Sending (serial_port_name args)
                              (V2.format_serial_string temp dt))
                 :: match ser with
                    | None => []
                    | Some ser =>
                        let data := map code (list_ascii_of_string
                                                (V2.format_serial_string temp dt)) in
                        SerialWrite data ::
                          match ser_write ser data with
                          | Ok _ => []
                          | Raise e => [Stderr (WriteError e)]
                          end
                    end)%list
  | Ok (_, _, Some _) => V2.do_cycle env args ser = Raise AttributeError
  end.
Proof.
  unfold V2.do_cycle.
  destruct (V2.fetch_latest_for_station env (station args)) as [[[temp dt] [rec|]]|e];
    [| reflexivity | destruct e; reflexivity].
  destruct rec as [| b | z | f | s | l | m]; try reflexivity.
  destruct (station_name_of_mapping m (station args)) as [name E]. exists name.
  split; [exact E |]. rewrite E. cbn [bind].
  rewrite (encode_within _ (within_format_serial_string temp dt)). reflexivity.
Qed.

Lemma filter_console (f : event -> bool) (l r : list event) :
  (forall m, f (Stdout m) = false) ->
  Forall (fun e => exists m, e = Stdout m /\ plain_line e = true) l ->
  List.filter f (l ++ r) = List.filter f r.
Proof.
  intros Hf. induction 1 as [|a l [m [-> _]] _ IH]; [reflexivity |].
  simpl. now rewrite Hf.
Qed.

(** The events of a cycle that are not lines of the console. *)
Lemma do_cycle_filter (f : event -> bool) (env : environment) (args : arguments)
    (ser : option serial_port) :
  (forall m, f (Stdout m) = false) -> (forall m, f (Stderr m) = false) ->
  List.filter f match V2.do_cycle env args ser with Ok ev => ev | Raise _ => [] end
  = match ser, V2.fetch_latest_for_station env (station args) with
    | Some _, Ok (temp, dt, Some (VDict _)) =>
        List.filter f
          [SerialWrite (map code (list_ascii_of_string (V2.format_serial_string temp dt)))]
    | _, _ => []
    end.
Proof.
  intros Hout Herr. pose proof (do_cycle_cases env args ser) as H.
  assert (Hnone :
            match ser with
            | Some _ => @nil event
            | None => []
            end = []) by now destruct ser.
  destruct (V2.fetch_latest_for_station env (station args)) as [[[temp dt] [rec|]]|e].
  - destruct rec as [| b | z | x | s | l | m]; try (rewrite H; now destruct ser).
    destruct H as [name [_ ->]].
    rewrite (filter_console f _ _ Hout (report_plain _ _ _ _)).
    cbn [List.filter]. rewrite Hout. destruct ser as [ser|]; [| reflexivity].
    cbv zeta. cbn [List.filter]. destruct (f (SerialWrite _)); f_equal;
      destruct (ser_write ser _); cbn [List.filter]; now rewrite ?Herr.
  - rewrite H. cbn [List.filter]. rewrite Hout. now destruct ser.
  - destruct e; rewrite H; cbn [List.filter]; rewrite ?Hout; now destruct ser.
Qed.

(** The events of a run: the opening of the port, the cycle, the closing. *)
Lemma main_once_events (env : environment) (dev : device) (args : arguments) :
  V2.main_once env dev args
  = match V2.open_serial dev (serial_port_name args) (baud args) with
    | inr ser =>
        (Stdout (PortOpened (serial_port_name args) (baud args))
           :: match V2.do_cycle env args (Some ser) with Ok ev => ev | Raise _ => [] end
           ++ [SerialClose],
         match V2.do_cycle env args (Some ser) with Ok _ => None | Raise e => Some e end)
    | inl e =>
        (Stderr (Warning e)
           :: match V2.do_cycle env args None with Ok ev => ev | Raise _ => [] end,
         match V2.do_cycle env args None with Ok _ => None | Raise e => Some e end)
    end%list.
Proof.
  unfold V2.main_once.
  destruct (V2.open_serial dev (serial_port_name args) (baud args)) as [e|ser].
  - destruct (V2.do_cycle env args None); cbn [app]; now rewrite ?app_nil_r.
  - now destruct (V2.do_cycle env args (Some ser)).
Qed.


(** X15: a port that was opened is closed exactly once, as the last
    action of the run, also when an exception leaves the cycle; a port
    that could not be opened is reported on the standard error, the cycle
    still runs, and nothing is written or closed. *)
Theorem main_once_closes (env : environment) (dev : device) (args : arguments) :
  let events := fst (V2.main_once env dev args) in
  match V2.open_serial dev (serial_port_name args) (baud args) with
  | inr ser =>
      exists cycle,
        events = (Stdout (PortOpened (serial_port_name args) (baud args))
                    :: cycle ++ [SerialClose])%list
        /\ List.filter is_close cycle = []
        /\ match V2.do_cycle env args (Some ser) with
           | Ok ev => cycle = ev
           | Raise _ => cycle = []
           end
  | inl e =>
      exists cycle,
        events = Stderr (Warning e) :: cycle
        /\ List.filter is_close cycle = [] /\ List.filter is_write cycle = []
        /\ match V2.do_cycle env args None with
           | Ok ev => cycle = ev
           | Raise _ => cycle = []
           end
  end.
Proof.
  intros events. subst events. rewrite main_once_events.
  destruct (V2.open_serial dev (serial_port_name args) (baud args)) as [e|ser];
    cbn [fst].
  - exists match V2.do_cycle env args None with Ok ev => ev | Raise _ => [] end.
    split_and!; try reflexivity.
    + now rewrite (do_cycle_filter is_close env args None).
    + now rewrite (do_cycle_filter is_write env args None).
    + now destruct (V2.do_cycle env args None).
  - exists match V2.do_cycle env args (Some ser) with Ok ev => ev | Raise _ => [] end.
    split_and!; try reflexivity.
    + rewrite (do_cycle_filter is_close env args (Some ser)) by reflexivity.
      now destruct (V2.fetch_latest_for_station env (station args))
        as [[[temp dt] [[| | | | | |]|]]|].
    + now destruct (V2.do_cycle env args (Some ser)).
Qed.



(** ** Dates and hours as the service writes them *)

Lemma digit_is_digit (n : Z) :
  is_digit (digit n) = true /\ digit_value (digit n) = n mod 10.
Proof.
  unfold digit. pose proof (Z.mod_pos_bound n 10 ltac:(lia)) as H.
  assert (n mod 10 = 0 \/ n mod 10 = 1 \/ n mod 10 = 2 \/ n mod 10 = 3 \/ n mod 10 = 4
          \/ n mod 10 = 5 \/ n mod 10 = 6 \/ n mod 10 = 7 \/ n mod 10 = 8
          \/ n mod 10 = 9) as E by lia.
  repeat (destruct E as [-> | E]; [split; reflexivity |]). rewrite E. split; reflexivity.
Qed.

Lemma in_class_any_digit (c : ascii) : is_digit c = true -> in_class (Digit 0 9) c = true.
Proof.
  intros H. unfold in_class. rewrite H. unfold is_digit, digit_value in *.
  apply andb_prop in H as [H1 H2]. apply Z.leb_le in H1, H2.
  rewrite !andb_true_iff. split_and!; try reflexivity; apply Z.leb_le; lia.
Qed.

Lemma set_field_year (d : directive) (v w : Z) (f : fields) :
  d <> dir_Y ->
  set_field d w (set_field dir_Y v f) = set_field dir_Y v (set_field d w f).
Proof. intros H. destruct d; try reflexivity. now destruct H. Qed.

Lemma first_alternative_map {R : Type} (F : R -> R) (alts : list (list char_class))
    (s : list ascii) (k k' : list ascii -> list ascii -> option R) :
  (forall txt rest, k' txt rest = option_map F (k txt rest)) ->
  first_alternative alts s k' = option_map F (first_alternative alts s k).
Proof.
  intros H. induction alts as [|a alts IH]; [reflexivity |].
  cbn [first_alternative]. rewrite IH.
  destruct (match_classes a s) as [[txt rest]|]; [| reflexivity].
  rewrite H. now destruct (k txt rest).
Qed.

Lemma whitespace_star_map {R : Type} (F : R -> R) (s : list ascii)
    (k k' : list ascii -> option R) :
  (forall rest, k' rest = option_map F (k rest)) ->
  whitespace_star s k' = option_map F (whitespace_star s k).
Proof.
  intros H. induction s as [|c s IH]; cbn [whitespace_star]; [apply H |].
  destruct (is_space_re c); [| apply H].
  rewrite IH. destruct (whitespace_star s k); [reflexivity | apply H].
Qed.

(** A pattern without [%Y] leaves the year as it finds it. *)
Lemma regex_match_year (p : list pattern_item) :
  Forall (fun item => item <> Directive dir_Y) p ->
  forall (s : list ascii) (f : fields) (v : Z),
    regex_match p s (set_field dir_Y v f)
    = option_map (fun '(g, rest) => (set_field dir_Y v g, rest)) (regex_match p s f).
Proof.
  induction 1 as [|item p Hitem _ IH]; intros s f v; [reflexivity |].
  destruct item as [d | c |]; cbn [regex_match].
  - apply first_alternative_map. intros txt rest.
    rewrite set_field_year by congruence. apply IH.
  - destruct s as [|c' s]; [reflexivity |].
    destruct (Ascii.eqb (lower c) (lower c')); [apply IH | reflexivity].
  - destruct s as [|c s]; [reflexivity |].
    destruct (is_space_re c); [| reflexivity].
    apply whitespace_star_map. intros rest. apply IH.
Qed.

(** [strptime] on a text that starts with four digits, for a format that
    starts with [%Y] and has no other [%Y]. *)
Lemma strptime_year (a b c e : ascii) (rest fmt : string) (p : list pattern_item) :
  is_digit a = true -> is_digit b = true -> is_digit c = true -> is_digit e = true ->
  compile_format (list_ascii_of_string fmt) false = Some p ->
  Forall (fun item => item <> Directive dir_Y) p ->
  strptime (String a (String b (String c (String e rest)))) (String "%" (String "Y" fmt))
  = match regex_match p (list_ascii_of_string rest) default_fields with
    | Some (f, []) =>
        datetime_new (digits_value [a; b; c; e]) (fm f) (fd f) (fH f) (fM f) (fS f)
    | _ => Raise ValueError
    end.
Proof.
  intros Ha Hb Hc He Hp Hy. unfold strptime.
  cbn [list_ascii_of_string compile_format]. rewrite Hp.
  change (Ascii.eqb "%" "%") with true. cbv iota.
  change (directive_of "Y") with (Some dir_Y). cbv iota.
  cbn [regex_match alternatives first_alternative match_classes].
  rewrite !in_class_any_digit by assumption.
  rewrite !filter_cons_True by (cbv beta; now rewrite ?Ha, ?Hb, ?Hc, ?He).
  rewrite filter_nil, (regex_match_year p Hy).
  destruct (regex_match p (list_ascii_of_string rest) default_fields) as [[g r]|];
    [| reflexivity].
  cbn [option_map]. destruct r; reflexivity.
Qed.

Lemma year_digits (y : Z) :
  0 <= y <= 9999 ->
  digits_value [digit (y / 1000); digit (y / 100); digit (y / 10); digit y] = y.
Proof.
  intros H. unfold digits_value. cbn [fold_left].
  rewrite !(proj2 (digit_is_digit _)).
  rewrite (Z.mod_small (y / 1000) 10) by (split; [apply Z.div_pos | apply Z.div_lt_upper_bound]; lia).
  Z.to_euclidean_division_equations. lia.
Qed.

Lemma two_digits_value (n : Z) :
  0 <= n <= 99 -> digits_value (filter is_digit [digit (n / 10); digit n]) = n.
Proof.
  intros H. rewrite !filter_cons_True by (cbv beta; now rewrite (proj1 (digit_is_digit _))).
  rewrite filter_nil.
  unfold digits_value. cbn [fold_left]. rewrite !(proj2 (digit_is_digit _)).
  Z.to_euclidean_division_equations. lia.
Qed.

Lemma Z_range_cases (P : Z -> Prop) (lo : Z) (count : nat) :
  (forall i, (i < count)%nat -> P (lo + Z.of_nat i)) ->
  forall z, lo <= z < lo + Z.of_nat count -> P z.
Proof.
  intros H z Hz. replace z with (lo + Z.of_nat (Z.to_nat (z - lo))) by lia.
  apply H. lia.
Qed.

Lemma literal_match (c : ascii) (p : list pattern_item) (s : list ascii) (f : fields) :
  regex_match (Literal c :: p) (c :: s) f = regex_match p s f.
Proof. cbn [regex_match]. now rewrite Ascii.eqb_refl. Qed.

Lemma directive_match (d : directive) (p : list pattern_item) (s : list ascii)
    (f : fields) :
  regex_match (Directive d :: p) s f
  = first_alternative (alternatives d) s
      (fun txt rest =>
         regex_match p rest (set_field d (digits_value (filter is_digit txt)) f)).
Proof. reflexivity. Qed.

(** A hyphen, a [T] or whitespace in the pattern does not match a digit. *)
Lemma no_digit_here (item : pattern_item) (p : list pattern_item) (c : ascii)
    (s : list ascii) (f : fields) :
  item = Literal "-" \/ item = Literal "T" \/ item = Whitespace ->
  is_digit c = true ->
  regex_match (item :: p) (c :: s) f = None.
Proof.
  intros Hitem H. destruct c as [[] [] [] [] [] [] [] []]; vm_compute in H;
    try discriminate H; destruct Hitem as [-> | [-> | ->]]; reflexivity.
Qed.

(** The month and the day in two digits, for a continuation that does not
    go on with a digit. *)
Lemma month_alternatives {R : Type} (m : Z) (k : list ascii -> list ascii -> option R)
    (rest : list ascii) :
  1 <= m <= 12 ->
  (forall txt c s, is_digit c = true -> k txt (c :: s) = None) ->
  first_alternative (alternatives dir_m) (digit (m / 10) :: digit m :: rest) k
  = k [digit (m / 10); digit m] rest.
Proof.
  intros H Hk.
  apply (Z_range_cases
           (fun m => first_alternative (alternatives dir_m)
                       (digit (m / 10) :: digit m :: rest) k
                     = k [digit (m / 10); digit m] rest) 1 12); [| lia].
  intros i Hi.
  do 12 (destruct i as [|i];
         [vm_compute; rewrite ?Hk by reflexivity; now destruct (k _ _) |]).
  lia.
Qed.

Lemma day_alternatives {R : Type} (d : Z) (k : list ascii -> list ascii -> option R)
    (rest : list ascii) :
  1 <= d <= 31 ->
  (forall txt c s, is_digit c = true -> k txt (c :: s) = None) ->
  first_alternative (alternatives dir_d) (digit (d / 10) :: digit d :: rest) k
  = k [digit (d / 10); digit d] rest.
Proof.
  intros H Hk.
  apply (Z_range_cases
           (fun d => first_alternative (alternatives dir_d)
                       (digit (d / 10) :: digit d :: rest) k
                     = k [digit (d / 10); digit d] rest) 1 31); [| lia].
  intros i Hi.
  do 31 (destruct i as [|i];
         [vm_compute; rewrite ?Hk by reflexivity; now destruct (k _ _) |]).
  lia.
Qed.

(** The pattern of [-%m-%d] on the month and the day of a date, in front
    of an item that does not match a digit. *)
Lemma date_tail_match (m d : Z) (item : pattern_item) (p : list pattern_item)
    (rest : list ascii) (f : fields) :
  1 <= m <= 12 -> 1 <= d <= 31 ->
  item = Literal "-" \/ item = Literal "T" \/ item = Whitespace ->
  regex_match (Literal "-" :: Directive dir_m :: Literal "-" :: Directive dir_d
                 :: item :: p)
    (list_ascii_of_string (date_tail m d) ++ rest)%list f
  = regex_match (item :: p) rest (set_field dir_d d (set_field dir_m m f)).
Proof.
  intros Hm Hd Hitem.
  change (list_ascii_of_string (date_tail m d) ++ rest)%list
    with ("-"%char :: digit (m / 10) :: digit m :: "-"%char :: digit (d / 10)
            :: digit d :: rest).
  rewrite literal_match, directive_match.
  rewrite month_alternatives;
    [| exact Hm | intros txt c s Hc; apply (no_digit_here (Literal "-")); auto].
  rewrite literal_match, two_digits_value, directive_match by lia.
  rewrite day_alternatives;
    [| exact Hd | intros txt c s Hc; apply no_digit_here; auto].
  now rewrite two_digits_value by lia.
Qed.

(** The texts of an hour against the three patterns with a time, whatever
    the fields collected before. *)
Lemma hour_match (h : Z) (f : fields) :
  0 <= h < 24 ->
  let run (p : list pattern_item) (txt : string) :=
    regex_match (Whitespace :: p) (" "%char :: list_ascii_of_string txt) f in
  let seconds := [Directive dir_H; Literal ":"; Directive dir_M; Literal ":";
                  Directive dir_S] in
  let minutes := [Directive dir_H; Literal ":"; Directive dir_M] in
  let found := Some (mkfields (fY f) (fm f) (fd f) h 0 0, []) in
  run seconds (format_02d h +:+ ":00:00") = found
  /\ forall txt, txt = str_of_int h \/ txt = format_02d h ->
       txt <> "" /\ run seconds txt = None /\ run minutes txt = None
       /\ run [Directive dir_H] txt = Some (set_field dir_H h f, []).
Proof.
  intros H. revert f.
  apply (Z_range_cases
           (fun h => forall f,
                let run (p : list pattern_item) (txt : string) :=
                  regex_match (Whitespace :: p) (" "%char :: list_ascii_of_string txt) f in
                let seconds := [Directive dir_H; Literal ":"; Directive dir_M;
                                Literal ":"; Directive dir_S] in
                let minutes := [Directive dir_H; Literal ":"; Directive dir_M] in
                let found := Some (mkfields (fY f) (fm f) (fd f) h 0 0, []) in
                run seconds (format_02d h +:+ ":00:00") = found
                /\ forall txt, txt = str_of_int h \/ txt = format_02d h ->
                     txt <> "" /\ run seconds txt = None /\ run minutes txt = None
                     /\ run [Directive dir_H] txt = Some (set_field dir_H h f, []))
           0 24); [| lia].
  intros i Hi f.
  do 24 (destruct i as [|i];
         [cbv zeta; split;
          [vm_compute; reflexivity
          | intros txt [-> | ->]; split_and!; solve [vm_compute; (reflexivity || discriminate)] ]
         |]).
  lia.
Qed.

Lemma tail_format (fmt : string) :
  In fmt ["-%m-%dT%H:%M:%S"; "-%m-%d %H:%M:%S"; "-%m-%d %H:%M"; "-%m-%d %H"] ->
  exists p, compile_format (list_ascii_of_string fmt) false = Some p
            /\ Forall (fun item => item <> Directive dir_Y) p.
Proof.
  intros [<- | [<- | [<- | [<- | []]]]]; eexists;
    (split; [vm_compute; reflexivity | repeat constructor; discriminate]).
Qed.

(** [strptime] on a date of the service followed by a text, for one of
    the formats with a time: what is left is the match of the rest of the
    pattern on the rest of the text. *)
Lemma strptime_service (y m d : Z) (fmt txt : string) :
  0 <= y <= 9999 ->
  In fmt ["-%m-%dT%H:%M:%S"; "-%m-%d %H:%M:%S"; "-%m-%d %H:%M"; "-%m-%d %H"] ->
  strptime (iso_date y m d +:+ " " +:+ txt) (String "%" (String "Y" fmt))
  = match
      match compile_format (list_ascii_of_string fmt) false with
      | Some p =>
          regex_match p (list_ascii_of_string (date_tail m d +:+ " " +:+ txt))
            default_fields
      | None => None
      end
    with
    | Some (f, []) => datetime_new y (fm f) (fd f) (fH f) (fM f) (fS f)
    | _ => Raise ValueError
    end.
Proof.
  intros Hy Hfmt. destruct (tail_format fmt Hfmt) as [p [Hp Hno]]. rewrite Hp.
  change (iso_date y m d +:+ " " +:+ txt)
    with (String (digit (y / 1000)) (String (digit (y / 100)) (String (digit (y / 10))
            (String (digit y) (date_tail m d +:+ " " +:+ txt))))).
  rewrite (strptime_year _ _ _ _ _ fmt p) by (assumption || apply digit_is_digit).
  now rewrite year_digits.
Qed.

(** The four formats with a time on the month, the day and a text of the
    hour: what the rest of the pattern finds. *)
Lemma service_runs (m d h : Z) :
  1 <= m <= 12 -> 1 <= d <= 31 -> 0 <= h < 24 ->
  let run (fmt txt : string) :=
    match compile_format (list_ascii_of_string fmt) false with
    | Some p =>
        regex_match p (list_ascii_of_string (date_tail m d +:+ " " +:+ txt))
          default_fields
    | None => None
    end in
  let found := Some (mkfields 1900 m d h 0 0, []) in
  (forall txt, run "-%m-%dT%H:%M:%S" txt = None)
  /\ run "-%m-%d %H:%M:%S" (format_02d h +:+ ":00:00") = found
  /\ forall txt, txt = str_of_int h \/ txt = format_02d h ->
       txt <> "" /\ run "-%m-%d %H:%M:%S" txt = None /\ run "-%m-%d %H:%M" txt = None
       /\ run "-%m-%d %H" txt = found.
Proof.
  intros Hm Hd Hh run found.
  assert (Htext : forall txt,
             list_ascii_of_string (date_tail m d +:+ " " +:+ txt)
             = (list_ascii_of_string (date_tail m d)
                  ++ " "%char :: list_ascii_of_string txt)%list) by reflexivity.
  pose proof (hour_match h (set_field dir_d d (set_field dir_m m default_fields)) Hh)
    as [Hsec Htxt].
  split_and!.
  - intros txt. unfold run.
    change (compile_format (list_ascii_of_string "-%m-%dT%H:%M:%S") false)
      with (Some (Literal "-" :: Directive dir_m :: Literal "-" :: Directive dir_d
                    :: Literal "T"
                    :: [Directive dir_H; Literal ":"; Directive dir_M; Literal ":";
                        Directive dir_S])).
    rewrite Htext, date_tail_match by auto. reflexivity.
  - unfold run.
    change (compile_format (list_ascii_of_string "-%m-%d %H:%M:%S") false)
      with (Some (Literal "-" :: Directive dir_m :: Literal "-" :: Directive dir_d
                    :: Whitespace
                    :: [Directive dir_H; Literal ":"; Directive dir_M; Literal ":";
                        Directive dir_S])).
    rewrite Htext, date_tail_match by auto. exact Hsec.
  - intros txt Ht. destruct (Htxt txt Ht) as (Hne & H1 & H2 & H3). split_and!.
    + exact Hne.
    + unfold run.
      change (compile_format (list_ascii_of_string "-%m-%d %H:%M:%S") false)
        with (Some (Literal "-" :: Directive dir_m :: Literal "-" :: Directive dir_d
                      :: Whitespace
                      :: [Directive dir_H; Literal ":"; Directive dir_M; Literal ":";
                          Directive dir_S])).
      rewrite Htext, date_tail_match by auto. exact H1.
    + unfold run.
      change (compile_format (list_ascii_of_string "-%m-%d %H:%M") false)
        with (Some (Literal "-" :: Directive dir_m :: Literal "-" :: Directive dir_d
                      :: Whitespace
                      :: [Directive dir_H; Literal ":"; Directive dir_M])).
      rewrite Htext, date_tail_match by auto. exact H2.
    + unfold run.
      change (compile_format (list_ascii_of_string "-%m-%d %H") false)
        with (Some (Literal "-" :: Directive dir_m :: Literal "-" :: Directive dir_d
                      :: Whitespace :: [Directive dir_H])).
      rewrite Htext, date_tail_match by auto. exact H3.
Qed.

Lemma days_in_month_31 (y m : Z) : days_in_month y m <= 31.
Proof.
  unfold days_in_month.
  destruct (m =? 2); [destruct (is_leap y); lia |].
  destruct ((m =? 4) || (m =? 6) || (m =? 9) || (m =? 11)); lia.
Qed.

Lemma datetime_new_valid (y m d h : Z) :
  1 <= y <= 9999 -> 1 <= m <= 12 -> 1 <= d <= days_in_month y m -> 0 <= h < 24 ->
  datetime_new y m d h 0 0 = Ok (mkdatetime y m d h 0 0 0 None).
Proof.
  intros Hy Hm Hd Hh. unfold datetime_new.
  assert ((1 <=? y) && (y <=? 9999) && (1 <=? m) && (m <=? 12) && (1 <=? d)
          && (d <=? days_in_month y m) && (0 <=? h) && (h <=? 23) && (0 <=? 0)
          && (0 <=? 59) && (0 <=? 0) && (0 <=? 59) = true) as ->; [| reflexivity].
  rewrite !andb_true_iff. split_and!; apply Z.leb_le; lia.
Qed.

(** [try_parse_datetime] on a date of the service followed by an hour:
    the hour with [:00:00], as made for a numeric hour, or the text of the
    hour, with or without a leading zero. *)
Lemma try_parse_service (env : environment) (y m d h : Z) (txt : string) :
  1 <= y <= 9999 -> 1 <= m <= 12 -> 1 <= d <= days_in_month y m -> 0 <= h < 24 ->
  txt = format_02d h +:+ ":00:00" \/ txt = str_of_int h \/ txt = format_02d h ->
  txt <> ""
  /\ V2.try_parse_datetime env (VStr (iso_date y m d +:+ " " +:+ txt))
     = Ok (Some (mkdatetime y m d h 0 0 0 None)).
Proof.
  intros Hy Hm Hd Hh Htxt.
  pose proof (days_in_month_31 y m) as H31.
  destruct (service_runs m d h Hm ltac:(lia) Hh) as (HT & Hsec & Hrest).
  assert (Hfail : forall fmt t,
             In fmt ["-%m-%dT%H:%M:%S"; "-%m-%d %H:%M:%S"; "-%m-%d %H:%M"; "-%m-%d %H"] ->
             match compile_format (list_ascii_of_string fmt) false with
             | Some p =>
                 regex_match p (list_ascii_of_string (date_tail m d +:+ " " +:+ t))
                   default_fields
             | None => None
             end = None ->
             exists e, py_strptime (VStr (iso_date y m d +:+ " " +:+ t))
                         (String "%" (String "Y" fmt)) = Raise e).
  { intros fmt t Hfmt Hf. cbn [py_strptime].
    rewrite strptime_service by (lia || assumption). rewrite Hf. eauto. }
  assert (Hhit : forall fmt t,
             In fmt ["-%m-%dT%H:%M:%S"; "-%m-%d %H:%M:%S"; "-%m-%d %H:%M"; "-%m-%d %H"] ->
             match compile_format (list_ascii_of_string fmt) false with
             | Some p =>
                 regex_match p (list_ascii_of_string (date_tail m d +:+ " " +:+ t))
                   default_fields
             | None => None
             end = Some (mkfields 1900 m d h 0 0, []) ->
             py_strptime (VStr (iso_date y m d +:+ " " +:+ t))
               (String "%" (String "Y" fmt)) = Ok (mkdatetime y m d h 0 0 0 None)).
  { intros fmt t Hfmt Hf. cbn [py_strptime].
    rewrite strptime_service by (lia || assumption). rewrite Hf.
    now apply datetime_new_valid. }
  assert (Hparse : forall t, t <> "" ->
             forall i fmt, V2.fmts !! i = Some (String "%" (String "Y" fmt)) ->
             py_strptime (VStr (iso_date y m d +:+ " " +:+ t)) (String "%" (String "Y" fmt))
             = Ok (mkdatetime y m d h 0 0 0 None) ->
             (forall j fmt', (j < i)%nat -> V2.fmts !! j = Some fmt' ->
                exists e, py_strptime (VStr (iso_date y m d +:+ " " +:+ t)) fmt' = Raise e) ->
             V2.try_parse_datetime env (VStr (iso_date y m d +:+ " " +:+ t))
             = Ok (Some (mkdatetime y m d h 0 0 0 None))).
  { intros t Ht i fmt Hi Hok Hbefore. unfold V2.try_parse_datetime.
    change (truthy (VStr (iso_date y m d +:+ " " +:+ t))) with true. cbn [negb].
    exact (try_fmts_hit _ _ _ i _ _ Hi Hok Hbefore). }
  destruct Htxt as [-> | Htxt].
  - assert (Hne : format_02d h +:+ ":00:00" <> "")
      by (intros E; apply (f_equal String.length) in E; rewrite length_append in E;
          simpl in E; lia).
    split; [exact Hne |].
    apply (Hparse _ Hne 1%nat "-%m-%d %H:%M:%S");
      [reflexivity | apply Hhit; [right; now left | exact Hsec] |].
    intros j fmt' Hj Hl. destruct j as [|j]; [| lia]. injection Hl as <-.
    apply Hfail; [now left | apply HT].
  - destruct (Hrest txt Htxt) as (Hne & F1 & F2 & H3).
    split; [exact Hne |].
    apply (Hparse _ Hne 3%nat "-%m-%d %H");
      [reflexivity | apply Hhit; [do 3 right; now left | exact H3] |].
    intros j fmt' Hj Hl.
    destruct j as [|[|[|j]]]; [| | | lia]; injection Hl as <-.
    + apply Hfail; [now left | apply HT].
    + apply Hfail; [right; now left | exact F1].
    + apply Hfail; [right; right; now left | exact F2].
Qed.

Lemma truthy_text (s : string) : s <> "" -> truthy (VStr s) = true.
Proof. intros H. destruct s; [now destruct H | reflexivity]. Qed.

(** X18: for a record as the service writes it, with the measurement date
    as [YYYY-MM-DD] of a date of the calendar and the hour 0..23 in
    [godzina_pomiaru], as a text with or without a leading zero or as a
    number other than 0, the timestamp is that date at that hour. *)
Theorem record_datetime_of_service (env : environment) (m : gmap string value)
    (y mo d h : Z) :
  1 <= y <= 9999 -> 1 <= mo <= 12 -> 1 <= d <= days_in_month y mo -> 0 <= h < 24 ->
  m !! "data_pomiaru" = Some (VStr (iso_date y mo d)) ->
  hour_given m h ->
  V2.record_datetime env (VDict m) = Ok (Some (mkdatetime y mo d h 0 0 0 None)).
Proof.
  intros Hy Hmo Hd Hh Hdate Hhour.
  assert (Hparse : forall txt,
             txt = format_02d h +:+ ":00:00" \/ txt = str_of_int h \/ txt = format_02d h ->
             parse_text env (iso_date y mo d +:+ " " +:+ txt)
             = Some (mkdatetime y mo d h 0 0 0 None)).
  { intros txt Htxt.
    destruct (try_parse_service env y mo d h txt Hy Hmo Hd Hh Htxt) as [_ Hp].
    unfold parse_text. now rewrite Hp. }
  assert (Htext : forall txt,
             txt = str_of_int h \/ txt = format_02d h ->
             m !! "godzina_pomiaru" = Some (VStr txt) ->
             V2.record_datetime env (VDict m)
             = Ok (Some (mkdatetime y mo d h 0 0 0 None))).
  { intros txt Htxt Hm.
    destruct (try_parse_service env y mo d h txt Hy Hmo Hd Hh (or_intror Htxt))
      as [Hne _].
    rewrite (record_datetime_text env m _ (VStr txt) Hdate
               (time_part_first m (VStr txt) Hm (truthy_text txt Hne)) eq_refl).
    change (truthy (VStr (iso_date y mo d))) with true.
    rewrite (truthy_text txt Hne). cbn [andb py_str bind].
    rewrite Hparse by (right; exact Htxt). reflexivity. }
  destruct Hhour as [Hm | [Hm | [Hm Hnz]]].
  - apply (Htext (str_of_int h)); [now left | exact Hm].
  - apply (Htext (format_02d h)); [now right | exact Hm].
  - assert (Ht : truthy (VInt h) = true)
      by (cbn [truthy]; apply negb_true_iff, Z.eqb_neq; exact Hnz).
    rewrite (record_datetime_numeric env m _ (VInt h) Hdate
               (time_part_first m (VInt h) Hm Ht) eq_refl).
    cbn [py_int bind]. unfold py_format_02d.
    rewrite (within_str_digits_below h 2)
      by (change (10 ^ 2) with 100; unfold int_max_str_digits; lia).
    cbn [bind py_str]. unfold from_date_and_hour.
    change (truthy (VStr (iso_date y mo d))) with true. cbv iota.
    rewrite Hparse by now left. reflexivity.
Qed.

Lemma record_datetime_of_service_witness :
  V2.record_datetime (answering VNone)
    (record [("data_pomiaru", VStr "2024-02-29"); ("godzina_pomiaru", VStr "7");
             ("temperatura", VStr "12.3")])
  = Ok (Some (mkdatetime 2024 2 29 7 0 0 0 None)).
Proof.
  pose (m := list_to_map [("data_pomiaru", VStr "2024-02-29");
                          ("godzina_pomiaru", VStr "7");
                          ("temperatura", VStr "12.3")] : gmap string value).
  assert (Hday : 1 <= 29 <= days_in_month 2024 2) by (vm_compute; split; discriminate).
  assert (Hdate : m !! "data_pomiaru" = Some (VStr (iso_date 2024 2 29)))
    by (vm_compute; reflexivity).
  assert (Hhour : hour_given m 7) by (left; vm_compute; reflexivity).
  apply (record_datetime_of_service (answering VNone) m 2024 2 29 7
           ltac:(lia) ltac:(lia) Hday ltac:(lia) Hdate Hhour).
Defined.
